(** * Building blocks of [official/vision/modeling/layers/nn_blocks.py]

    A shallow embedding of the reversible residual layer ([ReversibleLayer],
    with [_maybe_downsample] and [_pad_strides]), of [call] of
    [InvertedBottleneckBlock], [TuckerConvBlock], [LayerScale],
    [TransformerEncoderBlock] and [TransformerScaffold], and of the
    [__init__] / [get_config] pairs of the block classes.

    Tensors are rank-4 arrays whose elements are rationals ([Qc]); sums,
    differences and means are computed on them exactly, where the source
    computes in float32.  The statements below use this arithmetic only
    where float32 gives the same result: copies, zeros, [x + 0.], the mean
    of a single element, and the small integers and dyadic fractions of the
    concrete runs; none relies on an identity that rounding breaks, such as
    [(a + b) - b = a].  Where a statement is about the value of a float32
    product ([LayerScale]), float32 rounding and multiplication are
    parameters.  TensorFlow primitives ([tf.split], [tf.concat],
    [tf.nn.avg_pool], [tf.pad], broadcasting [+], [-] and [*]) are modelled
    after their documented semantics; the inner blocks F and G are
    arbitrary layers, given by their forward function and by the
    vector-Jacobian product a [tf.GradientTape] computes for them; the
    Keras sub-layers of the composite blocks are arbitrary functions that
    may raise. *)

From Stdlib Require Import ZArith QArith Qcanon List Lia Bool.
From stdpp Require Import base gmap list strings.
Import ListNotations.

Set Default Proof Using "Type".

(** ** Exceptions and results *)

Inductive exn :=
| InvalidArgumentError   (* tf.errors.InvalidArgumentError: shape mismatch *)
| UnimplementedError     (* pooling over batch or depth *)
| ValueError             (* list.index: value not in list *)
| TypeError              (* None where a list or a tensor is expected *)
| IndexError             (* shape index out of range *)
| AttributeError         (* attribute read before it was set *)
| FailedPreconditionError (* variable read before initialisation *)
| LayerError (code : nat). (* an error raised inside an inner block *)

Inductive result (A : Type) :=
| Ok (a : A)
| Raise (e : exn).
Arguments Ok {A} a.
Arguments Raise {A} e.

#[global] Instance result_ret : MRet result := fun A a => Ok a.
#[global] Instance result_bind : MBind result := fun A B k r =>
  match r with
  | Ok a => k a
  | Raise e => Raise e
  end.

Definition is_ok {A} (r : result A) : bool :=
  match r with Ok _ => true | Raise _ => false end.

(** ** Rank-4 tensors *)

(** A position in (or the shape of) a rank-4 array, in physical axis order. *)
Record ix4 := Ix { i0 : nat; i1 : nat; i2 : nat; i3 : nat }.

Inductive axis4 := Ax0 | Ax1 | Ax2 | Ax3.

Definition ix_get (k : axis4) (i : ix4) : nat :=
  match k with Ax0 => i0 i | Ax1 => i1 i | Ax2 => i2 i | Ax3 => i3 i end.

Definition ix_set (k : axis4) (v : nat) (i : ix4) : ix4 :=
  match k with
  | Ax0 => Ix v (i1 i) (i2 i) (i3 i)
  | Ax1 => Ix (i0 i) v (i2 i) (i3 i)
  | Ax2 => Ix (i0 i) (i1 i) v (i3 i)
  | Ax3 => Ix (i0 i) (i1 i) (i2 i) v
  end.

Definition in_range (i d : ix4) : Prop :=
  (i0 i < i0 d)%nat /\ (i1 i < i1 d)%nat /\ (i2 i < i2 d)%nat /\ (i3 i < i3 d)%nat.

Definition in_rangeb (i d : ix4) : bool :=
  (i0 i <? i0 d)%nat && (i1 i <? i1 d)%nat && (i2 i <? i2 d)%nat && (i3 i <? i3 d)%nat.

(** Python's index normalisation on a rank-4 shape: [-4 .. 3]. *)
Definition norm_axis (axis : Z) : option axis4 :=
  let a := if (axis <? 0)%Z then (axis + 4)%Z else axis in
  if (a =? 0)%Z then Some Ax0
  else if (a =? 1)%Z then Some Ax1
  else if (a =? 2)%Z then Some Ax2
  else if (a =? 3)%Z then Some Ax3
  else None.

Record tensor := Tensor {
  dims : ix4;
  data : list (list (list (list Qc)))
}.

Definition tab {A} (n : nat) (f : nat -> A) : list A := map f (seq 0 n).

(** The tensor of shape [d] whose element at [i] is [f i]. *)
Definition tgen (d : ix4) (f : ix4 -> Qc) : tensor :=
  Tensor d
    (tab (i0 d) (fun a => tab (i1 d) (fun b => tab (i2 d) (fun c =>
       tab (i3 d) (fun e => f (Ix a b c e)))))).

Definition tget (t : tensor) (i : ix4) : Qc :=
  nth (i3 i) (nth (i2 i) (nth (i1 i) (nth (i0 i) (data t) []) []) []) (Q2Qc 0).

(** [x.shape[axis]] *)
Definition shape_at (x : tensor) (axis : Z) : result Z :=
  match norm_axis axis with
  | Some k => Ok (Z.of_nat (ix_get k (dims x)))
  | None => Raise IndexError
  end.

Definition qsum (l : list Qc) : Qc := fold_right Qcplus (Q2Qc 0) l.

Definition qnat (n : nat) : Qc := Q2Qc (inject_Z (Z.of_nat n)).

(** *** Broadcasting element-wise operations *)

Definition bdim (a b : nat) : option nat :=
  if (a =? b)%nat then Some a
  else if (a =? 1)%nat then Some b
  else if (b =? 1)%nat then Some a
  else None.

Definition bshape (da db : ix4) : option ix4 :=
  match bdim (i0 da) (i0 db), bdim (i1 da) (i1 db),
        bdim (i2 da) (i2 db), bdim (i3 da) (i3 db) with
  | Some a, Some b, Some c, Some e => Some (Ix a b c e)
  | _, _, _, _ => None
  end.

(** Where position [i] of the broadcast result reads an operand of shape [d]. *)
Definition bidx (d i : ix4) : ix4 :=
  Ix (if (i0 d =? 1)%nat then 0 else i0 i) (if (i1 d =? 1)%nat then 0 else i1 i)
     (if (i2 d =? 1)%nat then 0 else i2 i) (if (i3 d =? 1)%nat then 0 else i3 i).

(** An elementwise operation on two tensors, with broadcasting.  For [+]
    and [-] the operation on the elements is the exact one, where the
    source rounds to float32 (see the head of the file). *)
Definition binop (op : Qc -> Qc -> Qc) (a b : tensor) : result tensor :=
  match bshape (dims a) (dims b) with
  | Some d =>
      Ok (tgen d (fun i => op (tget a (bidx (dims a) i)) (tget b (bidx (dims b) i))))
  | None => Raise InvalidArgumentError
  end.

(** [a + b] and [a - b] on tensors *)
Definition tf_add : tensor -> tensor -> result tensor := binop Qcplus.
Definition tf_sub : tensor -> tensor -> result tensor := binop Qcminus.

(** [x + 0.]: a tensor plus a Python float *)
Definition tf_add_scalar (x : tensor) (q : Qc) : tensor :=
  tgen (dims x) (fun i => (tget x i + q)%Qc).

Definition tf_identity (x : tensor) : tensor := x.
Definition tf_stop_gradient (x : tensor) : tensor := x.

(** The gradient of a broadcast operand of shape [d]: the incoming gradient
    summed over the axes along which the operand was replicated. *)
Definition usum (td gd : nat) (i : nat) (f : nat -> Qc) : Qc :=
  if (td =? gd)%nat then f i else qsum (tab gd f).

Definition ix_eqb (a b : ix4) : bool :=
  (i0 a =? i0 b)%nat && (i1 a =? i1 b)%nat && (i2 a =? i2 b)%nat && (i3 a =? i3 b)%nat.

Definition ucompat (td gd : nat) : bool := (td =? gd)%nat || (td =? 1)%nat.

Definition unbroadcast (g : tensor) (d : ix4) : result tensor :=
  let gd := dims g in
  if ucompat (i0 d) (i0 gd) && ucompat (i1 d) (i1 gd) &&
     ucompat (i2 d) (i2 gd) && ucompat (i3 d) (i3 gd)
  then
    Ok (tgen d (fun i =>
      usum (i0 d) (i0 gd) (i0 i) (fun a =>
      usum (i1 d) (i1 gd) (i1 i) (fun b =>
      usum (i2 d) (i2 gd) (i2 i) (fun c =>
      usum (i3 d) (i3 gd) (i3 i) (fun e => tget g (Ix a b c e)))))))
  else Raise InvalidArgumentError.

(** Sum of two gradients of one shape (the tape's accumulation). *)
Definition tacc (a b : tensor) : result tensor :=
  if ix_eqb (dims a) (dims b)
  then Ok (tgen (dims a) (fun i => (tget a i + tget b i)%Qc))
  else Raise InvalidArgumentError.

(** Accumulation of two optional gradients of one variable. *)
Definition acc_opt (a b : option tensor) : result (option tensor) :=
  match a, b with
  | Some ta, Some tb => t ← tacc ta tb; Ok (Some t)
  | Some ta, None => Ok (Some ta)
  | None, Some tb => Ok (Some tb)
  | None, None => Ok None
  end.

(** *** [tf.split] and [tf.concat] *)

Definition tf_split (x : tensor) (num_or_size_splits : Z) (axis : Z)
  : result (list tensor) :=
  match norm_axis axis with
  | None => Raise InvalidArgumentError
  | Some k =>
      let n := Z.to_nat num_or_size_splits in
      let d := ix_get k (dims x) in
      if (num_or_size_splits <=? 0)%Z then Raise InvalidArgumentError
      else if negb (d mod n =? 0)%nat then Raise InvalidArgumentError
      else
        let part := (d / n)%nat in
        Ok (tab n (fun j =>
              tgen (ix_set k part (dims x))
                   (fun i => tget x (ix_set k (ix_get k i + j * part)%nat i))))
  end.

Definition same_except (k : axis4) (da db : ix4) : bool :=
  match k with
  | Ax0 => (i1 da =? i1 db)%nat && (i2 da =? i2 db)%nat && (i3 da =? i3 db)%nat
  | Ax1 => (i0 da =? i0 db)%nat && (i2 da =? i2 db)%nat && (i3 da =? i3 db)%nat
  | Ax2 => (i0 da =? i0 db)%nat && (i1 da =? i1 db)%nat && (i3 da =? i3 db)%nat
  | Ax3 => (i0 da =? i0 db)%nat && (i1 da =? i1 db)%nat && (i2 da =? i2 db)%nat
  end.

Definition concat2 (k : axis4) (a b : tensor) : result tensor :=
  if same_except k (dims a) (dims b) then
    let ca := ix_get k (dims a) in
    Ok (tgen (ix_set k (ca + ix_get k (dims b))%nat (dims a))
          (fun i => if (ix_get k i <? ca)%nat then tget a i
                    else tget b (ix_set k (ix_get k i - ca)%nat i)))
  else Raise InvalidArgumentError.

Fixpoint concat_from (k : axis4) (acc : tensor) (rest : list tensor) : result tensor :=
  match rest with
  | [] => Ok acc
  | t :: rest' =>
      match concat2 k acc t with
      | Ok acc' => concat_from k acc' rest'
      | Raise e => Raise e
      end
  end.

Definition tf_concat (values : list tensor) (axis : Z) : result tensor :=
  match norm_axis axis, values with
  | Some k, t :: rest => concat_from k t rest
  | _, _ => Raise InvalidArgumentError
  end.

(** The slice [start .. start + size) of [g] along axis [k]. *)
Definition tslice (k : axis4) (start size : nat) (g : tensor) : tensor :=
  tgen (ix_set k size (dims g))
       (fun i => tget g (ix_set k (ix_get k i + start)%nat i)).

(** *** [tf.nn.avg_pool] and [tf.pad] *)

Inductive data_format := NHWC | NCHW.
Inductive padding := VALID.

Definition z4 : Type := (Z * Z * Z * Z)%type.

Definition z4_get (k : axis4) (s : z4) : Z :=
  let '(a, b, c, e) := s in
  match k with Ax0 => a | Ax1 => b | Ax2 => c | Ax3 => e end.

Definition spatial_axes (fmt : data_format) : axis4 * axis4 :=
  match fmt with NHWC => (Ax1, Ax2) | NCHW => (Ax2, Ax3) end.

Definition batch_depth_axes (fmt : data_format) : axis4 * axis4 :=
  match fmt with NHWC => (Ax0, Ax3) | NCHW => (Ax0, Ax1) end.

(** Output size of a VALID window of size [k] moved by stride [s]. *)
Definition windowed_output_size (input : nat) (k s : Z) : result nat :=
  if ((k <=? 0) || (s <=? 0))%Z then Raise InvalidArgumentError
  else
    let o := Z.quot (Z.of_nat input - k + s) s in
    if (o <? 0)%Z then Raise InvalidArgumentError else Ok (Z.to_nat o).

Definition window_mean (kh kw : nat) (f : nat -> nat -> Qc) : Qc :=
  (qsum (tab kh (fun eh => qsum (tab kw (fun ew => f eh ew)))) / qnat (kh * kw))%Qc.

Definition avg_pool (x : tensor) (ksize strides : z4) (pad : padding)
    (fmt : data_format) : result tensor :=
  let '(ah, aw) := spatial_axes fmt in
  let '(ab, ad) := batch_depth_axes fmt in
  if negb ((z4_get ab ksize =? 1) && (z4_get ad ksize =? 1) &&
           (z4_get ab strides =? 1) && (z4_get ad strides =? 1))%Z
  then Raise UnimplementedError
  else
    match windowed_output_size (ix_get ah (dims x)) (z4_get ah ksize) (z4_get ah strides),
          windowed_output_size (ix_get aw (dims x)) (z4_get aw ksize) (z4_get aw strides) with
    | Ok oh, Ok ow =>
        let kh := Z.to_nat (z4_get ah ksize) in
        let kw := Z.to_nat (z4_get aw ksize) in
        let sh := Z.to_nat (z4_get ah strides) in
        let sw := Z.to_nat (z4_get aw strides) in
        Ok (tgen (ix_set ah oh (ix_set aw ow (dims x)))
              (fun i => window_mean kh kw (fun eh ew =>
                 tget x (ix_set ah (ix_get ah i * sh + eh)%nat
                           (ix_set aw (ix_get aw i * sw + ew)%nat i)))))
    | Raise e, _ => Raise e
    | _, Raise e => Raise e
    end.

(** The gradient of [avg_pool] with respect to its input of shape [xd]: every
    output position spreads its gradient evenly over its window. *)
Definition avg_pool_grad (xd : ix4) (ksize strides : z4) (fmt : data_format)
    (g : tensor) : tensor :=
  let '(ah, aw) := spatial_axes fmt in
  let kh := Z.to_nat (z4_get ah ksize) in
  let kw := Z.to_nat (z4_get aw ksize) in
  let sh := Z.to_nat (z4_get ah strides) in
  let sw := Z.to_nat (z4_get aw strides) in
  tgen xd (fun i =>
    qsum (tab (ix_get ah (dims g)) (fun oh =>
      qsum (tab (ix_get aw (dims g)) (fun ow =>
        if ((oh * sh <=? ix_get ah i) && (ix_get ah i <? oh * sh + kh) &&
            (ow * sw <=? ix_get aw i) && (ix_get aw i <? ow * sw + kw))%nat
        then (tget g (ix_set ah oh (ix_set aw ow i)) / qnat (kh * kw))%Qc
        else Q2Qc 0))))).

(** [tf.pad(x, paddings)] with constant 0; [paddings] has one
    [(before, after)] row per axis. *)
Definition pad_row (paddings : list (Z * Z)) (k : nat) : Z * Z :=
  nth k paddings (0%Z, 0%Z).

Definition tf_pad (x : tensor) (paddings : list (Z * Z)) : result tensor :=
  if negb (length paddings =? 4)%nat then Raise InvalidArgumentError
  else if existsb (fun p => (fst p <? 0)%Z || (snd p <? 0)%Z) paddings
  then Raise InvalidArgumentError
  else
    let b k := Z.to_nat (fst (pad_row paddings k)) in
    let a k := Z.to_nat (snd (pad_row paddings k)) in
    let d := dims x in
    Ok (tgen (Ix (b 0 + i0 d + a 0) (b 1 + i1 d + a 1)
                 (b 2 + i2 d + a 2) (b 3 + i3 d + a 3))%nat
          (fun i =>
             if ((b 0 <=? i0 i) && (i0 i <? b 0 + i0 d) &&
                 (b 1 <=? i1 i) && (i1 i <? b 1 + i1 d) &&
                 (b 2 <=? i2 i) && (i2 i <? b 2 + i2 d) &&
                 (b 3 <=? i3 i) && (i3 i <? b 3 + i3 d))%nat
             then tget x (Ix (i0 i - b 0) (i1 i - b 1) (i2 i - b 2) (i3 i - b 3))%nat
             else Q2Qc 0)).

(** The gradient of [tf.pad] with respect to its input of shape [xd]. *)
Definition pad_grad (xd : ix4) (paddings : list (Z * Z)) (g : tensor) : tensor :=
  let b k := Z.to_nat (fst (pad_row paddings k)) in
  tgen xd (fun i =>
    tget g (Ix (i0 i + b 0) (i1 i + b 1) (i2 i + b 2) (i3 i + b 3))%nat).

(** ** Helpers on Python lists *)

Fixpoint mapR {A B} (f : A -> result B) (l : list A) : result (list B) :=
  match l with
  | [] => Ok []
  | a :: l' =>
      match f a with
      | Ok b => match mapR f l' with Ok bs => Ok (b :: bs) | Raise e => Raise e end
      | Raise e => Raise e
      end
  end.

(** [l.index(v)]: the position of the first occurrence, [ValueError] if none. *)
Fixpoint list_index (l : list nat) (v : nat) : result nat :=
  match l with
  | [] => Raise ValueError
  | a :: l' =>
      if (a =? v)%nat then Ok 0%nat
      else match list_index l' v with Ok i => Ok (S i) | Raise e => Raise e end
  end.

(** [l[i]] for a non-negative [i]. *)
Definition list_item {A} (l : list A) (i : nat) : result A :=
  match nth_error l i with Some a => Ok a | None => Raise IndexError end.

(** [a, b = l] *)
Definition unpack2 {A} (l : list A) : result (A * A) :=
  match l with
  | [a; b] => Ok (a, b)
  | _ => Raise ValueError
  end.

(** Iterating over an argument that defaults to [None]. *)
Definition require_list {A} (o : option (list A)) : result (list A) :=
  match o with Some l => Ok l | None => Raise TypeError end.

(** ** The source's helpers *)

Definition _pad_strides (strides axis : Z) : z4 :=
  if (axis =? 1)%Z then (1, 1, strides, strides)%Z
  else (1, strides, strides, 1)%Z.

Definition _maybe_downsample (x : tensor) (out_filter strides axis : Z)
  : result tensor :=
  let data_format := if (axis =? 1)%Z then NCHW else NHWC in
  let strides := _pad_strides strides axis in
  x ← avg_pool x strides strides VALID data_format;
  in_filter ← shape_at x axis;
  x ← (if (in_filter <? out_filter)%Z then
         let pad_size := ((out_filter - in_filter) / 2, (out_filter - in_filter) / 2)%Z in
         if (axis =? 1)%Z
         then tf_pad x [(0, 0); pad_size; (0, 0); (0, 0)]%Z
         else tf_pad x [(0, 0); (0, 0); (0, 0); pad_size]%Z
       else Ok x);
  Ok (tf_add_scalar x (Q2Qc 0)).

(** ** Variables, layers and the state of a call *)

(** A [tf.Variable] is identified by its reference ([v.ref()]); the values of
    all variables live in one store, shared by every layer that holds them. *)
Abbreviation store := (gmap nat tensor).

(** An inner block (the [f] and [g] arguments of [ReversibleLayer]): any
    Keras layer with a [strides] attribute.  [call] is the forward function
    on the current variable values; it may raise, and it may update the
    layer's non-trainable variables.  [backprop training st x dy] is what
    [tape.gradient(out, [x] + variables, output_gradients=dy)] returns for a
    tape that recorded [out = layer(x, training)] on the variable values
    [st]: the gradient of the input and, per variable reference, the
    gradient of that variable ([None] when absent). *)
Record Layer := {
  strides : Z;
  trainable_variables : list nat;
  non_trainable_variables : list nat;
  call : option bool -> store -> tensor -> result tensor * store;
  backprop : option bool -> store -> tensor -> tensor -> result (tensor * store)
}.

Inductive block := BlockF | BlockG.
Inductive tape := FwdTape | GTape | FTape.

(** The actions of a run, in order. *)
Inductive event :=
| EvCall (b : block)            (* [self._f(...)] or [self._g(...)] *)
| EvIrreversible (flag : bool)  (* the [irreversible] condition is evaluated *)
| EvCkpt                        (* [_ckpt_non_trainable_vars] completed *)
| EvLoadCkpt                    (* [_load_ckpt_non_trainable_vars] is entered *)
| EvGradient (t : tape).        (* [t.gradient(...)] is called *)

Record world := World {
  vars : store;
  _f_non_trainable_vars : option (list tensor);
  _g_non_trainable_vars : option (list tensor);
  trace : list event
}.

(** Computations that read and write the world and may raise; the world at
    the point of the raise stays observable. *)
Definition M (A : Type) : Type := world -> result A * world.

#[global] Instance M_ret : MRet M := fun A a w => (Ok a, w).
#[global] Instance M_bind : MBind M := fun A B k m w =>
  match m w with
  | (Ok a, w') => k a w'
  | (Raise e, w') => (Raise e, w')
  end.

Definition lift {A} (r : result A) : M A := fun w => (r, w).
Definition emit (e : event) : M unit := fun w =>
  (Ok tt, World (vars w) (_f_non_trainable_vars w) (_g_non_trainable_vars w)
             (trace w ++ [e])).
Definition get_vars : M store := fun w => (Ok (vars w), w).

Definition call_layer (b : block) (L : Layer) (training : option bool)
    (x : tensor) : M tensor := fun w =>
  let '(r, st) := call L training (vars w) x in
  (r, World st (_f_non_trainable_vars w) (_g_non_trainable_vars w)
        (trace w ++ [EvCall b])).

(** [v.read_value()] *)
Definition read_value (st : store) (v : nat) : result tensor :=
  match st !! v with
  | Some t => Ok t
  | None => Raise FailedPreconditionError
  end.

(** [for v, c in zip(vs, cs): v.assign(c)] *)
Definition assign_all (vs : list nat) (cs : list tensor) (st : store) : store :=
  fold_left (fun st p => <[fst p := snd p]> st) (combine vs cs) st.

(** [tape.gradient(out, [x] + sources, output_gradients=dy)] for a tape that
    recorded one call of [L]. *)
Definition tape_gradient (L : Layer) (training : option bool) (st : store)
    (x : tensor) (sources : list nat) (output_gradients : tensor)
  : result (tensor * list (option tensor)) :=
  '(dx, dw) ← backprop L training st x output_gradients;
  Ok (dx, map (fun v => dw !! v) sources).

(** ** ReversibleLayer *)

Record ReversibleLayer := {
  _f : Layer;
  _g : Layer;
  _manual_grads : bool;
  _axis : Z
}.

(** [ReversibleLayer.__init__]; [image_data_format] is the value of
    [tf.keras.backend.image_data_format()]. *)
Definition ReversibleLayer_init (image_data_format : string) (f g : Layer)
    (manual_grads : bool) : ReversibleLayer :=
  {| _f := f; _g := g; _manual_grads := manual_grads;
     _axis := if String.eqb image_data_format "channels_last" then (-1)%Z else 1%Z |}.

Definition _ckpt_non_trainable_vars (self : ReversibleLayer) : M unit := fun w =>
  match mapR (read_value (vars w)) (non_trainable_variables (_f self)) with
  | Raise e => (Raise e, w)
  | Ok fs =>
      let w1 := World (vars w) (Some fs) (_g_non_trainable_vars w) (trace w) in
      match mapR (read_value (vars w1)) (non_trainable_variables (_g self)) with
      | Raise e => (Raise e, w1)
      | Ok gs =>
          (Ok tt, World (vars w1) (_f_non_trainable_vars w1) (Some gs)
                    (trace w1 ++ [EvCkpt]))
      end
  end.

Definition _load_ckpt_non_trainable_vars (self : ReversibleLayer) : M unit := fun w =>
  let w0 := World (vars w) (_f_non_trainable_vars w) (_g_non_trainable_vars w)
                  (trace w ++ [EvLoadCkpt]) in
  match _f_non_trainable_vars w0 with
  | None => (Raise AttributeError, w0)
  | Some fs =>
      let w1 := World (assign_all (non_trainable_variables (_f self)) fs (vars w0))
                      (_f_non_trainable_vars w0) (_g_non_trainable_vars w0) (trace w0) in
      match _g_non_trainable_vars w1 with
      | None => (Raise AttributeError, w1)
      | Some gs =>
          (Ok tt, World (assign_all (non_trainable_variables (_g self)) gs (vars w1))
                    (_f_non_trainable_vars w1) (_g_non_trainable_vars w1) (trace w1))
      end
  end.

(** What the forward tape recorded: the operands of every operation. *)
Record fwd_tape := {
  tp_x1 : tensor; tp_x2 : tensor;
  tp_f_vars : store; tp_f_x2 : tensor; tp_x1_down : tensor; tp_z1 : tensor;
  tp_g_vars : store; tp_g_z1 : tensor; tp_x2_down : tensor
}.

(** The variables of [reversible] that [grad_fn] closes over. *)
Record closure := {
  cl_x : tensor;
  cl_y : tensor; cl_y1 : tensor; cl_y2 : tensor;
  cl_irreversible : bool;
  cl_fwdtape : fwd_tape
}.

Definition reversible (self : ReversibleLayer) (training : option bool)
    (inputs x : tensor) : M (tensor * closure) :=
  xs ← lift (tf_split x 2 (_axis self));
  '(x1, x2) ← lift (unpack2 xs);
  f_vars ← get_vars;
  f_x2 ← call_layer BlockF (_f self) training x2;
  f_filters ← lift (shape_at f_x2 (_axis self));
  x1_down ← lift (_maybe_downsample x1 f_filters (strides (_f self)) (_axis self));
  z1 ← lift (tf_add f_x2 x1_down);
  g_vars ← get_vars;
  g_z1 ← call_layer BlockG (_g self) training z1;
  g_filters ← lift (shape_at g_z1 (_axis self));
  x2_down ← lift (_maybe_downsample x2 g_filters (strides (_f self)) (_axis self));
  y2 ← lift (tf_add x2_down g_z1);
  let y1 := tf_identity z1 in
  y ← lift (tf_concat [y1; y2] (_axis self));
  y_filters ← lift (shape_at y (_axis self));
  in_filters ← lift (shape_at inputs (_axis self));
  let irreversible :=
    (negb (strides (_f self) =? 1)%Z || negb (strides (_g self) =? 1)%Z)
    || negb (y_filters =? in_filters)%Z in
  emit (EvIrreversible irreversible);;
  _ckpt_non_trainable_vars self;;
  mret (y, {| cl_x := x; cl_y := y; cl_y1 := y1; cl_y2 := y2;
              cl_irreversible := irreversible;
              cl_fwdtape := {| tp_x1 := x1; tp_x2 := x2; tp_f_vars := f_vars;
                               tp_f_x2 := f_x2; tp_x1_down := x1_down; tp_z1 := z1;
                               tp_g_vars := g_vars; tp_g_z1 := g_z1;
                               tp_x2_down := x2_down |} |}).

(** *** What [fwdtape.gradient] computes

    The forward tape recorded, in order: the split of [x]; [f_x2 = F(x2)];
    [x1_down]; [z1 = f_x2 + x1_down]; [g_z1 = G(z1)]; [x2_down];
    [y2 = x2_down + g_z1]; [y1 = identity(z1)]; [y = concat(y1, y2)].
    Reverse-mode differentiation walks these operations backwards and sums
    the contributions that reach one tensor or one variable. *)

(** Through [_maybe_downsample]: the gradient of [+ 0.] is the identity,
    that of [tf.pad] a slice, that of [avg_pool] an even spread. *)
Definition maybe_downsample_vjp (x : tensor) (out_filter strides axis : Z)
    (g : tensor) : result tensor :=
  let data_format := if (axis =? 1)%Z then NCHW else NHWC in
  let strides := _pad_strides strides axis in
  pooled ← avg_pool x strides strides VALID data_format;
  in_filter ← shape_at pooled axis;
  if (in_filter <? out_filter)%Z then
    let pad_size := ((out_filter - in_filter) / 2, (out_filter - in_filter) / 2)%Z in
    let paddings := if (axis =? 1)%Z
                    then [(0, 0); pad_size; (0, 0); (0, 0)]%Z
                    else [(0, 0); (0, 0); (0, 0); pad_size]%Z in
    padded ← tf_pad pooled paddings;
    g ← unbroadcast g (dims padded);
    Ok (avg_pool_grad (dims x) strides strides data_format
          (pad_grad (dims pooled) paddings g))
  else
    g ← unbroadcast g (dims pooled);
    Ok (avg_pool_grad (dims x) strides strides data_format g).

Definition fwdtape_gradient (self : ReversibleLayer) (training : option bool)
    (cl : closure) (variables : list nat) (dy : tensor)
  : result (tensor * list (option tensor)) :=
  let tp := cl_fwdtape cl in
  match norm_axis (_axis self) with
  | None => Raise InvalidArgumentError
  | Some k =>
      (* y = concat([y1, y2]) *)
      if negb (ix_eqb (dims dy) (dims (cl_y cl))) then Raise InvalidArgumentError else
      let c1 := ix_get k (dims (cl_y1 cl)) in
      let dy1 := tslice k 0 c1 dy in
      let dy2 := tslice k c1 (ix_get k (dims (cl_y2 cl))) dy in
      (* y2 = x2_down + g_z1 *)
      dx2_down ← unbroadcast dy2 (dims (tp_x2_down tp));
      dg_z1 ← unbroadcast dy2 (dims (tp_g_z1 tp));
      (* g_z1 = G(z1) *)
      '(dz1_g, dwg) ← backprop (_g self) training (tp_g_vars tp) (tp_z1 tp) dg_z1;
      (* z1 feeds y1 = identity(z1) and G *)
      dz1 ← tacc dy1 dz1_g;
      (* z1 = f_x2 + x1_down *)
      df_x2 ← unbroadcast dz1 (dims (tp_f_x2 tp));
      dx1_down ← unbroadcast dz1 (dims (tp_x1_down tp));
      (* f_x2 = F(x2) *)
      '(dx2_f, dwf) ← backprop (_f self) training (tp_f_vars tp) (tp_x2 tp) df_x2;
      f_filters ← shape_at (tp_f_x2 tp) (_axis self);
      g_filters ← shape_at (tp_g_z1 tp) (_axis self);
      dx1 ← maybe_downsample_vjp (tp_x1 tp) f_filters (strides (_f self)) (_axis self) dx1_down;
      dx2_d ← maybe_downsample_vjp (tp_x2 tp) g_filters (strides (_f self)) (_axis self) dx2_down;
      (* x2 feeds x2_down and F *)
      dx2 ← tacc dx2_d dx2_f;
      (* x1, x2 = split(x) *)
      dx ← tf_concat [dx1; dx2] (_axis self);
      grad_vars ← mapR (fun v => acc_opt (dwf !! v) (dwg !! v)) variables;
      Ok (dx, grad_vars)
  end.

(** *** [grad_fn] *)

(** The [if] branch: automatic differentiation of the recorded forward. *)
Definition grad_fn_autodiff (self : ReversibleLayer) (training : option bool)
    (cl : closure) (dy : tensor) (variables : option (list nat))
  : M (tensor * list (option tensor)) :=
  vs ← lift (require_list variables);
  emit (EvGradient FwdTape);;
  grads_combined ← lift (fwdtape_gradient self training cl vs dy);
  let dx := fst grads_combined in
  let grad_vars := snd grads_combined in
  mret (dx, grad_vars).

(** The [else] branch: Algorithm 1 of the RevNet paper. *)
Definition grad_fn_manual (self : ReversibleLayer) (training : option bool)
    (cl : closure) (dy : tensor) (variables : option (list nat))
  : M (tensor * list (option tensor)) :=
  let y1_nograd := tf_stop_gradient (cl_y1 cl) in
  let y2_nograd := tf_stop_gradient (cl_y2 cl) in
  dys ← lift (tf_split dy 2 (_axis self));
  '(dy1, dy2) ← lift (unpack2 dys);
  let f_var_refs := trainable_variables (_f self) in
  let g_var_refs := trainable_variables (_g self) in
  let fg_var_refs := f_var_refs ++ g_var_refs in
  vs ← lift (require_list variables);
  self_to_var_index ← lift (mapR (list_index fg_var_refs) vs);
  let z1 := y1_nograd in
  g_vars ← get_vars;
  g_z1 ← call_layer BlockG (_g self) training z1;
  x2 ← lift (tf_sub y2_nograd g_z1);
  f_vars ← get_vars;
  f_x2 ← call_layer BlockF (_f self) training x2;
  x1 ← lift (tf_sub z1 f_x2);
  emit (EvGradient GTape);;
  g_grads_combined ← lift (tape_gradient (_g self) training g_vars z1
                             (trainable_variables (_g self)) dy2);
  dz1 ← lift (tf_add dy1 (fst g_grads_combined));
  let dwg := snd g_grads_combined in
  emit (EvGradient FTape);;
  f_grads_combined ← lift (tape_gradient (_f self) training f_vars x2
                             (trainable_variables (_f self)) dz1);
  dx2 ← lift (tf_add dy2 (fst f_grads_combined));
  let dwf := snd f_grads_combined in
  let dx1 := dz1 in
  dx ← lift (tf_concat [dx1; dx2] (_axis self));
  let grad_vars := dwf ++ dwg in
  grad_vars ← lift (mapR (list_item grad_vars) self_to_var_index);
  _load_ckpt_non_trainable_vars self;;
  mret (dx, grad_vars).

Definition grad_fn (self : ReversibleLayer) (training : option bool)
    (cl : closure) (dy : tensor) (variables : option (list nat))
  : M (tensor * list (option tensor)) :=
  if cl_irreversible cl || negb (_manual_grads self)
  then grad_fn_autodiff self training cl dy variables
  else grad_fn_manual self training cl dy variables.

(** [ReversibleLayer.call]: the activations and the gradient function that
    [tf.custom_gradient] registers for them. *)
Definition ReversibleLayer_call (self : ReversibleLayer) (inputs : tensor)
    (training : option bool) : M (tensor * closure) :=
  reversible self training inputs inputs.

(** ** A concrete inner block

    [pool_scale_layer s wref mref] is a channels-last layer with stride [s]:
    it average-pools its input with window and stride [s] and multiplies the
    result by the scalar weight held in variable [wref].  Like batch
    normalisation it keeps a moving statistic in the non-trainable variable
    [mref], updated on every call in training mode and never read by the
    output. *)

Definition tsum (t : tensor) : Qc :=
  let d := dims t in
  qsum (tab (i0 d) (fun a => qsum (tab (i1 d) (fun b => qsum (tab (i2 d) (fun c =>
    qsum (tab (i3 d) (fun e => tget t (Ix a b c e))))))))).

Definition scalar (q : Qc) : tensor := tgen (Ix 1 1 1 1) (fun _ => q).
Definition origin : ix4 := Ix 0 0 0 0.

Definition pool_scale_call (s : Z) (wref mref : nat) (training : option bool)
    (st : store) (x : tensor) : result tensor * store :=
  match st !! wref with
  | Some w =>
      match avg_pool x (1, s, s, 1)%Z (1, s, s, 1)%Z VALID NHWC with
      | Ok p =>
          let out := tgen (dims p) (fun i => (tget w origin * tget p i)%Qc) in
          let st' := match training, st !! mref with
                     | Some true, Some m =>
                         <[mref := scalar ((tget m origin + tget x origin) / Q2Qc 2)%Qc]> st
                     | _, _ => st
                     end in
          (Ok out, st')
      | Raise e => (Raise e, st)
      end
  | None => (Raise FailedPreconditionError, st)
  end.

Definition pool_scale_backprop (s : Z) (wref : nat) (training : option bool)
    (st : store) (x dy : tensor) : result (tensor * store) :=
  match st !! wref with
  | Some w =>
      p ← avg_pool x (1, s, s, 1)%Z (1, s, s, 1)%Z VALID NHWC;
      if ix_eqb (dims dy) (dims p) then
        let dp := tgen (dims p) (fun i => (tget w origin * tget dy i)%Qc) in
        let dw := scalar (tsum (tgen (dims p) (fun i => (tget p i * tget dy i)%Qc))) in
        Ok (avg_pool_grad (dims x) (1, s, s, 1)%Z (1, s, s, 1)%Z NHWC dp,
            {[ wref := dw ]})
      else Raise InvalidArgumentError
  | None => Raise FailedPreconditionError
  end.

Definition pool_scale_layer (s : Z) (wref mref : nat) : Layer :=
  {| strides := s;
     trainable_variables := [wref];
     non_trainable_variables := [mref];
     call := pool_scale_call s wref mref;
     backprop := pool_scale_backprop s wref |}.

(** Tensors from integer literals. *)
Definition qz (z : Z) : Qc := Q2Qc (inject_Z z).
Definition tensor_of (d : ix4) (l : list (list (list (list Z)))) : tensor :=
  tgen d (fun i => qz (nth (i3 i) (nth (i2 i) (nth (i1 i) (nth (i0 i) l []) []) []) 0%Z)).

(** Observation of a tensor: its shape and its elements as fractions. *)
Definition observe (t : tensor) : ix4 * list (list (list (list Q))) :=
  (dims t, map (map (map (map this))) (data t)).

Definition world0 (st : store) : world := World st None None [].

(** ** Vocabulary of the statements *)

(** The size of [x] along the channel axis [axis] ([x.shape[axis]]). *)
Definition filters_of (axis : Z) (x : tensor) : nat :=
  match norm_axis axis with
  | Some k => ix_get k (dims x)
  | None => 0%nat
  end.

(** Position [i] moved by [n] along the axis [axis]. *)
Definition shift (axis : Z) (n : nat) (i : ix4) : ix4 :=
  match norm_axis axis with
  | Some k => ix_set k (ix_get k i + n)%nat i
  | None => i
  end.

(** The shape [d] with its size along [axis] replaced by [n]. *)
Definition with_filters (axis : Z) (n : nat) (d : ix4) : ix4 :=
  match norm_axis axis with
  | Some k => ix_set k n d
  | None => d
  end.

(** The actions of the manual backward branch, in the order of the source. *)
Definition manual_events : list event :=
  [EvCall BlockG; EvCall BlockF; EvGradient GTape; EvGradient FTape; EvLoadCkpt].

(** ** Concrete runs *)

(** A block like [pool_scale_layer 1] whose operations have no registered
    gradient: the forward function works, [tape.gradient] raises. *)
Definition no_grad_layer (wref mref : nat) : Layer :=
  {| strides := 1;
     trainable_variables := [wref];
     non_trainable_variables := [mref];
     call := pool_scale_call 1 wref mref;
     backprop := fun _ _ _ _ => Raise (LayerError 0) |}.

(** Four variables: weights 0 and 2, moving statistics 1 and 3. *)
Definition store4 : store :=
  <[0%nat := scalar (qz 2)]> (<[1%nat := scalar (qz 0)]>
  (<[2%nat := scalar (qz 3)]> (<[3%nat := scalar (qz 0)]> ∅))).

(** A forward call followed by [grad_fn] on the closure it returned. *)
Definition forward_backward (self : ReversibleLayer) (training : option bool)
    (inputs dy : tensor) (variables : option (list nat)) (w : world)
  : result (tensor * list (option tensor)) * world :=
  match ReversibleLayer_call self inputs training w with
  | (Ok (y, cl), w1) => grad_fn self training cl dy variables w1
  | (Raise e, w1) => (Raise e, w1)
  end.

Definition observe_grads (r : result (tensor * list (option tensor)))
  : result ((ix4 * list (list (list (list Q)))) *
            list (option (ix4 * list (list (list (list Q)))))) :=
  match r with
  | Ok (dx, gs) => Ok (observe dx, map (option_map observe) gs)
  | Raise e => Raise e
  end.

Definition observe_var (w : world) (v : nat) : option (ix4 * list (list (list (list Q)))) :=
  option_map observe (vars w !! v).

(** The run of claim C7's counterexample: F is a scale block, G a block with
    no registered gradient; both keep a moving statistic. *)
Definition c7_layer : ReversibleLayer :=
  ReversibleLayer_init "channels_last" (pool_scale_layer 1 0 1) (no_grad_layer 2 3) true.
Definition c7_x : tensor := tensor_of (Ix 1 1 1 2) [[[[3; 5]]]]%Z.
Definition c7_dy : tensor := tensor_of (Ix 1 1 1 2) [[[[1; 1]]]]%Z.
Definition c7_forward : result (tensor * closure) * world :=
  ReversibleLayer_call c7_layer c7_x (Some true) (world0 store4).
Definition c7_backward : result (tensor * list (option tensor)) * world :=
  forward_backward c7_layer (Some true) c7_x c7_dy (Some [0; 2]%nat) (world0 store4).

(** ** The forward pass as a formula *)

Definition run_layer (L : Layer) (training : option bool) (st : store) (x : tensor)
  : result (tensor * store) :=
  match call L training st x with
  | (Ok t, st') => Ok (t, st')
  | (Raise e, _) => Raise e
  end.

(** The output [concat(y1, y2)] with [z1 = F(x2) + x1_down],
    [y2 = x2_down + G(z1)] and [y1 = identity(z1)], where [x1] is adjusted
    with F's stride to the channel count of [F(x2)] and [x2] is adjusted with
    the stride [x2_stride] to the channel count of [G(z1)]. *)
Definition spec_forward (x2_stride : Z) (self : ReversibleLayer)
    (training : option bool) (x : tensor) (st : store) : result tensor :=
  xs ← tf_split x 2 (_axis self);
  '(x1, x2) ← unpack2 xs;
  '(f_x2, st1) ← run_layer (_f self) training st x2;
  f_filters ← shape_at f_x2 (_axis self);
  x1_down ← _maybe_downsample x1 f_filters (strides (_f self)) (_axis self);
  z1 ← tf_add f_x2 x1_down;
  '(g_z1, st2) ← run_layer (_g self) training st1 z1;
  g_filters ← shape_at g_z1 (_axis self);
  x2_down ← _maybe_downsample x2 g_filters x2_stride (_axis self);
  y2 ← tf_add x2_down g_z1;
  let y1 := tf_identity z1 in
  tf_concat [y1; y2] (_axis self).

(** The run of claim C3's counterexample: F has stride 2 and G stride 1. *)
Definition c3_layer : ReversibleLayer :=
  ReversibleLayer_init "channels_last" (pool_scale_layer 2 0 1) (pool_scale_layer 1 2 3) true.
Definition c3_x : tensor :=
  tensor_of (Ix 1 2 2 2) [[[[1; 2]; [3; 4]]; [[5; 6]; [7; 8]]]]%Z.
Definition c3_forward : result (tensor * closure) * world :=
  ReversibleLayer_call c3_layer c3_x (Some true) (world0 store4).

Definition observe_output (r : result (tensor * closure))
  : result (ix4 * list (list (list (list Q)))) :=
  match r with
  | Ok (y, _) => Ok (observe y)
  | Raise e => Raise e
  end.

Definition observe_result (r : result tensor) : result (ix4 * list (list (list (list Q)))) :=
  match r with
  | Ok y => Ok (observe y)
  | Raise e => Raise e
  end.

(** The channel count [_maybe_downsample] gives a tensor of [c] channels
    asked to reach [out_filter]. *)
Definition padded_filters (c out_filter : Z) : Z :=
  if (c <? out_filter)%Z then (c + 2 * ((out_filter - c) / 2))%Z else c.

(** The data format [_maybe_downsample] derives from the channel axis. *)
Definition axis_format (axis : Z) : data_format :=
  if (axis =? 1)%Z then NCHW else NHWC.

(** ** Inner blocks that write only their statistics

    A call of a block with batch normalisation updates its own moving
    statistics and writes no other variable. *)
Definition writes_only_statistics (L : Layer) : Prop :=
  forall tr s x v,
    ~ In v (non_trainable_variables L) -> snd (call L tr s x) !! v = s !! v.

(** ** The gradient of a variable in Algorithm 1

    [dwf] and [dwg] are what F's tape and G's tape hold for the variables
    of their blocks.  The gradient of a variable is the sum over the blocks
    that hold it. *)
Definition held_by (tv : list nat) (v : nat) : bool := existsb (Nat.eqb v) tv.

Definition variable_gradient (tvf tvg : list nat) (dwf dwg : store) (v : nat)
  : result (option tensor) :=
  acc_opt (if held_by tvf v then dwf !! v else None)
          (if held_by tvg v then dwg !! v else None).

(** The run of claim C1 and of claim C6's counterexample: one block, with
    one weight, used as both F and G. *)
Definition c1_block : Layer := pool_scale_layer 1 0 1.
Definition c1_manual : ReversibleLayer :=
  ReversibleLayer_init "channels_last" c1_block c1_block true.
Definition c1_x : tensor := tensor_of (Ix 1 1 1 2) [[[[3; 5]]]]%Z.
Definition c1_dy : tensor := tensor_of (Ix 1 1 1 2) [[[[1; 1]]]]%Z.

(** ** A reversible run

    Two scale blocks with their own weights (0 and 2) and statistics (1 and
    3); the gradients are requested G's first. *)
Definition rev_layer : ReversibleLayer :=
  ReversibleLayer_init "channels_last" (pool_scale_layer 1 0 1) (pool_scale_layer 1 2 3) true.

Definition closure0 : closure :=
  let z := scalar (Q2Qc 0) in
  {| cl_x := z; cl_y := z; cl_y1 := z; cl_y2 := z; cl_irreversible := false;
     cl_fwdtape := {| tp_x1 := z; tp_x2 := z; tp_f_vars := ∅; tp_f_x2 := z;
                      tp_x1_down := z; tp_z1 := z; tp_g_vars := ∅; tp_g_z1 := z;
                      tp_x2_down := z |} |}.

(** The components of the outcome of a forward or backward call. *)
Definition run_output (r : result (tensor * closure) * world) : tensor :=
  match fst r with Ok (y, _) => y | Raise _ => scalar (Q2Qc 0) end.
Definition run_closure (r : result (tensor * closure) * world) : closure :=
  match fst r with Ok (_, cl) => cl | Raise _ => closure0 end.
Definition run_dx (r : result (tensor * list (option tensor)) * world) : tensor :=
  match fst r with Ok (dx, _) => dx | Raise _ => scalar (Q2Qc 0) end.
Definition run_grads (r : result (tensor * list (option tensor)) * world)
  : list (option tensor) :=
  match fst r with Ok (_, gv) => gv | Raise _ => [] end.

Definition rev_forward : result (tensor * closure) * world :=
  ReversibleLayer_call rev_layer c1_x (Some true) (world0 store4).
Definition rev_backward : result (tensor * list (option tensor)) * world :=
  grad_fn rev_layer (Some true) (run_closure rev_forward) c1_dy (Some [2; 0]%nat)
    (snd rev_forward).
Definition rev_backward_manual : result (tensor * list (option tensor)) * world :=
  grad_fn_manual rev_layer (Some true) (run_closure rev_forward) c1_dy (Some [2; 0]%nat)
    (snd rev_forward).

(** The forward call of the run of claim C1, and its two backward branches
    on the closure and the world that call returned. *)
Definition c1_forward : result (tensor * closure) * world :=
  ReversibleLayer_call c1_manual c1_x (Some true) (world0 store4).
Definition c1_backward_manual : result (tensor * list (option tensor)) * world :=
  grad_fn_manual c1_manual (Some true) (run_closure c1_forward) c1_dy (Some [0%nat])
    (snd c1_forward).
Definition c1_backward_autodiff : result (tensor * list (option tensor)) * world :=
  grad_fn_autodiff c1_manual (Some true) (run_closure c1_forward) c1_dy (Some [0%nat])
    (snd c1_forward).

(** The backward call of the run [c7_forward]. *)
Definition c7_grad_fn : result (tensor * list (option tensor)) * world :=
  grad_fn c7_layer (Some true) (run_closure c7_forward) c7_dy (Some [0; 2]%nat)
    (snd c7_forward).

(** ** Composite blocks: the residual tail of [call] *)

(** A Keras sub-layer applied to one tensor; it may raise. *)
Definition sublayer : Type := tensor -> result tensor.

(** Python truthiness of an optional rate ([None] and [0.0] are false). *)
Definition truthy_rate (r : option Q) : bool :=
  match r with
  | None => false
  | Some q => negb (Qeq_bool q 0)
  end.

(** [se_ratio and se_ratio > 0 and se_ratio <= 1] *)
Definition se_enabled (r : option Q) : bool :=
  match r with
  | None => false
  | Some q => negb (Qeq_bool q 0) && negb (Qle_bool q 0) && Qle_bool q 1
  end.

(** [tf.keras.layers.Add()([x, shortcut])] *)
Definition keras_add (xs : list tensor) : result tensor :=
  match xs with
  | [a; b] => tf_add a b
  | _ => Raise ValueError
  end.

Module InvertedBottleneckBlock.

(** The attributes [call] reads, and the Keras layers [build] instantiates
    (given here as functions: [mk_stochastic_depth rate] is
    [nn_layers.StochasticDepth(rate)]). *)
Record t := {
  _in_filters : Z;
  _out_filters : Z;
  _expand_ratio : Z;
  _strides : Z;
  _se_ratio : option Q;
  _stochastic_depth_drop_rate : option Q;
  _use_depthwise : bool;
  _use_residual : bool;
  _output_intermediate_endpoints : bool;
  _conv0 : sublayer; _norm0 : sublayer; _activation_layer : sublayer;
  _conv1 : sublayer; _norm1 : sublayer; _depthwise_activation_layer : sublayer;
  mk_squeeze_excitation : sublayer;
  _conv2 : sublayer; _norm2 : sublayer;
  mk_stochastic_depth : Q -> option bool -> sublayer
}.

(** [build]: the optional sub-layers. *)
Definition _squeeze_excitation (self : t) : option sublayer :=
  if se_enabled (_se_ratio self) then Some (mk_squeeze_excitation self) else None.

Definition _stochastic_depth (self : t) : option (option bool -> sublayer) :=
  match _stochastic_depth_drop_rate self with
  | Some q => if truthy_rate (Some q) then Some (mk_stochastic_depth self q) else None
  | None => None
  end.

Definition residual_condition (self : t) : bool :=
  _use_residual self && (_in_filters self =? _out_filters self)%Z
  && (_strides self =? 1)%Z.

(** The statements of [call] before the residual [if]; the second
    component is the [endpoints] dictionary. *)
Definition main_branch (self : t) (inputs : tensor)
  : result (tensor * list (string * tensor)) :=
  x ← (if (1 <? _expand_ratio self)%Z then
         x ← _conv0 self inputs; x ← _norm0 self x; _activation_layer self x
       else Ok inputs);
  '(x, endpoints) ← (if _use_depthwise self then
         x ← _conv1 self x; x ← _norm1 self x;
         x ← _depthwise_activation_layer self x;
         Ok (x, if _output_intermediate_endpoints self
                then [("depthwise"%string, x)] else [])
       else Ok (x, []));
  x ← match _squeeze_excitation self with
      | Some se => se x
      | None => Ok x
      end;
  x ← _conv2 self x;
  x ← _norm2 self x;
  Ok (x, endpoints).

(** [call]; the result is [x] or [(x, endpoints)]. *)
Definition call (self : t) (inputs : tensor) (training : option bool)
  : result (tensor * option (list (string * tensor))) :=
  let shortcut := inputs in
  '(x, endpoints) ← main_branch self inputs;
  x ← (if residual_condition self then
         x ← match _stochastic_depth self with
             | Some sd => sd training x
             | None => Ok x
             end;
         keras_add [x; shortcut]
       else Ok x);
  if _output_intermediate_endpoints self then Ok (x, Some endpoints)
  else Ok (x, None).

(** The same block with another stochastic-depth rate and layer. *)
Definition with_stochastic_depth (self : t) (rate : option Q)
    (mk : Q -> option bool -> sublayer) : t :=
  {| _in_filters := _in_filters self; _out_filters := _out_filters self;
     _expand_ratio := _expand_ratio self; _strides := _strides self;
     _se_ratio := _se_ratio self; _stochastic_depth_drop_rate := rate;
     _use_depthwise := _use_depthwise self; _use_residual := _use_residual self;
     _output_intermediate_endpoints := _output_intermediate_endpoints self;
     _conv0 := _conv0 self; _norm0 := _norm0 self;
     _activation_layer := _activation_layer self;
     _conv1 := _conv1 self; _norm1 := _norm1 self;
     _depthwise_activation_layer := _depthwise_activation_layer self;
     mk_squeeze_excitation := mk_squeeze_excitation self;
     _conv2 := _conv2 self; _norm2 := _norm2 self;
     mk_stochastic_depth := mk |}.

End InvertedBottleneckBlock.

Module TuckerConvBlock.

Record t := {
  _in_filters : Z;
  _out_filters : Z;
  _strides : Z;
  _stochastic_depth_drop_rate : option Q;
  _use_residual : bool;
  _conv0 : sublayer; _norm0 : sublayer; _activation_layer0 : sublayer;
  _conv1 : sublayer; _norm1 : sublayer; _activation_layer1 : sublayer;
  _conv2 : sublayer; _norm2 : sublayer;
  mk_stochastic_depth : Q -> option bool -> sublayer
}.

Definition _stochastic_depth (self : t) : option (option bool -> sublayer) :=
  match _stochastic_depth_drop_rate self with
  | Some q => if truthy_rate (Some q) then Some (mk_stochastic_depth self q) else None
  | None => None
  end.

Definition residual_condition (self : t) : bool :=
  _use_residual self && (_in_filters self =? _out_filters self)%Z
  && (_strides self =? 1)%Z.

Definition main_branch (self : t) (inputs : tensor) : result tensor :=
  x ← _conv0 self inputs; x ← _norm0 self x; x ← _activation_layer0 self x;
  x ← _conv1 self x; x ← _norm1 self x; x ← _activation_layer1 self x;
  x ← _conv2 self x; _norm2 self x.

Definition call (self : t) (inputs : tensor) (training : option bool)
  : result tensor :=
  let shortcut := inputs in
  x ← main_branch self inputs;
  if residual_condition self then
    x ← match _stochastic_depth self with
        | Some sd => sd training x
        | None => Ok x
        end;
    keras_add [x; shortcut]
  else Ok x.

(** The same block with another stochastic-depth rate and layer. *)
Definition with_stochastic_depth (self : t) (rate : option Q)
    (mk : Q -> option bool -> sublayer) : t :=
  {| _in_filters := _in_filters self; _out_filters := _out_filters self;
     _strides := _strides self; _stochastic_depth_drop_rate := rate;
     _use_residual := _use_residual self;
     _conv0 := _conv0 self; _norm0 := _norm0 self;
     _activation_layer0 := _activation_layer0 self;
     _conv1 := _conv1 self; _norm1 := _norm1 self;
     _activation_layer1 := _activation_layer1 self;
     _conv2 := _conv2 self; _norm2 := _norm2 self;
     mk_stochastic_depth := mk |}.

End TuckerConvBlock.

(** ** LayerScale

    Arrays of rank 3 are held in the rank-4 representation with a leading
    axis of size 1, which is how broadcasting aligns them with arrays of
    rank 4. *)

Module LayerScale.

(** Float32 arithmetic on the elements, kept abstract: [to_float32] is the
    value a number has once stored in or cast to a float32 tensor, [mul]
    the float32 product, [to_input_dtype] the cast back to the dtype of the
    input. *)
Record float_ops := {
  to_float32 : Qc -> Qc;
  mul : Qc -> Qc -> Qc;
  to_input_dtype : Qc -> Qc
}.

Record t := {
  gamma_init_value : Qc;
  gamma : option tensor      (* set by [build] *)
}.

Definition __init__ (init_values : Qc) : t :=
  {| gamma_init_value := init_values; gamma := None |}.

(** [inputs.shape] of an array of rank [rank] (3 or 4). *)
Definition shape_list (rank : nat) (x : tensor) : list nat :=
  skipn (4 - rank) [i0 (dims x); i1 (dims x); i2 (dims x); i3 (dims x)].

(** [build]: [gamma] is a float32 weight of shape
    [(1, 1, inputs_shape[2])] filled with [gamma_init_value]. *)
Definition build (fl : float_ops) (self : t) (inputs_shape : list nat) : result t :=
  match nth_error inputs_shape 2 with
  | Some n =>
      Ok {| gamma_init_value := gamma_init_value self;
            gamma := Some (tgen (Ix 1 1 1 n)
                             (fun _ => to_float32 fl (gamma_init_value self))) |}
  | None => Raise IndexError
  end.

(** [call]: [tf.cast(tf.cast(inputs, tf.float32) * gamma, input_dtype)] *)
Definition call (fl : float_ops) (self : t) (inputs : tensor) : result tensor :=
  match gamma self with
  | Some gamma =>
      binop (fun x g => to_input_dtype fl (mul fl (to_float32 fl x) g)) inputs gamma
  | None => Raise AttributeError
  end.

(** The first call of a layer: Keras runs [build] on the shape of the
    input, then [call]. *)
Definition first_call (fl : float_ops) (self : t) (rank : nat) (inputs : tensor)
  : result tensor :=
  self ← build fl self (shape_list rank inputs);
  call fl self inputs.

(** Operations that round nothing: those of float32 on values on which its
    rounding is the identity. *)
Definition exact_ops : float_ops :=
  {| to_float32 := fun x => x; mul := Qcmult; to_input_dtype := fun x => x |}.

End LayerScale.

(** ** The transformer blocks: [call]

    Tensors are of rank 3, [(batch, sequence, features)], held with a
    leading axis of size 1. *)

(** [inputs]: one tensor, or a list or tuple. *)
Inductive call_inputs :=
| One (x : tensor)
| Many (l : list tensor).

(** The length of the slice [0:stop] of a sequence of [n] elements. *)
Definition slice_to (stop : Z) (n : nat) : nat :=
  if (stop <? 0)%Z then Z.to_nat (Z.of_nat n + stop) else Nat.min (Z.to_nat stop) n.

(** [x[:, 0:stop, :]] *)
Definition take_sequence (stop : Z) (x : tensor) : tensor :=
  tslice Ax2 0 (slice_to stop (i2 (dims x))) x.

(** Python truthiness of an optional integer. *)
Definition truthy_int (r : option Z) : bool :=
  match r with
  | None => false
  | Some z => negb (z =? 0)%Z
  end.

(** A local variable that may not have been assigned.  [call] reads
    [source_tensor] and [source_attention_output] only under the condition
    under which they were assigned, so the error is never raised. *)
Definition read_local (v : option tensor) : result tensor :=
  match v with
  | Some t => Ok t
  | None => Raise AttributeError
  end.

(** [if v is not None: v = f(v)] *)
Definition map_present (f : sublayer) (v : option tensor) : result (option tensor) :=
  match v with
  | Some t => t ← f t; Ok (Some t)
  | None => Ok None
  end.

Module TransformerEncoderBlock.

(** The attributes [call] reads; the sub-layers are those of the base class
    and of [build]. *)
Record t := {
  _output_range : option Z;
  _norm_first : bool;
  _use_query_residual : bool;
  _return_attention_scores : bool;
  _attention_layer_norm : sublayer;
  _attention_layer : tensor -> tensor -> option tensor -> result (tensor * tensor);
  _attention_dropout : sublayer;
  _layer_scale_attn : sublayer;
  _stochastic_depth : option bool -> sublayer;
  _output_layer_norm : sublayer;
  _intermediate_dense : sublayer;
  _intermediate_activation_layer : sublayer;
  _inner_dropout_layer : sublayer;
  _output_dense : sublayer;
  _output_dropout : sublayer;
  _layer_scale_mlp : sublayer
}.

(** The unpacking of [inputs]. *)
Definition unpack_inputs (inputs : call_inputs)
  : result (tensor * option tensor * option tensor) :=
  match inputs with
  | Many l =>
      if (length l =? 2)%nat then
        '(input_tensor, attention_mask) ← unpack2 l;
        Ok (input_tensor, None, Some attention_mask)
      else if (length l =? 3)%nat then
        match l with
        | [input_tensor; key_value; attention_mask] =>
            Ok (input_tensor, Some key_value, Some attention_mask)
        | _ => Raise ValueError
        end
      else Raise ValueError
  | One x => Ok (x, None, None)
  end.

Definition call (self : t) (inputs : call_inputs) (output_range : option Z)
    (training : option bool) : result (tensor * option tensor) :=
  '(input_tensor, key_value, attention_mask) ← unpack_inputs inputs;
  let output_range :=
    match output_range with None => _output_range self | Some r => Some r end in
  '(source_tensor, input_tensor, key_value, target_tensor, attention_mask) ←
    (match output_range with
     | Some stop =>
         if truthy_int (Some stop) then
           '(source_tensor, input_tensor, key_value) ←
             (if _norm_first self then
                let source_tensor := take_sequence stop input_tensor in
                input_tensor ← _attention_layer_norm self input_tensor;
                key_value ← map_present (_attention_layer_norm self) key_value;
                Ok (Some source_tensor, input_tensor, key_value)
              else Ok (None, input_tensor, key_value));
           let target_tensor := take_sequence stop input_tensor in
           let attention_mask := option_map (take_sequence stop) attention_mask in
           Ok (source_tensor, input_tensor, key_value, target_tensor, attention_mask)
         else
           '(source_tensor, input_tensor, key_value) ←
             (if _norm_first self then
                let source_tensor := input_tensor in
                input_tensor ← _attention_layer_norm self input_tensor;
                key_value ← map_present (_attention_layer_norm self) key_value;
                Ok (Some source_tensor, input_tensor, key_value)
              else Ok (None, input_tensor, key_value));
           let target_tensor := input_tensor in
           Ok (source_tensor, input_tensor, key_value, target_tensor, attention_mask)
     | None =>
         '(source_tensor, input_tensor, key_value) ←
           (if _norm_first self then
              let source_tensor := input_tensor in
              input_tensor ← _attention_layer_norm self input_tensor;
              key_value ← map_present (_attention_layer_norm self) key_value;
              Ok (Some source_tensor, input_tensor, key_value)
            else Ok (None, input_tensor, key_value));
         let target_tensor := input_tensor in
         Ok (source_tensor, input_tensor, key_value, target_tensor, attention_mask)
     end);
  let key_value := match key_value with None => input_tensor | Some kv => kv end in
  '(attention_output, attention_scores) ←
    _attention_layer self target_tensor key_value attention_mask;
  attention_output ← _attention_dropout self attention_output;
  attention_output ← _layer_scale_attn self attention_output;
  '(source_attention_output, attention_output) ←
    (if _norm_first self then
       attention_output ←
         (if _use_query_residual self then
            source_tensor ← read_local source_tensor;
            sd ← _stochastic_depth self training attention_output;
            tf_add source_tensor sd
          else Ok attention_output);
       let source_attention_output := attention_output in
       attention_output ← _output_layer_norm self attention_output;
       Ok (Some source_attention_output, attention_output)
     else
       attention_output ←
         (if _use_query_residual self then
            sd ← _stochastic_depth self training attention_output;
            tf_add target_tensor sd
          else Ok attention_output);
       attention_output ← _attention_layer_norm self attention_output;
       Ok (None, attention_output));
  inner_output ← _intermediate_dense self attention_output;
  inner_output ← _intermediate_activation_layer self inner_output;
  inner_output ← _inner_dropout_layer self inner_output;
  layer_output ← _output_dense self inner_output;
  layer_output ← _output_dropout self layer_output;
  layer_output ← _layer_scale_mlp self layer_output;
  layer_output ←
    (if _norm_first self then
       source_attention_output ← read_local source_attention_output;
       sd ← _stochastic_depth self training layer_output;
       tf_add source_attention_output sd
     else
       sd ← _stochastic_depth self training attention_output;
       sum ← tf_add layer_output sd;
       _output_layer_norm self sum);
  if _return_attention_scores self then Ok (layer_output, Some attention_scores)
  else Ok (layer_output, None).

End TransformerEncoderBlock.

Module TransformerScaffold.

Record t := {
  _norm_first : bool;
  _ffn_has_residual_connection : bool;
  _return_attention_scores : bool;
  _attention_layer_norm : sublayer;
  _attention_layer :
    tensor -> tensor -> option tensor -> option bool -> result (tensor * tensor);
  _attention_dropout : option bool -> sublayer;
  _stochastic_depth : option bool -> sublayer;
  _output_layer_norm : sublayer;
  _feedforward_block : option (option bool -> sublayer);
  _intermediate_dense : sublayer;
  _intermediate_activation_layer : sublayer;
  _output_dense : sublayer;
  _output_dropout : option bool -> sublayer
}.

Definition call (self : t) (inputs : call_inputs) (training : option bool)
  : result (tensor * option tensor) :=
  '(input_tensor, key_value, attention_mask) ←
    TransformerEncoderBlock.unpack_inputs inputs;
  '(source_tensor, input_tensor) ←
    (if _norm_first self then
       let source_tensor := input_tensor in
       input_tensor ← _attention_layer_norm self input_tensor;
       Ok (Some source_tensor, input_tensor)
     else Ok (None, input_tensor));
  let key_value := match key_value with None => input_tensor | Some kv => kv end in
  '(attention_output, attention_scores) ←
    _attention_layer self input_tensor key_value attention_mask training;
  attention_output ← _attention_dropout self training attention_output;
  '(source_attention_output, attention_output) ←
    (if _norm_first self then
       source_tensor ← read_local source_tensor;
       sd ← _stochastic_depth self training attention_output;
       source_attention_output ← tf_add source_tensor sd;
       attention_output ← _output_layer_norm self source_attention_output;
       Ok (Some source_attention_output, attention_output)
     else
       sd ← _stochastic_depth self training attention_output;
       sum ← tf_add input_tensor sd;
       attention_output ← _attention_layer_norm self sum;
       Ok (None, attention_output));
  layer_output ←
    (match _feedforward_block self with
     | None =>
         intermediate_output ← _intermediate_dense self attention_output;
         intermediate_output ← _intermediate_activation_layer self intermediate_output;
         layer_output ← _output_dense self intermediate_output;
         _output_dropout self training layer_output
     | Some ffn => ffn training attention_output
     end);
  output ←
    (if _norm_first self then
       if _ffn_has_residual_connection self then Raise ValueError
       else
         source_attention_output ← read_local source_attention_output;
         sd ← _stochastic_depth self training layer_output;
         tf_add source_attention_output sd
     else
       if _ffn_has_residual_connection self then
         _stochastic_depth self training layer_output
       else
         sd ← _stochastic_depth self training layer_output;
         sum ← tf_add attention_output sd;
         _output_layer_norm self sum);
  if _return_attention_scores self then Ok (output, Some attention_scores)
  else Ok (output, None).

End TransformerScaffold.

(** ** Instances of the composite blocks

    Blocks whose sub-layers return their input. *)

Definition id_sublayer : sublayer := fun x => Ok x.

Definition ibb_identity : InvertedBottleneckBlock.t :=
  {| InvertedBottleneckBlock._in_filters := 2;
     InvertedBottleneckBlock._out_filters := 2;
     InvertedBottleneckBlock._expand_ratio := 6;
     InvertedBottleneckBlock._strides := 1;
     InvertedBottleneckBlock._se_ratio := None;
     InvertedBottleneckBlock._stochastic_depth_drop_rate := None;
     InvertedBottleneckBlock._use_depthwise := true;
     InvertedBottleneckBlock._use_residual := true;
     InvertedBottleneckBlock._output_intermediate_endpoints := true;
     InvertedBottleneckBlock._conv0 := id_sublayer;
     InvertedBottleneckBlock._norm0 := id_sublayer;
     InvertedBottleneckBlock._activation_layer := id_sublayer;
     InvertedBottleneckBlock._conv1 := id_sublayer;
     InvertedBottleneckBlock._norm1 := id_sublayer;
     InvertedBottleneckBlock._depthwise_activation_layer := id_sublayer;
     InvertedBottleneckBlock.mk_squeeze_excitation := id_sublayer;
     InvertedBottleneckBlock._conv2 := id_sublayer;
     InvertedBottleneckBlock._norm2 := id_sublayer;
     InvertedBottleneckBlock.mk_stochastic_depth := fun _ _ => id_sublayer |}.

Definition encoder_identity : TransformerEncoderBlock.t :=
  {| TransformerEncoderBlock._output_range := None;
     TransformerEncoderBlock._norm_first := false;
     TransformerEncoderBlock._use_query_residual := true;
     TransformerEncoderBlock._return_attention_scores := false;
     TransformerEncoderBlock._attention_layer_norm := id_sublayer;
     TransformerEncoderBlock._attention_layer := fun query value _ => Ok (query, value);
     TransformerEncoderBlock._attention_dropout := id_sublayer;
     TransformerEncoderBlock._layer_scale_attn := id_sublayer;
     TransformerEncoderBlock._stochastic_depth := fun _ => id_sublayer;
     TransformerEncoderBlock._output_layer_norm := id_sublayer;
     TransformerEncoderBlock._intermediate_dense := id_sublayer;
     TransformerEncoderBlock._intermediate_activation_layer := id_sublayer;
     TransformerEncoderBlock._inner_dropout_layer := id_sublayer;
     TransformerEncoderBlock._output_dense := id_sublayer;
     TransformerEncoderBlock._output_dropout := id_sublayer;
     TransformerEncoderBlock._layer_scale_mlp := id_sublayer |}.

(** A scaffold with [norm_first] whose feed-forward block is said to hold
    its own residual connection. *)
Definition scaffold_identity : TransformerScaffold.t :=
  {| TransformerScaffold._norm_first := true;
     TransformerScaffold._ffn_has_residual_connection := true;
     TransformerScaffold._return_attention_scores := false;
     TransformerScaffold._attention_layer_norm := id_sublayer;
     TransformerScaffold._attention_layer := fun query value _ _ => Ok (query, value);
     TransformerScaffold._attention_dropout := fun _ => id_sublayer;
     TransformerScaffold._stochastic_depth := fun _ => id_sublayer;
     TransformerScaffold._output_layer_norm := id_sublayer;
     TransformerScaffold._feedforward_block := Some (fun _ => id_sublayer);
     TransformerScaffold._intermediate_dense := id_sublayer;
     TransformerScaffold._intermediate_activation_layer := id_sublayer;
     TransformerScaffold._output_dense := id_sublayer;
     TransformerScaffold._output_dropout := fun _ => id_sublayer |}.

(** The tensor a successful operation returns. *)
Definition result_tensor (r : result tensor) : tensor :=
  match r with Ok t => t | Raise _ => scalar (Q2Qc 0) end.

(** ** Construction and [get_config] of the block classes *)

Module Config.

(** Python values that occur as constructor options. *)
Inductive pyval :=
| PNone
| PBool (b : bool)
| PInt (z : Z)
| PFloat (q : Q)
| PStr (s : string)
| PFun (name : string)          (* a function object, e.g. an activation *)
| PInitializer (name : string)  (* an initializer instance of the named class *)
| PObj (id : nat).              (* any other object: a regularizer, a layer *)

(** Python truthiness. *)
Definition truthy (v : pyval) : bool :=
  match v with
  | PNone => false
  | PBool b => b
  | PInt z => negb (z =? 0)%Z
  | PFloat q => negb (Qeq_bool q 0)
  | PStr s => negb (String.eqb s "")
  | _ => true
  end.

(** [tf.keras.activations.get]: a name gives the function of that name,
    [None] the linear activation, a callable is returned as it is.  (Values
    of other kinds are outside its domain; they are passed through.) *)
Definition activations_get (v : pyval) : pyval :=
  match v with
  | PNone => PFun "linear"
  | PStr s => PFun s
  | _ => v
  end.

(** [tf.keras.initializers.get]: a name gives an instance of the class of
    that name, an initializer instance (or [None]) is returned as it is. *)
Definition initializers_get (v : pyval) : pyval :=
  match v with
  | PStr s => PInitializer s
  | _ => v
  end.

(** A Python dictionary: its items in insertion order, the keys distinct. *)
Definition pydict := list (string * pyval).

Fixpoint dict_get (m : pydict) (key : string) : option pyval :=
  match m with
  | [] => None
  | (k, v) :: m' => if String.eqb k key then Some v else dict_get m' key
  end.

(** [m[key] = v]: an existing key keeps its place. *)
Fixpoint dict_set (m : pydict) (key : string) (v : pyval) : pydict :=
  match m with
  | [] => [(key, v)]
  | (k, v') :: m' =>
      if String.eqb k key then (k, v) :: m' else (k, v') :: dict_set m' key v
  end.

Definition dict_del (m : pydict) (key : string) : pydict :=
  List.filter (fun p => negb (String.eqb (fst p) key)) m.

(** [dict(items)], a dict literal, successive attribute assignments: a later
    item overrides an earlier one. *)
Definition dict_of (items : list (string * pyval)) : pydict :=
  fold_left (fun m p => dict_set m (fst p) (snd p)) items [].

Definition rd (m : pydict) (key : string) : pyval :=
  default PNone (dict_get m key).

(** The keyword arguments [tf.keras.layers.Layer.__init__] is given here,
    and what [Layer.get_config] exports for them. *)
Definition base_options : list string := ["name"; "trainable"; "dtype"].

(** A class: the signature of [__init__] (the catch-all keyword
    dictionary aside) with the defaults, its attribute assignments in
    order, and the dict literal of [get_config].  The attribute [_norm]
    (the normalization class, a constant) is left out.  So is
    [_activation_fn] where it is computed from an argument that
    [get_config] exports unchanged ([ResidualBlock],
    [DepthwiseSeparableConvBlock]); it is kept in [ResidualInner] and
    [BottleneckResidualInner], where the exported activation is the
    resolved object and not the argument. *)
Record pyclass := {
  signature : list (string * option pyval);
  __init__ : string -> (string -> pyval) -> list (string * pyval);
  get_config_items : (string -> pyval) -> list (string * pyval)
}.

(** Binding of the keyword arguments to the signature. *)
Fixpoint bind (sig : list (string * option pyval)) (kwargs : pydict)
  : result (list (string * pyval)) :=
  match sig with
  | [] => Ok []
  | (n, d) :: sig' =>
      match dict_get kwargs n, d with
      | Some v, _ => rest ← bind sig' kwargs; Ok ((n, v) :: rest)
      | None, Some v => rest ← bind sig' kwargs; Ok ((n, v) :: rest)
      | None, None => Raise TypeError
      end
  end.

(** A call of the class with keyword arguments: the instance's attributes.
    [auto_name] is the name Keras generates when none is given;
    [image_data_format] the value of [tf.keras.backend.image_data_format()].
    Keywords outside the signature go to the base class. *)
Definition construct (C : pyclass) (image_data_format auto_name : string)
    (kwargs : pydict) : result pydict :=
  args ← bind (signature C) kwargs;
  let extra := fold_right (fun n m => dict_del m n) kwargs (map fst (signature C)) in
  match fold_right (fun n m => dict_del m n) extra base_options with
  | _ :: _ => Raise TypeError
  | [] =>
      let base := [("name"%string, default (PStr auto_name) (dict_get extra "name"));
                   ("trainable"%string, default (PBool true) (dict_get extra "trainable"));
                   ("dtype"%string, default (PStr "float32") (dict_get extra "dtype"))] in
      Ok (dict_of (base ++ __init__ C image_data_format (rd (dict_of args))))
  end.

(** [self.get_config()] *)
Definition get_config (C : pyclass) (self : pydict) : pydict :=
  let config := dict_of (get_config_items C (rd self)) in
  let base_config := dict_of [("name"%string, rd self "name");
                              ("trainable"%string, rd self "trainable");
                              ("dtype"%string, rd self "dtype")] in
  dict_of (base_config ++ config).

(** [cls.from_config(config)]: the class called with the configuration as
    keyword arguments. *)
Definition from_config (C : pyclass) (image_data_format auto_name : string)
    (config : pydict) : result pydict :=
  construct C image_data_format auto_name config.

Definition bn_axis (image_data_format : string) : pyval :=
  if String.eqb image_data_format "channels_last" then PInt (-1) else PInt 1.

Definition ResidualBlock : pyclass :=
  {| signature :=
       [("filters", None); ("strides", None);
        ("use_projection", Some (PBool false)); ("se_ratio", Some PNone);
        ("resnetd_shortcut", Some (PBool false));
        ("stochastic_depth_drop_rate", Some PNone);
        ("kernel_initializer", Some (PStr "VarianceScaling"));
        ("kernel_regularizer", Some PNone); ("bias_regularizer", Some PNone);
        ("activation", Some (PStr "relu"));
        ("use_explicit_padding", Some (PBool false));
        ("use_sync_bn", Some (PBool false));
        ("norm_momentum", Some (PFloat (99 # 100)));
        ("norm_epsilon", Some (PFloat (1 # 1000)));
        ("bn_trainable", Some (PBool true))]%string;
     __init__ := fun fmt a =>
       [("_filters", a "filters"); ("_strides", a "strides");
        ("_use_projection", a "use_projection"); ("_se_ratio", a "se_ratio");
        ("_resnetd_shortcut", a "resnetd_shortcut");
        ("_use_explicit_padding", a "use_explicit_padding");
        ("_use_sync_bn", a "use_sync_bn"); ("_activation", a "activation");
        ("_stochastic_depth_drop_rate", a "stochastic_depth_drop_rate");
        ("_kernel_initializer", a "kernel_initializer");
        ("_norm_momentum", a "norm_momentum"); ("_norm_epsilon", a "norm_epsilon");
        ("_kernel_regularizer", a "kernel_regularizer");
        ("_bias_regularizer", a "bias_regularizer");
        ("_bn_axis", bn_axis fmt);
        ("_bn_trainable", a "bn_trainable")]%string;
     get_config_items := fun self =>
       [("filters", self "_filters"); ("strides", self "_strides");
        ("use_projection", self "_use_projection"); ("se_ratio", self "_se_ratio");
        ("resnetd_shortcut", self "_resnetd_shortcut");
        ("stochastic_depth_drop_rate", self "_stochastic_depth_drop_rate");
        ("kernel_initializer", self "_kernel_initializer");
        ("kernel_regularizer", self "_kernel_regularizer");
        ("bias_regularizer", self "_bias_regularizer");
        ("activation", self "_activation");
        ("use_explicit_padding", self "_use_explicit_padding");
        ("use_sync_bn", self "_use_sync_bn");
        ("norm_momentum", self "_norm_momentum");
        ("norm_epsilon", self "_norm_epsilon");
        ("bn_trainable", self "_bn_trainable")]%string |}.

Definition BottleneckBlock : pyclass :=
  {| signature :=
       [("filters", None); ("strides", None); ("dilation_rate", Some (PInt 1));
        ("use_projection", Some (PBool false)); ("se_ratio", Some PNone);
        ("resnetd_shortcut", Some (PBool false));
        ("stochastic_depth_drop_rate", Some PNone);
        ("kernel_initializer", Some (PStr "VarianceScaling"));
        ("kernel_regularizer", Some PNone); ("bias_regularizer", Some PNone);
        ("activation", Some (PStr "relu"));
        ("use_sync_bn", Some (PBool false));
        ("norm_momentum", Some (PFloat (99 # 100)));
        ("norm_epsilon", Some (PFloat (1 # 1000)));
        ("bn_trainable", Some (PBool true))]%string;
     __init__ := fun fmt a =>
       [("_filters", a "filters"); ("_strides", a "strides");
        ("_dilation_rate", a "dilation_rate");
        ("_use_projection", a "use_projection"); ("_se_ratio", a "se_ratio");
        ("_resnetd_shortcut", a "resnetd_shortcut");
        ("_use_sync_bn", a "use_sync_bn"); ("_activation", a "activation");
        ("_stochastic_depth_drop_rate", a "stochastic_depth_drop_rate");
        ("_kernel_initializer", a "kernel_initializer");
        ("_norm_momentum", a "norm_momentum"); ("_norm_epsilon", a "norm_epsilon");
        ("_kernel_regularizer", a "kernel_regularizer");
        ("_bias_regularizer", a "bias_regularizer");
        ("_bn_axis", bn_axis fmt);
        ("_bn_trainable", a "bn_trainable")]%string;
     get_config_items := fun self =>
       [("filters", self "_filters"); ("strides", self "_strides");
        ("dilation_rate", self "_dilation_rate");
        ("use_projection", self "_use_projection"); ("se_ratio", self "_se_ratio");
        ("resnetd_shortcut", self "_resnetd_shortcut");
        ("stochastic_depth_drop_rate", self "_stochastic_depth_drop_rate");
        ("kernel_initializer", self "_kernel_initializer");
        ("kernel_regularizer", self "_kernel_regularizer");
        ("bias_regularizer", self "_bias_regularizer");
        ("activation", self "_activation");
        ("use_sync_bn", self "_use_sync_bn");
        ("norm_momentum", self "_norm_momentum");
        ("norm_epsilon", self "_norm_epsilon");
        ("bn_trainable", self "_bn_trainable")]%string |}.

Definition InvertedBottleneckBlock : pyclass :=
  {| signature :=
       [("in_filters", None); ("out_filters", None); ("expand_ratio", None);
        ("strides", None); ("kernel_size", Some (PInt 3)); ("se_ratio", Some PNone);
        ("stochastic_depth_drop_rate", Some PNone);
        ("kernel_initializer", Some (PStr "VarianceScaling"));
        ("kernel_regularizer", Some PNone); ("bias_regularizer", Some PNone);
        ("activation", Some (PStr "relu"));
        ("se_inner_activation", Some (PStr "relu"));
        ("se_gating_activation", Some (PStr "sigmoid"));
        ("se_round_down_protect", Some (PBool true));
        ("expand_se_in_filters", Some (PBool false));
        ("depthwise_activation", Some PNone);
        ("use_sync_bn", Some (PBool false)); ("dilation_rate", Some (PInt 1));
        ("divisible_by", Some (PInt 1));
        ("regularize_depthwise", Some (PBool false));
        ("use_depthwise", Some (PBool true)); ("use_residual", Some (PBool true));
        ("norm_momentum", Some (PFloat (99 # 100)));
        ("norm_epsilon", Some (PFloat (1 # 1000)));
        ("output_intermediate_endpoints", Some (PBool false))]%string;
     __init__ := fun fmt a =>
       [("_in_filters", a "in_filters"); ("_out_filters", a "out_filters");
        ("_expand_ratio", a "expand_ratio"); ("_strides", a "strides");
        ("_kernel_size", a "kernel_size"); ("_se_ratio", a "se_ratio");
        ("_divisible_by", a "divisible_by");
        ("_stochastic_depth_drop_rate", a "stochastic_depth_drop_rate");
        ("_dilation_rate", a "dilation_rate"); ("_use_sync_bn", a "use_sync_bn");
        ("_regularize_depthwise", a "regularize_depthwise");
        ("_use_depthwise", a "use_depthwise"); ("_use_residual", a "use_residual");
        ("_activation", a "activation");
        ("_se_inner_activation", a "se_inner_activation");
        ("_se_gating_activation", a "se_gating_activation");
        ("_depthwise_activation", a "depthwise_activation");
        ("_se_round_down_protect", a "se_round_down_protect");
        ("_kernel_initializer", a "kernel_initializer");
        ("_norm_momentum", a "norm_momentum"); ("_norm_epsilon", a "norm_epsilon");
        ("_kernel_regularizer", a "kernel_regularizer");
        ("_bias_regularizer", a "bias_regularizer");
        ("_expand_se_in_filters", a "expand_se_in_filters");
        ("_output_intermediate_endpoints", a "output_intermediate_endpoints");
        ("_bn_axis", bn_axis fmt)]%string
       ++ (if negb (truthy (a "depthwise_activation"))
           then [("_depthwise_activation"%string, a "activation")] else [])
       ++ [("_depthsize_regularizer"%string,
            if truthy (a "regularize_depthwise") then a "kernel_regularizer"
            else PNone)];
     get_config_items := fun self =>
       [("in_filters", self "_in_filters"); ("out_filters", self "_out_filters");
        ("expand_ratio", self "_expand_ratio"); ("strides", self "_strides");
        ("kernel_size", self "_kernel_size"); ("se_ratio", self "_se_ratio");
        ("divisible_by", self "_divisible_by");
        ("stochastic_depth_drop_rate", self "_stochastic_depth_drop_rate");
        ("kernel_initializer", self "_kernel_initializer");
        ("kernel_regularizer", self "_kernel_regularizer");
        ("bias_regularizer", self "_bias_regularizer");
        ("activation", self "_activation");
        ("se_inner_activation", self "_se_inner_activation");
        ("se_gating_activation", self "_se_gating_activation");
        ("se_round_down_protect", self "_se_round_down_protect");
        ("expand_se_in_filters", self "_expand_se_in_filters");
        ("depthwise_activation", self "_depthwise_activation");
        ("dilation_rate", self "_dilation_rate");
        ("use_sync_bn", self "_use_sync_bn");
        ("regularize_depthwise", self "_regularize_depthwise");
        ("use_depthwise", self "_use_depthwise");
        ("use_residual", self "_use_residual");
        ("norm_momentum", self "_norm_momentum");
        ("norm_epsilon", self "_norm_epsilon");
        ("output_intermediate_endpoints", self "_output_intermediate_endpoints")]%string |}.

Definition inner_signature : list (string * option pyval) :=
  [("filters", None); ("strides", None);
   ("kernel_initializer", Some (PStr "VarianceScaling"));
   ("kernel_regularizer", Some PNone); ("activation", Some (PStr "relu"));
   ("use_sync_bn", Some (PBool false));
   ("norm_momentum", Some (PFloat (99 # 100)));
   ("norm_epsilon", Some (PFloat (1 # 1000)));
   ("batch_norm_first", Some (PBool true))]%string.

(** [get_activation] is [tf_utils.get_activation], the activation-function
    resolver of the modeling framework; it is not part of this module and
    is a parameter here. *)
Definition inner_init (get_activation : pyval -> pyval) (fmt : string)
    (a : string -> pyval) : list (string * pyval) :=
  [("strides", a "strides"); ("filters", a "filters");
   ("_kernel_initializer", initializers_get (a "kernel_initializer"));
   ("_kernel_regularizer", a "kernel_regularizer");
   ("_activation", activations_get (a "activation"));
   ("_use_sync_bn", a "use_sync_bn");
   ("_norm_momentum", a "norm_momentum"); ("_norm_epsilon", a "norm_epsilon");
   ("_batch_norm_first", a "batch_norm_first");
   ("_bn_axis", bn_axis fmt);
   ("_activation_fn", get_activation (a "activation"))]%string.

Definition inner_get_config_items (self : string -> pyval) : list (string * pyval) :=
  [("filters", self "filters"); ("strides", self "strides");
   ("kernel_initializer", self "_kernel_initializer");
   ("kernel_regularizer", self "_kernel_regularizer");
   ("activation", self "_activation");
   ("use_sync_bn", self "_use_sync_bn");
   ("norm_momentum", self "_norm_momentum");
   ("norm_epsilon", self "_norm_epsilon");
   ("batch_norm_first", self "_batch_norm_first")]%string.

(** [ResidualInner] and [BottleneckResidualInner] have the same signature,
    assignments and [get_config]. *)
Definition ResidualInner (get_activation : pyval -> pyval) : pyclass :=
  {| signature := inner_signature; __init__ := inner_init get_activation;
     get_config_items := inner_get_config_items |}.

Definition BottleneckResidualInner (get_activation : pyval -> pyval) : pyclass :=
  {| signature := inner_signature; __init__ := inner_init get_activation;
     get_config_items := inner_get_config_items |}.

Definition ReversibleLayer : pyclass :=
  {| signature := [("f", None); ("g", None); ("manual_grads", Some (PBool true))]%string;
     __init__ := fun fmt a =>
       [("_f", a "f"); ("_g", a "g"); ("_manual_grads", a "manual_grads");
        ("_axis", bn_axis fmt)]%string;
     get_config_items := fun self =>
       [("f", self "_f"); ("g", self "_g");
        ("manual_grads", self "_manual_grads")]%string |}.

Definition DepthwiseSeparableConvBlock : pyclass :=
  {| signature :=
       [("filters", None); ("kernel_size", Some (PInt 3)); ("strides", Some (PInt 1));
        ("regularize_depthwise", Some (PBool false));
        ("activation", Some (PStr "relu6"));
        ("kernel_initializer", Some (PStr "VarianceScaling"));
        ("kernel_regularizer", Some PNone); ("dilation_rate", Some (PInt 1));
        ("use_sync_bn", Some (PBool false));
        ("norm_momentum", Some (PFloat (99 # 100)));
        ("norm_epsilon", Some (PFloat (1 # 1000)))]%string;
     __init__ := fun fmt a =>
       [("_filters", a "filters"); ("_kernel_size", a "kernel_size");
        ("_strides", a "strides"); ("_activation", a "activation");
        ("_regularize_depthwise", a "regularize_depthwise");
        ("_kernel_initializer", a "kernel_initializer");
        ("_kernel_regularizer", a "kernel_regularizer");
        ("_dilation_rate", a "dilation_rate"); ("_use_sync_bn", a "use_sync_bn");
        ("_norm_momentum", a "norm_momentum"); ("_norm_epsilon", a "norm_epsilon");
        ("_bn_axis", bn_axis fmt);
        ("_depthsize_regularizer",
         if truthy (a "regularize_depthwise") then a "kernel_regularizer"
         else PNone)]%string;
     get_config_items := fun self =>
       [("filters", self "_filters"); ("strides", self "_strides");
        ("regularize_depthwise", self "_regularize_depthwise");
        ("kernel_initializer", self "_kernel_initializer");
        ("kernel_regularizer", self "_kernel_regularizer");
        ("activation", self "_activation");
        ("use_sync_bn", self "_use_sync_bn");
        ("norm_momentum", self "_norm_momentum");
        ("norm_epsilon", self "_norm_epsilon")]%string |}.

Definition TuckerConvBlock : pyclass :=
  {| signature :=
       [("in_filters", None); ("out_filters", None);
        ("input_compression_ratio", None); ("output_compression_ratio", None);
        ("strides", None); ("kernel_size", Some (PInt 3));
        ("stochastic_depth_drop_rate", Some PNone);
        ("kernel_initializer", Some (PStr "VarianceScaling"));
        ("kernel_regularizer", Some PNone); ("bias_regularizer", Some PNone);
        ("activation", Some (PStr "relu"));
        ("use_sync_bn", Some (PBool false)); ("divisible_by", Some (PInt 1));
        ("use_residual", Some (PBool true));
        ("norm_momentum", Some (PFloat (99 # 100)));
        ("norm_epsilon", Some (PFloat (1 # 1000)))]%string;
     __init__ := fun fmt a =>
       [("_in_filters", a "in_filters"); ("_out_filters", a "out_filters");
        ("_input_compression_ratio", a "input_compression_ratio");
        ("_output_compression_ratio", a "output_compression_ratio");
        ("_strides", a "strides"); ("_kernel_size", a "kernel_size");
        ("_divisible_by", a "divisible_by");
        ("_stochastic_depth_drop_rate", a "stochastic_depth_drop_rate");
        ("_use_sync_bn", a "use_sync_bn"); ("_use_residual", a "use_residual");
        ("_activation", a "activation");
        ("_kernel_initializer", a "kernel_initializer");
        ("_norm_momentum", a "norm_momentum"); ("_norm_epsilon", a "norm_epsilon");
        ("_kernel_regularizer", a "kernel_regularizer");
        ("_bias_regularizer", a "bias_regularizer");
        ("_bn_axis", bn_axis fmt)]%string;
     get_config_items := fun self =>
       [("in_filters", self "_in_filters"); ("out_filters", self "_out_filters");
        ("input_compression_ratio", self "_input_compression_ratio");
        ("output_compression_ratio", self "_output_compression_ratio");
        ("strides", self "_strides"); ("kernel_size", self "_kernel_size");
        ("divisible_by", self "_divisible_by");
        ("stochastic_depth_drop_rate", self "_stochastic_depth_drop_rate");
        ("kernel_initializer", self "_kernel_initializer");
        ("kernel_regularizer", self "_kernel_regularizer");
        ("bias_regularizer", self "_bias_regularizer");
        ("activation", self "_activation");
        ("use_sync_bn", self "_use_sync_bn");
        ("use_residual", self "_use_residual");
        ("norm_momentum", self "_norm_momentum");
        ("norm_epsilon", self "_norm_epsilon")]%string |}.

(** The constructor call of claim C9's failing input. *)
Definition c9_kwargs : pydict :=
  dict_of [("filters", PInt 8); ("kernel_size", PInt 5);
           ("dilation_rate", PInt 2)]%string.

(** The instance a successful construction returns. *)
Definition instance_of (r : result pydict) : pydict :=
  match r with Ok self => self | Raise _ => [] end.

(** Constructor calls used to instantiate the statements. *)
Definition residual_block_kwargs : pydict :=
  dict_of [("filters", PInt 64); ("strides", PInt 2); ("use_projection", PBool true);
           ("activation", PStr "swish"); ("name", PStr "block0")]%string.

Definition inverted_bottleneck_kwargs : pydict :=
  dict_of [("in_filters", PInt 16); ("out_filters", PInt 24); ("expand_ratio", PInt 6);
           ("strides", PInt 2); ("activation", PStr "hard_swish");
           ("regularize_depthwise", PBool true); ("kernel_regularizer", PObj 0)]%string.

(** A resolver that resolves as [tf.keras.activations.get] does. *)
Definition keras_resolver : pyval -> pyval := activations_get.

Definition inner_kwargs : pydict :=
  dict_of [("filters", PInt 32); ("strides", PInt 1); ("activation", PStr "swish");
           ("kernel_initializer", PStr "HeNormal")]%string.

Definition reversible_kwargs : pydict :=
  dict_of [("f", PObj 1); ("g", PObj 2); ("manual_grads", PBool false)]%string.

Definition tucker_kwargs : pydict :=
  dict_of [("in_filters", PInt 16); ("out_filters", PInt 16);
           ("input_compression_ratio", PFloat (1 # 4));
           ("output_compression_ratio", PFloat (1 # 4)); ("strides", PInt 1);
           ("kernel_size", PInt 5)]%string.

End Config.

(** * Proofs *)

(** ** Tabulated lists and generated tensors *)

Lemma nth_tab {A} n (f : nat -> A) i d : (i < n)%nat -> nth i (tab n f) d = f i.
Proof.
  intros H. unfold tab.
  rewrite (nth_indep _ d (f 0%nat)) by (rewrite length_map, length_seq; lia).
  rewrite (map_nth f (seq 0 n) 0%nat i). by rewrite seq_nth.
Qed.

Lemma tab_ext {A} n (f g : nat -> A) :
  (forall i, (i < n)%nat -> f i = g i) -> tab n f = tab n g.
Proof.
  intros H. unfold tab. apply map_ext_in. intros i Hi. apply H.
  apply in_seq in Hi. lia.
Qed.

Lemma tget_tgen d f i : in_range i d -> tget (tgen d f) i = f i.
Proof.
  intros (H0 & H1 & H2 & H3). destruct i as [a b c e]. unfold tget, tgen. simpl in *.
  by rewrite !nth_tab.
Qed.

Lemma tgen_ext d f g :
  (forall i, in_range i d -> f i = g i) -> tgen d f = tgen d g.
Proof.
  intros H. unfold tgen. f_equal.
  apply tab_ext; intros a Ha. apply tab_ext; intros b Hb.
  apply tab_ext; intros c Hc. apply tab_ext; intros e He.
  apply H. repeat split; simpl; assumption.
Qed.

(** ** Inversion of the forward pass *)

Ltac inv_match H :=
  match type of H with
  | context [match ?e with _ => _ end] =>
      let E := fresh "E" in destruct e eqn:E; simpl in H; try discriminate H
  end.

Lemma unpack2_inv {A} (l : list A) a b : unpack2 l = Ok (a, b) -> l = [a; b].
Proof.
  destruct l as [|? [|? [|? ?]]]; simpl; intros H; inversion H; reflexivity.
Qed.

Lemma reversible_inv self training inputs x w y cl w1 :
  reversible self training inputs x w = (Ok (y, cl), w1) ->
  exists x1 x2 f_x2 st1 cf x1_down z1 g_z1 st2 cg x2_down y2 cy ci fs gs,
    tf_split x 2 (_axis self) = Ok [x1; x2] /\
    call (_f self) training (vars w) x2 = (Ok f_x2, st1) /\
    shape_at f_x2 (_axis self) = Ok cf /\
    _maybe_downsample x1 cf (strides (_f self)) (_axis self) = Ok x1_down /\
    tf_add f_x2 x1_down = Ok z1 /\
    call (_g self) training st1 z1 = (Ok g_z1, st2) /\
    shape_at g_z1 (_axis self) = Ok cg /\
    _maybe_downsample x2 cg (strides (_f self)) (_axis self) = Ok x2_down /\
    tf_add x2_down g_z1 = Ok y2 /\
    tf_concat [z1; y2] (_axis self) = Ok y /\
    shape_at y (_axis self) = Ok cy /\
    shape_at inputs (_axis self) = Ok ci /\
    mapR (read_value st2) (non_trainable_variables (_f self)) = Ok fs /\
    mapR (read_value st2) (non_trainable_variables (_g self)) = Ok gs /\
    cl = {| cl_x := x; cl_y := y; cl_y1 := z1; cl_y2 := y2;
            cl_irreversible :=
              (negb (strides (_f self) =? 1)%Z || negb (strides (_g self) =? 1)%Z)
              || negb (cy =? ci)%Z;
            cl_fwdtape := {| tp_x1 := x1; tp_x2 := x2; tp_f_vars := vars w;
                             tp_f_x2 := f_x2; tp_x1_down := x1_down; tp_z1 := z1;
                             tp_g_vars := st1; tp_g_z1 := g_z1;
                             tp_x2_down := x2_down |} |} /\
    w1 = World st2 (Some fs) (Some gs)
           (trace w ++ [EvCall BlockF; EvCall BlockG;
                        EvIrreversible (cl_irreversible cl); EvCkpt]).
Proof.
  unfold reversible, mbind, M_bind, lift, call_layer, get_vars, emit,
    _ckpt_non_trainable_vars, mret, M_ret, tf_identity.
  intros H. simpl in H.
  repeat inv_match H.
  destruct (call (_f self) training (vars w) t0) as [rf st1] eqn:Ef.
  destruct (call (_g self) training (vars w0) a4) as [rg st2] eqn:Eg.
  inversion E2; subst; clear E2. inversion E7; subst; clear E7. simpl in *.
  repeat inv_match E15.
  inversion E15; subst; clear E15. inversion H; subst; clear H.
  apply unpack2_inv in E0; subst.
  do 16 eexists. repeat (split; [eassumption || reflexivity|]).
  simpl. rewrite <- !app_assoc. reflexivity.
Qed.

(** ** The channel split *)

Lemma even_mod2 c : Nat.even c = negb (c mod 2 =? 0)%nat -> False.
Proof.
  rewrite <- Nat.negb_odd. unfold Nat.odd.
  destruct (Nat.even c) eqn:E.
  - apply Nat.even_spec in E. destruct E as [k ->].
    rewrite Nat.mul_comm, Nat.Div0.mod_mul. simpl. discriminate.
  - assert (Ho : Nat.odd c = true) by (unfold Nat.odd; rewrite E; reflexivity).
    apply Nat.odd_spec in Ho. destruct Ho as [k ->].
    replace (2 * k + 1)%nat with (1 + k * 2)%nat by lia.
    rewrite Nat.Div0.mod_add. simpl. discriminate.
Qed.

Lemma init_axis fmt f g manual :
  (_axis (ReversibleLayer_init fmt f g manual) = (-1)%Z /\
   norm_axis (_axis (ReversibleLayer_init fmt f g manual)) = Some Ax3) \/
  (_axis (ReversibleLayer_init fmt f g manual) = 1%Z /\
   norm_axis (_axis (ReversibleLayer_init fmt f g manual)) = Some Ax1).
Proof.
  unfold ReversibleLayer_init. simpl.
  destruct (String.eqb fmt "channels_last"); [left | right]; split; reflexivity.
Qed.

Lemma tf_split2 x axis k :
  norm_axis axis = Some k ->
  tf_split x 2 axis =
    if (ix_get k (dims x) mod 2 =? 0)%nat then
      Ok [tgen (ix_set k (ix_get k (dims x) / 2)%nat (dims x))
            (fun i => tget x i);
          tgen (ix_set k (ix_get k (dims x) / 2)%nat (dims x))
            (fun i => tget x (ix_set k (ix_get k i + ix_get k (dims x) / 2)%nat i))]
    else Raise InvalidArgumentError.
Proof.
  intros Hk. unfold tf_split. rewrite Hk.
  change (2 <=? 0)%Z with false. change (Z.to_nat 2) with 2%nat. cbv beta iota zeta.
  destruct (ix_get k (dims x) mod 2 =? 0)%nat; [|reflexivity].
  cbn [negb]. unfold tab. cbn [seq map]. f_equal. f_equal.
  - apply tgen_ext. intros i _. f_equal.
    destruct k, i; cbn [ix_get ix_set i0 i1 i2 i3]; f_equal; lia.
  - f_equal. apply tgen_ext. intros i _. f_equal.
    destruct k, i; cbn [ix_get ix_set i0 i1 i2 i3]; f_equal; lia.
Qed.

Lemma split_outcome (self : ReversibleLayer) k training (x : tensor) (w : world) :
  norm_axis (_axis self) = Some k ->
  let c := ix_get k (dims x) in
  (Nat.even c = false ->
     ReversibleLayer_call self x training w = (Raise InvalidArgumentError, w)) /\
  (Nat.even c = true ->
     exists x1 x2,
       tf_split x 2 (_axis self) = Ok [x1; x2] /\
       ix_get k (dims x1) = (c / 2)%nat /\
       ix_get k (dims x2) = (c / 2)%nat /\
       (c / 2 + c / 2 = c)%nat /\
       dims x1 = ix_set k (c / 2) (dims x) /\
       dims x2 = ix_set k (c / 2) (dims x) /\
       forall i, in_range i (dims x1) ->
         tget x1 i = tget x i /\
         tget x2 i = tget x (ix_set k (ix_get k i + c / 2)%nat i)).
Proof.
  intros Hk c. split; intros Hc.
  - unfold ReversibleLayer_call, reversible, mbind, M_bind, lift.
    rewrite (tf_split2 _ _ _ Hk).
    destruct (_ mod 2 =? 0)%nat eqn:Hm; [|reflexivity].
    exfalso. apply (even_mod2 c). subst c. rewrite Hc, Hm. reflexivity.
  - rewrite (tf_split2 _ _ _ Hk).
    destruct (_ mod 2 =? 0)%nat eqn:Hm;
      [| exfalso; apply (even_mod2 c); subst c; rewrite Hc, Hm; reflexivity].
    apply Nat.eqb_eq in Hm. fold c in Hm |- *.
    do 2 eexists. split; [reflexivity|].
    assert (Hdim : forall n, ix_get k (ix_set k n (dims x)) = n)
      by (intros n; destruct k; reflexivity).
    repeat split; try reflexivity; cbn [dims tgen]; try apply Hdim.
    + pose proof (Nat.div_mod_eq c 2). lia.
    + rewrite tget_tgen by assumption. reflexivity.
    + rewrite tget_tgen by assumption. reflexivity.
Qed.

(** C8. An input whose channel count is odd makes the forward call raise at
    the split, before anything else has run (the world is untouched: no
    inner block was called, nothing is retried); an input whose channel
    count is even is split into two halves with the same channel count, the
    first holding the lower channels and the second the upper ones. *)
Theorem C8_channel_split fmt f g manual training (x : tensor) (w : world) :
  let self := ReversibleLayer_init fmt f g manual in
  let c := filters_of (_axis self) x in
  (Nat.even c = false ->
     ReversibleLayer_call self x training w = (Raise InvalidArgumentError, w)) /\
  (Nat.even c = true ->
     exists x1 x2,
       tf_split x 2 (_axis self) = Ok [x1; x2] /\
       filters_of (_axis self) x1 = (c / 2)%nat /\
       filters_of (_axis self) x2 = (c / 2)%nat /\
       (c / 2 + c / 2 = c)%nat /\
       dims x1 = with_filters (_axis self) (c / 2) (dims x) /\
       dims x2 = with_filters (_axis self) (c / 2) (dims x) /\
       forall i, in_range i (dims x1) ->
         tget x1 i = tget x i /\
         tget x2 i = tget x (shift (_axis self) (c / 2) i)).
Proof.
  intros self c. subst c. unfold filters_of, with_filters, shift.
  destruct (init_axis fmt f g manual) as [[Ha Hk] | [Ha Hk]];
    fold self in Ha, Hk; rewrite Hk; apply split_outcome; exact Hk.
Qed.

(** ** Inversion of the manual backward pass *)

Lemma require_list_inv {A} (o : option (list A)) l :
  require_list o = Ok l -> o = Some l.
Proof. destruct o; simpl; intros H; inversion H; reflexivity. Qed.

Lemma grad_fn_manual_inv self training cl dy variables w dx gv w2 :
  grad_fn_manual self training cl dy variables w = (Ok (dx, gv), w2) ->
  exists dy1 dy2 vs idx g_z1 st1 x2 f_x2 st2 x1 gdx dwg dz1 fdx dwf dx2 fs gs,
    tf_split dy 2 (_axis self) = Ok [dy1; dy2] /\
    variables = Some vs /\
    mapR (list_index (trainable_variables (_f self) ++ trainable_variables (_g self))) vs
      = Ok idx /\
    call (_g self) training (vars w) (cl_y1 cl) = (Ok g_z1, st1) /\
    tf_sub (cl_y2 cl) g_z1 = Ok x2 /\
    call (_f self) training st1 x2 = (Ok f_x2, st2) /\
    tf_sub (cl_y1 cl) f_x2 = Ok x1 /\
    backprop (_g self) training (vars w) (cl_y1 cl) dy2 = Ok (gdx, dwg) /\
    tf_add dy1 gdx = Ok dz1 /\
    backprop (_f self) training st1 x2 dz1 = Ok (fdx, dwf) /\
    tf_add dy2 fdx = Ok dx2 /\
    tf_concat [dz1; dx2] (_axis self) = Ok dx /\
    mapR (list_item (map (fun v => dwf !! v) (trainable_variables (_f self)) ++
                     map (fun v => dwg !! v) (trainable_variables (_g self)))) idx
      = Ok gv /\
    _f_non_trainable_vars w = Some fs /\
    _g_non_trainable_vars w = Some gs /\
    w2 = World (assign_all (non_trainable_variables (_g self)) gs
                  (assign_all (non_trainable_variables (_f self)) fs st2))
               (Some fs) (Some gs)
               (trace w ++ [EvCall BlockG; EvCall BlockF; EvGradient GTape;
                            EvGradient FTape; EvLoadCkpt]).
Proof.
  unfold grad_fn_manual, tape_gradient, mbind, M_bind, result_bind, lift, call_layer,
    get_vars, emit, _load_ckpt_non_trainable_vars, mret, M_ret, tf_stop_gradient.
  intros H. simpl in H.
  repeat inv_match H.
  destruct (call (_g self) training (vars w) (cl_y1 cl)) as [rg st1] eqn:Eg.
  inversion E4; subst; clear E4. simpl in *.
  destruct (call (_f self) training st1 a4) as [rf st2] eqn:Ef.
  inversion E7; subst; clear E7. simpl in *.
  destruct (backprop (_g self) training (vars w) (cl_y1 cl) t0) as [[gdx dwg]|] eqn:Ebg;
    [|discriminate E10].
  destruct (backprop (_f self) training st1 a4 a8) as [[fdx dwf]|] eqn:Ebf;
    [|discriminate E12].
  inversion E10; subst; clear E10. inversion E12; subst; clear E12. simpl in *.
  repeat inv_match E16.
  inversion E16; subst; clear E16. inversion H; subst; clear H.
  apply unpack2_inv in E0; subst. apply require_list_inv in E2; subst.
  do 18 eexists. repeat (split; [eassumption || reflexivity|]).
  rewrite <- !app_assoc. reflexivity.
Qed.

(** ** The manual backward pass when it raises *)

Ltac split_calls H :=
  repeat match type of H with
  | context [call ?L ?t ?s ?x] =>
      let r := fresh "r" in let st := fresh "st" in let E := fresh "Ec" in
      destruct (call L t s x) as [r st] eqn:E; simpl in H
  end.

Lemma grad_fn_manual_raise self training cl dy variables w e w2 :
  _f_non_trainable_vars w <> None ->
  _g_non_trainable_vars w <> None ->
  grad_fn_manual self training cl dy variables w = (Raise e, w2) ->
  (exists n, (n <= 4)%nat /\ trace w2 = trace w ++ firstn n manual_events) /\
  (vars w2 = vars w \/
   (exists r, call (_g self) training (vars w) (cl_y1 cl) = (r, vars w2)) \/
   (exists g_z1 st1 x2 r,
      call (_g self) training (vars w) (cl_y1 cl) = (Ok g_z1, st1) /\
      tf_sub (cl_y2 cl) g_z1 = Ok x2 /\
      call (_f self) training st1 x2 = (r, vars w2))).
Proof.
  unfold grad_fn_manual, tape_gradient, mbind, M_bind, result_bind, lift, call_layer,
    get_vars, emit, _load_ckpt_non_trainable_vars, mret, M_ret, tf_stop_gradient,
    manual_events.
  intros Hf Hg H. simpl in H.
  destruct (_f_non_trainable_vars w) as [fs|] eqn:Efs; [|congruence].
  destruct (_g_non_trainable_vars w) as [gs|] eqn:Egs; [|congruence].
  repeat (first [ progress split_calls H | inv_match H ]).
  all: try discriminate H.
  all: try (match goal with
            | E : context [_f_non_trainable_vars _] |- _ =>
                rewrite Efs, Egs in E; discriminate E
            end).
  all: inversion H; subst; clear H; simpl.
  all: split;
    [ first [ exists 0%nat; split; [lia|]; simpl; rewrite <- ?app_assoc, ?app_nil_r; reflexivity
            | exists 1%nat; split; [lia|]; simpl; rewrite <- ?app_assoc; reflexivity
            | exists 2%nat; split; [lia|]; simpl; rewrite <- ?app_assoc; reflexivity
            | exists 3%nat; split; [lia|]; simpl; rewrite <- ?app_assoc; reflexivity
            | exists 4%nat; split; [lia|]; simpl; rewrite <- ?app_assoc; reflexivity ]
    | first [ left; reflexivity
            | right; left; eexists; reflexivity
            | right; right; do 4 eexists; repeat split; eassumption ] ].
Qed.

Lemma grad_fn_manual_events self training cl dy variables w :
  _f_non_trainable_vars w <> None ->
  _g_non_trainable_vars w <> None ->
  exists n, trace (snd (grad_fn_manual self training cl dy variables w))
            = trace w ++ firstn n manual_events.
Proof.
  intros Hf Hg.
  destruct (grad_fn_manual self training cl dy variables w) as [[[dx gv]|e] w2] eqn:H.
  - apply grad_fn_manual_inv in H.
    destruct H as (dy1 & dy2 & vs & idx & g_z1 & st1 & x2 & f_x2 & st2 & x1 & gdx & dwg
                   & dz1 & fdx & dwf & dx2 & fs & gs & H).
    exists 5%nat. simpl. destruct H as (_&_&_&_&_&_&_&_&_&_&_&_&_&_&_&->). reflexivity.
  - destruct (grad_fn_manual_raise _ _ _ _ _ _ _ _ Hf Hg H) as [(n & _ & Hn) _].
    exists n. exact Hn.
Qed.

Lemma grad_fn_autodiff_events self training cl dy variables w :
  trace (snd (grad_fn_autodiff self training cl dy variables w))
  = trace w ++ match variables with Some _ => [EvGradient FwdTape] | None => [] end.
Proof.
  unfold grad_fn_autodiff, mbind, M_bind, lift, emit, mret, M_ret.
  destruct variables as [vs|]; simpl.
  - destruct (fwdtape_gradient self training cl vs dy); reflexivity.
  - by rewrite app_nil_r.
Qed.

(** ** Which backward strategy runs *)

Lemma shape_at_filters x axis c :
  shape_at x axis = Ok c -> c = Z.of_nat (filters_of axis x).
Proof.
  unfold shape_at, filters_of. destruct (norm_axis axis); intros H; inversion H.
  reflexivity.
Qed.

Lemma irreversible_spec (sf sg : Z) (cy ci : nat) :
  (negb (sf =? 1)%Z || negb (sg =? 1)%Z) || negb (Z.of_nat cy =? Z.of_nat ci)%Z = true
  <-> sf <> 1%Z \/ sg <> 1%Z \/ cy <> ci.
Proof.
  rewrite !orb_true_iff, !negb_true_iff, !Z.eqb_neq. split.
  - intros [[H|H]|H]; [left|right; left|right; right]; try assumption. lia.
  - intros [H|[H|H]]; [left; left|left; right|right]; try assumption. lia.
Qed.

(** C4. After a forward call, [grad_fn] runs the automatic-differentiation
    fallback exactly when F's stride is not 1, or G's stride is not 1, or the
    output channel count differs from the input's, or manual gradients are
    disabled, and the manual reconstruction otherwise.  The manual branch
    never asks the forward tape for a gradient and the fallback re-runs no
    inner block.  The irreversibility condition is evaluated once, in the
    forward call, which records its value for [grad_fn]; neither backward
    branch evaluates it again. *)
Theorem C4_backward_strategy self training inputs w y cl w1 :
  ReversibleLayer_call self inputs training w = (Ok (y, cl), w1) ->
  let fallback :=
    strides (_f self) <> 1%Z \/ strides (_g self) <> 1%Z \/
    filters_of (_axis self) y <> filters_of (_axis self) inputs \/
    _manual_grads self = false in
  (forall dy variables,
     (fallback ->
      grad_fn self training cl dy variables = grad_fn_autodiff self training cl dy variables) /\
     (~ fallback ->
      grad_fn self training cl dy variables = grad_fn_manual self training cl dy variables)) /\
  (forall dy variables,
     exists n, trace (snd (grad_fn_manual self training cl dy variables w1))
               = trace w1 ++ firstn n manual_events) /\
  (forall dy variables w',
     trace (snd (grad_fn_autodiff self training cl dy variables w'))
     = trace w' ++ match variables with Some _ => [EvGradient FwdTape] | None => [] end) /\
  trace w1 = trace w ++ [EvCall BlockF; EvCall BlockG;
                         EvIrreversible (cl_irreversible cl); EvCkpt] /\
  (cl_irreversible cl = true <->
   strides (_f self) <> 1%Z \/ strides (_g self) <> 1%Z \/
   filters_of (_axis self) y <> filters_of (_axis self) inputs).
Proof.
  intros H fallback. apply reversible_inv in H.
  destruct H as (x1 & x2 & f_x2 & st1 & cf & x1_down & z1 & g_z1 & st2 & cg & x2_down
                 & y2 & cy & ci & fs & gs & H).
  destruct H as (_&_&_&_&_&_&_&_&_&_& Hcy & Hci &_&_& Hcl & Hw1).
  apply shape_at_filters in Hcy, Hci.
  assert (Hirr : cl_irreversible cl = true <->
                 strides (_f self) <> 1%Z \/ strides (_g self) <> 1%Z \/
                 filters_of (_axis self) y <> filters_of (_axis self) inputs).
  { rewrite Hcl. cbn [cl_irreversible]. rewrite Hcy, Hci. apply irreversible_spec. }
  repeat split.
  - intros Hfb. unfold grad_fn.
    assert (Hc : cl_irreversible cl || negb (_manual_grads self) = true).
    { apply orb_true_iff. destruct (cl_irreversible cl) eqn:E; [left; reflexivity|right].
      destruct Hfb as [Hs|[Hs|[Hs|Hs]]]; try (rewrite Hs; reflexivity).
      all: assert (false = true) by (apply Hirr; tauto); discriminate. }
    rewrite Hc. reflexivity.
  - intros Hfb. unfold grad_fn.
    assert (Hc : cl_irreversible cl || negb (_manual_grads self) = false).
    { apply orb_false_iff. split.
      - destruct (cl_irreversible cl) eqn:E; [|reflexivity].
        exfalso. apply Hfb. unfold fallback. destruct Hirr as [Hi _].
        specialize (Hi eq_refl). tauto.
      - destruct (_manual_grads self) eqn:E; [reflexivity|].
        exfalso. apply Hfb. unfold fallback. tauto. }
    rewrite Hc. reflexivity.
  - intros dy variables. apply grad_fn_manual_events; rewrite Hw1; discriminate.
  - intros dy variables w'. apply grad_fn_autodiff_events.
  - rewrite Hw1. reflexivity.
  - apply Hirr.
  - apply Hirr.
Qed.

(** ** Snapshot and restore of the non-trainable variables *)

Lemma mapR_cons_inv {A B} (f : A -> result B) a l r :
  mapR f (a :: l) = Ok r -> exists b bs, f a = Ok b /\ mapR f l = Ok bs /\ r = b :: bs.
Proof.
  simpl. destruct (f a) as [b|]; [|discriminate].
  destruct (mapR f l) as [bs|]; [|discriminate].
  intros H; inversion H. eauto.
Qed.

Lemma assign_all_notin vs : forall cs st v,
  ~ In v vs -> assign_all vs cs st !! v = st !! v.
Proof.
  induction vs as [|a vs IH]; intros cs st v Hv; [reflexivity|].
  destruct cs as [|c cs]; [reflexivity|].
  unfold assign_all in *. simpl. rewrite IH by (intros Hin; apply Hv; right; exact Hin).
  simpl. apply lookup_insert_ne. intros ->. apply Hv. left. reflexivity.
Qed.

Lemma assign_all_restores st vs : forall cs st' v,
  mapR (read_value st) vs = Ok cs ->
  In v vs -> assign_all vs cs st' !! v = st !! v.
Proof.
  induction vs as [|a vs IH]; intros cs st' v Hr Hv; [destruct Hv|].
  apply mapR_cons_inv in Hr. destruct Hr as (b & bs & Ha & Hbs & ->).
  unfold assign_all in *. simpl.
  destruct (in_dec Nat.eq_dec v vs) as [Hin|Hnin].
  - apply IH; assumption.
  - destruct Hv as [->|Hv]; [|contradiction].
    fold (assign_all vs bs (<[v:=b]> st')). rewrite assign_all_notin by assumption.
    rewrite lookup_insert_eq. unfold read_value in Ha.
    destruct (st !! v); inversion Ha. reflexivity.
Qed.

(** C2. When a forward call is followed by a backward call that takes the
    manual path and completes, every non-trainable variable of F and of G
    holds, after the backward call, the value that was snapshotted at the end
    of the forward call, which is its value right after the forward pass. *)
Theorem C2_statistics_restored self training inputs w y cl w1 dy variables dx gv w2 :
  ReversibleLayer_call self inputs training w = (Ok (y, cl), w1) ->
  cl_irreversible cl = false ->
  _manual_grads self = true ->
  grad_fn self training cl dy variables w1 = (Ok (dx, gv), w2) ->
  (exists fs gs,
     _f_non_trainable_vars w1 = Some fs /\ _g_non_trainable_vars w1 = Some gs /\
     mapR (read_value (vars w1)) (non_trainable_variables (_f self)) = Ok fs /\
     mapR (read_value (vars w1)) (non_trainable_variables (_g self)) = Ok gs) /\
  forall v,
    In v (non_trainable_variables (_f self) ++ non_trainable_variables (_g self)) ->
    vars w2 !! v = vars w1 !! v.
Proof.
  intros Hfwd Hirr Hman Hbwd.
  apply reversible_inv in Hfwd.
  destruct Hfwd as (x1 & x2 & f_x2 & st1 & cf & x1_down & z1 & g_z1 & st2 & cg & x2_down
                    & y2 & cy & ci & fs & gs & Hfwd).
  destruct Hfwd as (_&_&_&_&_&_&_&_&_&_&_&_& Hfs & Hgs & _ & Hw1).
  unfold grad_fn in Hbwd. rewrite Hirr, Hman in Hbwd. simpl in Hbwd.
  apply grad_fn_manual_inv in Hbwd.
  destruct Hbwd as (dy1 & dy2 & vs & idx & g_z1' & st1' & x2' & f_x2' & st2' & x1' & gdx
                    & dwg & dz1 & fdx & dwf & dx2 & fs' & gs' & Hbwd).
  destruct Hbwd as (_&_&_&_&_&_&_&_&_&_&_&_&_& Hfs' & Hgs' & Hw2).
  subst w1. simpl in *. inversion Hfs'; inversion Hgs'; subst fs' gs'.
  split; [exists fs, gs; auto|].
  intros v Hv. subst w2. simpl.
  destruct (in_dec Nat.eq_dec v (non_trainable_variables (_g self))) as [Hg|Hg].
  - apply assign_all_restores; assumption.
  - rewrite assign_all_notin by assumption.
    apply in_app_or in Hv. destruct Hv as [Hv|Hv]; [|contradiction].
    apply assign_all_restores; assumption.
Qed.

(** ** Failure of the backward pass *)

Lemma grad_fn_autodiff_vars self training cl dy variables w :
  vars (snd (grad_fn_autodiff self training cl dy variables w)) = vars w.
Proof.
  unfold grad_fn_autodiff, mbind, M_bind, lift, emit, mret, M_ret.
  destruct variables as [vs|]; simpl; [|reflexivity].
  destruct (fwdtape_gradient self training cl vs dy); reflexivity.
Qed.

Lemma firstn_manual_no_load n :
  (n <= 4)%nat -> ~ In EvLoadCkpt (firstn n manual_events).
Proof.
  intros Hn Hin. unfold manual_events in Hin.
  do 5 (destruct n as [|n]; [simpl in Hin; intuition discriminate|]). lia.
Qed.

(** C7 (counterexample). G's gradient raises after both blocks have been
    re-run in training mode: the backward call fails, the restore is never
    executed, and the moving statistics of F and G are left at their
    recomputation values, not at the snapshot taken after the forward pass. *)
Lemma C7_counterexample :
  is_ok (fst c7_forward) = true /\
  fst c7_backward = Raise (LayerError 0) /\
  observe_var (snd c7_forward) 3 = Some (Ix 1 1 1 1, [[[[13 # 2]]]]) /\
  observe_var (snd c7_backward) 3 = Some (Ix 1 1 1 1, [[[[39 # 4]]]]) /\
  observe_var (snd c7_forward) 1 = Some (Ix 1 1 1 1, [[[[5 # 2]]]]) /\
  observe_var (snd c7_backward) 1 = Some (Ix 1 1 1 1, [[[[15 # 4]]]]) /\
  trace (snd c7_backward) =
    [EvCall BlockF; EvCall BlockG; EvIrreversible false; EvCkpt;
     EvCall BlockG; EvCall BlockF; EvGradient GTape].
Proof. vm_compute. repeat split; reflexivity. Qed.

(** C7 (amended). The restore is the last step of the manual branch and there
    is no handler around the recomputation: when [grad_fn] raises after a
    forward call, [_load_ckpt_non_trainable_vars] has not been entered, and
    the variables are left as the last inner-block call that ran wrote them
    (unchanged if none ran). *)
Theorem C7_restore_only_on_success self training inputs w y cl w1 dy variables e w2 :
  ReversibleLayer_call self inputs training w = (Ok (y, cl), w1) ->
  grad_fn self training cl dy variables w1 = (Raise e, w2) ->
  (exists evs, trace w2 = trace w1 ++ evs /\ ~ In EvLoadCkpt evs) /\
  (vars w2 = vars w1 \/
   (exists r, call (_g self) training (vars w1) (cl_y1 cl) = (r, vars w2)) \/
   (exists g_z1 st1 x2 r,
      call (_g self) training (vars w1) (cl_y1 cl) = (Ok g_z1, st1) /\
      tf_sub (cl_y2 cl) g_z1 = Ok x2 /\
      call (_f self) training st1 x2 = (r, vars w2))).
Proof.
  intros Hfwd Hbwd. apply reversible_inv in Hfwd.
  destruct Hfwd as (x1 & x2 & f_x2 & st1 & cf & x1_down & z1 & g_z1 & st2 & cg & x2_down
                    & y2 & cy & ci & fs & gs & Hfwd).
  destruct Hfwd as (_&_&_&_&_&_&_&_&_&_&_&_&_&_&_& Hw1).
  unfold grad_fn in Hbwd.
  destruct (cl_irreversible cl || negb (_manual_grads self)).
  - pose proof (grad_fn_autodiff_events self training cl dy variables w1) as Ht.
    pose proof (grad_fn_autodiff_vars self training cl dy variables w1) as Hv.
    rewrite Hbwd in Ht, Hv. simpl in Ht, Hv. split.
    + eexists. split; [exact Ht|]. destruct variables; simpl; intuition discriminate.
    + left. exact Hv.
  - assert (Hf : _f_non_trainable_vars w1 <> None) by (rewrite Hw1; discriminate).
    assert (Hg : _g_non_trainable_vars w1 <> None) by (rewrite Hw1; discriminate).
    destruct (grad_fn_manual_raise _ _ _ _ _ _ _ _ Hf Hg Hbwd) as [(n & Hn & Ht) Hv].
    split; [|exact Hv].
    eexists. split; [exact Ht|]. apply firstn_manual_no_load. exact Hn.
Qed.

(** ** The two backward branches on a shared weight *)

(** C1. One block, with one weight (2), serves as F and as G; the input is
    [[3, 5]] and [dy] is [[1, 1]].  Stride 1, two input and two output
    channels, an even channel count, manual gradients enabled: the layer is
    reversible and [grad_fn] takes the manual branch.  On the closure and
    the world of one forward call the two branches return the same input
    gradient, but for the weight the tape of the forward computation
    returns 28 and the manual branch 15: it looks the weight up in F's
    variables first and returns F's share only.  All the numbers are small
    integers, which float32 holds exactly. *)
Theorem C1_shared_weight_divergence :
  strides (_f c1_manual) = 1%Z /\ strides (_g c1_manual) = 1%Z /\
  _manual_grads c1_manual = true /\
  is_ok (fst c1_forward) = true /\
  filters_of (_axis c1_manual) c1_x = 2%nat /\
  filters_of (_axis c1_manual) (run_output c1_forward) = 2%nat /\
  cl_irreversible (run_closure c1_forward) = false /\
  grad_fn c1_manual (Some true) (run_closure c1_forward) c1_dy (Some [0%nat])
    (snd c1_forward) = c1_backward_manual /\
  observe_grads (fst c1_backward_manual)
    = Ok ((Ix 1 1 1 2, [[[[3 # 1; 7 # 1]]]]), [Some (Ix 1 1 1 1, [[[[15 # 1]]]])]) /\
  observe_grads (fst c1_backward_autodiff)
    = Ok ((Ix 1 1 1 2, [[[[3 # 1; 7 # 1]]]]), [Some (Ix 1 1 1 1, [[[[28 # 1]]]])]).
Proof. repeat split; vm_compute; reflexivity. Qed.

(** ** The forward output *)

Lemma avg_pool_dims x ks st fmt p :
  avg_pool x ks st VALID fmt = Ok p ->
  exists oh ow,
    windowed_output_size (ix_get (fst (spatial_axes fmt)) (dims x))
      (z4_get (fst (spatial_axes fmt)) ks) (z4_get (fst (spatial_axes fmt)) st) = Ok oh /\
    windowed_output_size (ix_get (snd (spatial_axes fmt)) (dims x))
      (z4_get (snd (spatial_axes fmt)) ks) (z4_get (snd (spatial_axes fmt)) st) = Ok ow /\
    dims p = ix_set (fst (spatial_axes fmt)) oh (ix_set (snd (spatial_axes fmt)) ow (dims x)).
Proof.
  unfold avg_pool. destruct fmt; cbn [spatial_axes batch_depth_axes fst snd];
    destruct (negb _); try discriminate;
    destruct (windowed_output_size _ _ _) as [oh|]; try discriminate;
    destruct (windowed_output_size _ _ _) as [ow|]; try discriminate;
    intros H; inversion H; eauto.
Qed.

Lemma tf_pad_dims x paddings p :
  tf_pad x paddings = Ok p ->
  dims p = Ix (Z.to_nat (fst (pad_row paddings 0)) + i0 (dims x) + Z.to_nat (snd (pad_row paddings 0)))
              (Z.to_nat (fst (pad_row paddings 1)) + i1 (dims x) + Z.to_nat (snd (pad_row paddings 1)))
              (Z.to_nat (fst (pad_row paddings 2)) + i2 (dims x) + Z.to_nat (snd (pad_row paddings 2)))
              (Z.to_nat (fst (pad_row paddings 3)) + i3 (dims x) + Z.to_nat (snd (pad_row paddings 3))).
Proof.
  unfold tf_pad. destruct (negb _); [discriminate|]. destruct (existsb _ _); [discriminate|].
  intros H; inversion H. reflexivity.
Qed.

(** The channel count [_maybe_downsample] produces: the input's, plus twice
    the floor of half the missing channels when the input has fewer channels
    than asked for. *)
Lemma maybe_downsample_filters x out_filter s axis r :
  axis = (-1)%Z \/ axis = 1%Z ->
  _maybe_downsample x out_filter s axis = Ok r ->
  Z.of_nat (filters_of axis r) =
    (let c := Z.of_nat (filters_of axis x) in
     if c <? out_filter then c + 2 * ((out_filter - c) / 2) else c)%Z.
Proof.
  intros Hax. unfold _maybe_downsample, mbind, result_bind.
  destruct (avg_pool x _ _ VALID _) as [p|] eqn:Hp; [|discriminate].
  apply avg_pool_dims in Hp. destruct Hp as (oh & ow & _ & _ & Hd).
  destruct Hax as [-> | ->]; unfold shape_at, filters_of; cbn [norm_axis Z.ltb Z.eqb Z.add
    Z.compare Pos.compare Pos.compare_cont Z.pos_sub Pos.pred_double] in *; simpl in Hd |- *.
  - assert (Hc : i3 (dims p) = i3 (dims x)) by (rewrite Hd; reflexivity).
    rewrite Hc. destruct (Z.of_nat (i3 (dims x)) <? out_filter)%Z eqn:Hlt.
    + destruct (tf_pad p _) as [q|] eqn:Hq; [|discriminate].
      apply tf_pad_dims in Hq. intros H; inversion H; subst r. cbn [tf_add_scalar tgen dims].
      rewrite Hq. cbn [i3 pad_row nth fst snd]. rewrite Hc.
      apply Z.ltb_lt in Hlt.
      assert (0 <= (out_filter - Z.of_nat (i3 (dims x))) / 2)%Z
        by (apply Z.div_pos; lia). lia.
    + intros H; inversion H; subst r. cbn [tf_add_scalar tgen dims]. rewrite Hc. reflexivity.
  - assert (Hc : i1 (dims p) = i1 (dims x)) by (rewrite Hd; reflexivity).
    rewrite Hc. destruct (Z.of_nat (i1 (dims x)) <? out_filter)%Z eqn:Hlt.
    + destruct (tf_pad p _) as [q|] eqn:Hq; [|discriminate].
      apply tf_pad_dims in Hq. intros H; inversion H; subst r. cbn [tf_add_scalar tgen dims].
      rewrite Hq. cbn [i1 pad_row nth fst snd]. rewrite Hc.
      apply Z.ltb_lt in Hlt.
      assert (0 <= (out_filter - Z.of_nat (i1 (dims x))) / 2)%Z
        by (apply Z.div_pos; lia). lia.
    + intros H; inversion H; subst r. cbn [tf_add_scalar tgen dims]. rewrite Hc. reflexivity.
Qed.



(** ** The manual backward pass *)

(** C5. When the manual branch completes, with [dy] split into [dy1] and
    [dy2]: G is re-run on the detached [y1] and [x2] is the detached [y2]
    minus that output; F is re-run on this [x2]; [dz1 = dy1 +] the input
    gradient of G's recomputation under [dy2]; [dx2 = dy2 +] the input
    gradient of F's recomputation under [dz1]; [dx1 = dz1]; the returned
    input gradient is [concat(dx1, dx2)]; and the parameter gradients are
    read from the same two back-propagations, F's first and then G's. *)
Theorem C5_manual_backward self training cl dy variables w dx gv w2 :
  cl_irreversible cl = false ->
  _manual_grads self = true ->
  grad_fn self training cl dy variables w = (Ok (dx, gv), w2) ->
  exists dy1 dy2 g_z1 st1 x2 f_x2 st2 gdx dwg dz1 fdx dwf dx1 dx2 vs idx,
    tf_split dy 2 (_axis self) = Ok [dy1; dy2] /\
    call (_g self) training (vars w) (tf_stop_gradient (cl_y1 cl)) = (Ok g_z1, st1) /\
    tf_sub (tf_stop_gradient (cl_y2 cl)) g_z1 = Ok x2 /\
    call (_f self) training st1 x2 = (Ok f_x2, st2) /\
    backprop (_g self) training (vars w) (tf_stop_gradient (cl_y1 cl)) dy2 = Ok (gdx, dwg) /\
    tf_add dy1 gdx = Ok dz1 /\
    backprop (_f self) training st1 x2 dz1 = Ok (fdx, dwf) /\
    tf_add dy2 fdx = Ok dx2 /\
    dx1 = dz1 /\
    tf_concat [dx1; dx2] (_axis self) = Ok dx /\
    variables = Some vs /\
    mapR (list_index (trainable_variables (_f self) ++ trainable_variables (_g self))) vs
      = Ok idx /\
    mapR (list_item (map (fun v => dwf !! v) (trainable_variables (_f self)) ++
                     map (fun v => dwg !! v) (trainable_variables (_g self)))) idx
      = Ok gv.
Proof.
  intros Hirr Hman H. unfold grad_fn in H. rewrite Hirr, Hman in H. simpl in H.
  apply grad_fn_manual_inv in H.
  destruct H as (dy1 & dy2 & vs & idx & g_z1 & st1 & x2 & f_x2 & st2 & x1 & gdx & dwg
                 & dz1 & fdx & dwf & dx2 & fs & gs & H).
  destruct H as (H1 & H2 & H3 & H4 & H5 & H6 & H7 & H8 & H9 & H10 & H11 & H12 & H13 & _).
  exists dy1, dy2, g_z1, st1, x2, f_x2, st2, gdx, dwg, dz1, fdx, dwf, dz1, dx2, vs, idx.
  unfold tf_stop_gradient. repeat (split; [assumption || reflexivity|]). assumption.
Qed.

Lemma list_index_spec l : forall v j,
  list_index l v = Ok j -> nth_error l j = Some v.
Proof.
  induction l as [|a l IH]; intros v j; simpl; [discriminate|].
  destruct (a =? v)%nat eqn:E.
  - intros H; inversion H. apply Nat.eqb_eq in E. subst. reflexivity.
  - destruct (list_index l v) as [i|] eqn:Ei; [|discriminate].
    intros H; inversion H. simpl. apply IH. exact Ei.
Qed.

Lemma list_index_in l : forall v, In v l -> exists j, list_index l v = Ok j.
Proof.
  induction l as [|a l IH]; intros v Hv; [destruct Hv|]. simpl.
  destruct (a =? v)%nat eqn:E; [eauto|].
  destruct Hv as [->|Hv]; [rewrite Nat.eqb_refl in E; discriminate|].
  destruct (IH v Hv) as [j ->]. eauto.
Qed.

Lemma list_index_notin l : forall v, ~ In v l -> list_index l v = Raise ValueError.
Proof.
  induction l as [|a l IH]; intros v Hv; [reflexivity|]. simpl.
  destruct (a =? v)%nat eqn:E.
  - apply Nat.eqb_eq in E. exfalso. apply Hv. left. exact E.
  - rewrite IH; [reflexivity|]. intros Hin. apply Hv. right. exact Hin.
Qed.

Lemma list_index_app_l l1 l2 : forall v, In v l1 ->
  exists j, list_index (l1 ++ l2) v = Ok j /\ nth_error l1 j = Some v.
Proof.
  induction l1 as [|a l1 IH]; intros v Hv; [destruct Hv|]. simpl.
  destruct (a =? v)%nat eqn:E.
  - apply Nat.eqb_eq in E. subst. exists 0%nat. auto.
  - destruct Hv as [->|Hv]; [rewrite Nat.eqb_refl in E; discriminate|].
    destruct (IH v Hv) as (j & -> & Hj). exists (S j). auto.
Qed.

Lemma list_index_app_r l1 l2 : forall v j, ~ In v l1 ->
  list_index (l1 ++ l2) v = Ok j ->
  exists j', j = (length l1 + j')%nat /\ nth_error l2 j' = Some v.
Proof.
  induction l1 as [|a l1 IH]; intros v j Hv; simpl.
  - intros H. exists j. split; [reflexivity|]. apply list_index_spec. exact H.
  - destruct (a =? v)%nat eqn:E.
    + apply Nat.eqb_eq in E. exfalso. apply Hv. left. exact E.
    + destruct (list_index (l1 ++ l2) v) as [i|] eqn:Ei; [|discriminate].
      intros H; inversion H; subst.
      destruct (IH v i (fun Hin => Hv (or_intror Hin)) Ei) as (j' & -> & Hj').
      exists j'. auto.
Qed.

Lemma mapR_nth {A B} (f : A -> result B) l : forall r i a,
  mapR f l = Ok r -> nth_error l i = Some a ->
  exists b, f a = Ok b /\ nth_error r i = Some b.
Proof.
  induction l as [|x l IH]; intros r i a Hr Hi; [destruct i; discriminate|].
  apply mapR_cons_inv in Hr. destruct Hr as (b & bs & Hb & Hbs & ->).
  destruct i as [|i]; simpl in *.
  - inversion Hi; subst. eauto.
  - eapply IH; eassumption.
Qed.

Lemma mapR_length {A B} (f : A -> result B) l : forall r,
  mapR f l = Ok r -> length r = length l.
Proof.
  induction l as [|x l IH]; intros r Hr.
  - inversion Hr. reflexivity.
  - apply mapR_cons_inv in Hr. destruct Hr as (b & bs & _ & Hbs & ->).
    simpl. f_equal. apply IH. exact Hbs.
Qed.

Lemma mapR_ok {A B} (f : A -> result B) l :
  (forall a, In a l -> exists b, f a = Ok b) -> exists r, mapR f l = Ok r.
Proof.
  induction l as [|x l IH]; intros H; [eexists; reflexivity|]. simpl.
  destruct (H x (or_introl eq_refl)) as [b ->].
  destruct IH as [r ->]; [intros a Ha; apply H; right; exact Ha|]. eauto.
Qed.

(** The entry that the reordering picks for a requested variable. *)
Lemma reorder_entry (tvf tvg : list nat) (dwf dwg : store) v j a :
  list_index (tvf ++ tvg) v = Ok j ->
  list_item (map (fun v => dwf !! v) tvf ++ map (fun v => dwg !! v) tvg) j = Ok a ->
  a = if in_dec Nat.eq_dec v tvf then dwf !! v else dwg !! v.
Proof.
  intros Hj Ha. unfold list_item in Ha.
  destruct (nth_error _ j) as [a'|] eqn:E; inversion Ha; subst a'. clear Ha.
  destruct (in_dec Nat.eq_dec v tvf) as [Hin|Hnin].
  - destruct (list_index_app_l tvf tvg v Hin) as (j0 & Hj0 & Hn).
    rewrite Hj in Hj0. inversion Hj0; subst j0.
    rewrite nth_error_app1 in E by (rewrite length_map; apply nth_error_Some; congruence).
    rewrite nth_error_map, Hn in E. simpl in E. congruence.
  - destruct (list_index_app_r tvf tvg v j Hnin Hj) as (j' & -> & Hn).
    rewrite nth_error_app2 in E by (rewrite length_map; lia).
    rewrite length_map in E. replace (length tvf + j' - length tvf)%nat with j' in E by lia.
    rewrite nth_error_map, Hn in E. simpl in E. congruence.
Qed.

(** A variable is held by a block when it is one of its trainable variables. *)
Lemma held_by_In tv v : held_by tv v = true <-> In v tv.
Proof.
  unfold held_by. rewrite existsb_exists. split.
  - intros (a & Ha & E). apply Nat.eqb_eq in E. subst a. exact Ha.
  - intros H. exists v. split; [exact H|apply Nat.eqb_refl].
Qed.

(** Without a shared variable the sum over the holding blocks is the share
    of the one block that holds the variable. *)
Lemma variable_gradient_unshared tvf tvg (dwf dwg : store) v :
  (forall u, In u tvf -> ~ In u tvg) ->
  In v (tvf ++ tvg) ->
  variable_gradient tvf tvg dwf dwg v
  = Ok (if in_dec Nat.eq_dec v tvf then dwf !! v else dwg !! v).
Proof.
  intros Hdis Hin. unfold variable_gradient.
  destruct (in_dec Nat.eq_dec v tvf) as [Hf|Hf].
  - rewrite (proj2 (held_by_In tvf v) Hf).
    destruct (held_by tvg v) eqn:Eg.
    + exfalso. apply (Hdis v Hf). apply held_by_In. exact Eg.
    + destruct (dwf !! v); reflexivity.
  - destruct (held_by tvf v) eqn:Ef; [exfalso; apply Hf, held_by_In; exact Ef|].
    apply in_app_or in Hin. destruct Hin as [Hin|Hin]; [contradiction|].
    rewrite (proj2 (held_by_In tvg v) Hin). destruct (dwg !! v); reflexivity.
Qed.



(** ** Average pooling with stride 1 *)

Lemma qnat_1 : qnat 1 = 1%Qc.
Proof. reflexivity. Qed.

Lemma window_mean_1 f : window_mean 1 1 f = f 0%nat 0%nat.
Proof.
  unfold window_mean, tab. cbn [seq map qsum fold_right Nat.mul Nat.add].
  rewrite qnat_1. field. discriminate.
Qed.

Lemma windowed_output_size_1 n : windowed_output_size n 1 1 = Ok n.
Proof.
  unfold windowed_output_size. cbn [Z.leb Z.compare orb].
  replace (Z.of_nat n - 1 + 1)%Z with (Z.of_nat n) by lia.
  rewrite Z.quot_1_r. destruct (Z.of_nat n <? 0)%Z eqn:E; [apply Z.ltb_lt in E; lia|].
  rewrite Nat2Z.id. reflexivity.
Qed.

Lemma avg_pool_stride1 x axis :
  avg_pool x (_pad_strides 1 axis) (_pad_strides 1 axis) VALID (axis_format axis)
  = Ok (tgen (dims x) (tget x)).
Proof.
  unfold avg_pool, _pad_strides, axis_format.
  destruct (axis =? 1)%Z; cbn [spatial_axes batch_depth_axes z4_get Z.eqb andb negb];
    rewrite !windowed_output_size_1; cbn [Z.to_nat Pos.to_nat Pos.iter_op Nat.add];
    f_equal.
  - replace (ix_set Ax2 (ix_get Ax2 (dims x)) (ix_set Ax3 (ix_get Ax3 (dims x)) (dims x)))
      with (dims x) by (destruct (dims x); reflexivity).
    apply tgen_ext. intros i _. rewrite window_mean_1. f_equal.
    destruct i; cbn [ix_get ix_set i0 i1 i2 i3]. f_equal; lia.
  - replace (ix_set Ax1 (ix_get Ax1 (dims x)) (ix_set Ax2 (ix_get Ax2 (dims x)) (dims x)))
      with (dims x) by (destruct (dims x); reflexivity).
    apply tgen_ext. intros i _. rewrite window_mean_1. f_equal.
    destruct i; cbn [ix_get ix_set i0 i1 i2 i3]. f_equal; lia.
Qed.

Lemma shape_at_ok x axis k :
  norm_axis axis = Some k -> shape_at x axis = Ok (Z.of_nat (ix_get k (dims x))).
Proof. intros H. unfold shape_at. rewrite H. reflexivity. Qed.

Lemma maybe_downsample_id x c axis k :
  norm_axis axis = Some k ->
  (c <= Z.of_nat (ix_get k (dims x)))%Z ->
  _maybe_downsample x c 1 axis = Ok (tgen (dims x) (tget x)).
Proof.
  intros Hk Hc. unfold _maybe_downsample, mbind, result_bind.
  fold (axis_format axis). rewrite avg_pool_stride1.
  rewrite (shape_at_ok _ _ _ Hk). cbn [dims tgen].
  destruct (Z.ltb_spec (Z.of_nat (ix_get k (dims x))) c) as [Hlt|_]; [lia|].
  f_equal. unfold tf_add_scalar. cbn [dims tgen].
  apply tgen_ext. intros i Hi. rewrite tget_tgen by exact Hi. ring.
Qed.

(** ** The residual tail of the inverted-bottleneck and Tucker blocks *)

Lemma residual_condition_spec (use_residual : bool) (fin fout s : Z) :
  use_residual && (fin =? fout)%Z && (s =? 1)%Z = true
  <-> use_residual = true /\ fin = fout /\ s = 1%Z.
Proof. rewrite !andb_true_iff, !Z.eqb_eq. tauto. Qed.

(** C10. In [InvertedBottleneckBlock.call] and [TuckerConvBlock.call] the
    input is added to the main branch exactly when [use_residual] holds,
    [in_filters] equals [out_filters] and [strides] is 1; stochastic depth,
    when the block has one, is applied to the main branch just before that
    addition.  In every other configuration the output is the main branch
    alone: it is the same for any stochastic-depth rate, stochastic-depth
    layer and training flag. *)
Theorem C10_residual_addition :
  (forall (self : InvertedBottleneckBlock.t) inputs training,
     let pack (r : tensor * list (string * tensor)) (x : tensor) :=
       (x, if InvertedBottleneckBlock._output_intermediate_endpoints self
           then Some (snd r) else None) in
     (InvertedBottleneckBlock.residual_condition self = true <->
      InvertedBottleneckBlock._use_residual self = true /\
      InvertedBottleneckBlock._in_filters self = InvertedBottleneckBlock._out_filters self /\
      InvertedBottleneckBlock._strides self = 1%Z) /\
     (InvertedBottleneckBlock.residual_condition self = true ->
      InvertedBottleneckBlock.call self inputs training =
        (r ← InvertedBottleneckBlock.main_branch self inputs;
         x ← match InvertedBottleneckBlock._stochastic_depth self with
             | Some sd => sd training (fst r)
             | None => Ok (fst r)
             end;
         y ← tf_add x inputs;
         Ok (pack r y))) /\
     (InvertedBottleneckBlock.residual_condition self = false ->
      InvertedBottleneckBlock.call self inputs training =
        (r ← InvertedBottleneckBlock.main_branch self inputs; Ok (pack r (fst r))) /\
      forall rate mk training',
        InvertedBottleneckBlock.call
          (InvertedBottleneckBlock.with_stochastic_depth self rate mk) inputs training'
        = InvertedBottleneckBlock.call self inputs training)) /\
  (forall (self : TuckerConvBlock.t) inputs training,
     (TuckerConvBlock.residual_condition self = true <->
      TuckerConvBlock._use_residual self = true /\
      TuckerConvBlock._in_filters self = TuckerConvBlock._out_filters self /\
      TuckerConvBlock._strides self = 1%Z) /\
     (TuckerConvBlock.residual_condition self = true ->
      TuckerConvBlock.call self inputs training =
        (x ← TuckerConvBlock.main_branch self inputs;
         x ← match TuckerConvBlock._stochastic_depth self with
             | Some sd => sd training x
             | None => Ok x
             end;
         tf_add x inputs)) /\
     (TuckerConvBlock.residual_condition self = false ->
      TuckerConvBlock.call self inputs training = TuckerConvBlock.main_branch self inputs /\
      forall rate mk training',
        TuckerConvBlock.call (TuckerConvBlock.with_stochastic_depth self rate mk)
          inputs training'
        = TuckerConvBlock.call self inputs training)).
Proof.
  split; intros self inputs training.
  - cbn zeta. split; [apply residual_condition_spec|]. split.
    + intros Hc. unfold InvertedBottleneckBlock.call. rewrite Hc.
      unfold mbind, result_bind, keras_add.
      destruct (InvertedBottleneckBlock.main_branch self inputs) as [[x e]|]; [|reflexivity].
      cbn [fst snd].
      destruct (InvertedBottleneckBlock._stochastic_depth self) as [sd|].
      * destruct (sd training x); [|reflexivity].
        destruct (tf_add _ inputs); [|reflexivity].
        destruct (InvertedBottleneckBlock._output_intermediate_endpoints self); reflexivity.
      * destruct (tf_add _ inputs); [|reflexivity].
        destruct (InvertedBottleneckBlock._output_intermediate_endpoints self); reflexivity.
    + intros Hc.
      assert (Hcall : forall s t,
                InvertedBottleneckBlock.residual_condition s = false ->
                InvertedBottleneckBlock.call s inputs t =
                (r ← InvertedBottleneckBlock.main_branch s inputs;
                 Ok (fst r, if InvertedBottleneckBlock._output_intermediate_endpoints s
                            then Some (snd r) else None))).
      { intros s t Hs. unfold InvertedBottleneckBlock.call. rewrite Hs.
        unfold mbind, result_bind.
        destruct (InvertedBottleneckBlock.main_branch s inputs) as [[x e]|]; [|reflexivity].
        cbn [fst snd].
        destruct (InvertedBottleneckBlock._output_intermediate_endpoints s); reflexivity. }
      split; [apply Hcall; exact Hc|].
      intros rate mk training'. rewrite !Hcall by exact Hc. reflexivity.
  - split; [apply residual_condition_spec|]. split.
    + intros Hc. unfold TuckerConvBlock.call. rewrite Hc. reflexivity.
    + intros Hc.
      assert (Hcall : forall s t,
                TuckerConvBlock.residual_condition s = false ->
                TuckerConvBlock.call s inputs t = TuckerConvBlock.main_branch s inputs).
      { intros s t Hs. unfold TuckerConvBlock.call. rewrite Hs.
        unfold mbind, result_bind.
        destruct (TuckerConvBlock.main_branch s inputs); reflexivity. }
      split; [apply Hcall; exact Hc|].
      intros rate mk training'. rewrite !Hcall by exact Hc. reflexivity.
Qed.

(** ** The scale blocks write only their statistic *)

Lemma pool_scale_writes_only_statistics s wref mref :
  writes_only_statistics (pool_scale_layer s wref mref).
Proof.
  intros tr st x v Hv. cbn [pool_scale_layer call non_trainable_variables] in *.
  unfold pool_scale_call.
  destruct (st !! wref); [|reflexivity].
  destruct (avg_pool x _ _ VALID NHWC); [|reflexivity]. cbn [snd].
  destruct tr as [[|]|]; try reflexivity.
  destruct (st !! mref); [|reflexivity].
  apply lookup_insert_ne. intros ->. apply Hv. left. reflexivity.
Qed.

(** ** Outcomes of runs *)

Lemma forward_run (r : result (tensor * closure) * world) :
  is_ok (fst r) = true -> r = (Ok (run_output r, run_closure r), snd r).
Proof.
  destruct r as [[[y cl]|e] w]; [reflexivity|discriminate].
Qed.

Lemma backward_run (r : result (tensor * list (option tensor)) * world) :
  is_ok (fst r) = true -> r = (Ok (run_dx r, run_grads r), snd r).
Proof.
  destruct r as [[[dx gv]|e] w]; [reflexivity|discriminate].
Qed.

Lemma raise_run {A} (r : result A * world) e :
  fst r = Raise e -> r = (Raise e, snd r).
Proof. destruct r as [a w]. cbn. intros ->. reflexivity. Qed.

(** ** The theorems on the runs *)

(** C2 on the run [rev_forward], [rev_backward]: both moving statistics are
    back at their values after the forward pass. *)
Lemma C2_statistics_restored_witness :
  vars (snd rev_backward) !! 1%nat = vars (snd rev_forward) !! 1%nat /\
  vars (snd rev_backward) !! 3%nat = vars (snd rev_forward) !! 3%nat.
Proof.
  pose proof (C2_statistics_restored rev_layer (Some true) c1_x (world0 store4)
                (run_output rev_forward) (run_closure rev_forward) (snd rev_forward)
                c1_dy (Some [2; 0]%nat) (run_dx rev_backward) (run_grads rev_backward)
                (snd rev_backward)) as H.
  destruct H as [_ H].
  - apply (forward_run rev_forward). vm_compute. reflexivity.
  - vm_compute. reflexivity.
  - reflexivity.
  - apply (backward_run rev_backward). vm_compute. reflexivity.
  - split; apply H; simpl; auto.
Defined.


(** C4 on the run [rev_forward]: the events of the forward call. *)
Lemma C4_backward_strategy_witness :
  trace (snd rev_forward) =
    trace (world0 store4) ++ [EvCall BlockF; EvCall BlockG;
                              EvIrreversible (cl_irreversible (run_closure rev_forward));
                              EvCkpt].
Proof.
  apply (C4_backward_strategy rev_layer (Some true) c1_x (world0 store4)
           (run_output rev_forward) (run_closure rev_forward) (snd rev_forward)).
  apply (forward_run rev_forward). vm_compute. reflexivity.
Defined.

(** C5 on the run [rev_forward], [rev_backward]. *)
Lemma C5_manual_backward_witness :
  exists dy1 dy2 g_z1 st1 x2 f_x2 st2 gdx dwg dz1 fdx dwf dx1 dx2 vs idx,
    tf_split c1_dy 2 (_axis rev_layer) = Ok [dy1; dy2] /\
    call (_g rev_layer) (Some true) (vars (snd rev_forward))
      (tf_stop_gradient (cl_y1 (run_closure rev_forward))) = (Ok g_z1, st1) /\
    tf_sub (tf_stop_gradient (cl_y2 (run_closure rev_forward))) g_z1 = Ok x2 /\
    call (_f rev_layer) (Some true) st1 x2 = (Ok f_x2, st2) /\
    backprop (_g rev_layer) (Some true) (vars (snd rev_forward))
      (tf_stop_gradient (cl_y1 (run_closure rev_forward))) dy2 = Ok (gdx, dwg) /\
    tf_add dy1 gdx = Ok dz1 /\
    backprop (_f rev_layer) (Some true) st1 x2 dz1 = Ok (fdx, dwf) /\
    tf_add dy2 fdx = Ok dx2 /\
    dx1 = dz1 /\
    tf_concat [dx1; dx2] (_axis rev_layer) = Ok (run_dx rev_backward) /\
    Some [2; 0]%nat = Some vs /\
    mapR (list_index (trainable_variables (_f rev_layer) ++
                      trainable_variables (_g rev_layer))) vs = Ok idx /\
    mapR (list_item (map (fun v => dwf !! v) (trainable_variables (_f rev_layer)) ++
                     map (fun v => dwg !! v) (trainable_variables (_g rev_layer)))) idx
      = Ok (run_grads rev_backward).
Proof.
  apply (C5_manual_backward rev_layer (Some true) (run_closure rev_forward) c1_dy
           (Some [2; 0]%nat) (snd rev_forward) (run_dx rev_backward)
           (run_grads rev_backward) (snd rev_backward)).
  - vm_compute. reflexivity.
  - reflexivity.
  - apply (backward_run rev_backward). vm_compute. reflexivity.
Defined.


(** C7 on the run [c7_forward], [c7_grad_fn], whose backward call raises. *)
Lemma C7_restore_only_on_success_witness :
  exists evs, trace (snd c7_grad_fn) = trace (snd c7_forward) ++ evs /\
              ~ In EvLoadCkpt evs.
Proof.
  apply (C7_restore_only_on_success c7_layer (Some true) c7_x (world0 store4)
           (run_output c7_forward) (run_closure c7_forward) (snd c7_forward)
           c7_dy (Some [0; 2]%nat) (LayerError 0) (snd c7_grad_fn)).
  - apply (forward_run c7_forward). vm_compute. reflexivity.
  - apply (raise_run c7_grad_fn). vm_compute. reflexivity.
Defined.

(** ** Configuration export and reconstruction *)

Import Config.

Lemma bind_bound sig kw args :
  bind sig kw = Ok args ->
  args = map (fun p => (fst p, default (default PNone (snd p)) (dict_get kw (fst p)))) sig.
Proof.
  revert args. induction sig as [|[n d] sig IH]; intros args H; cbn in H.
  - inversion H. reflexivity.
  - cbn [map fst snd].
    destruct (dict_get kw n) as [v|] eqn:E.
    + destruct (bind sig kw) as [r|]; [|discriminate]. cbn in H. inversion H.
      rewrite (IH r eq_refl). reflexivity.
    + destruct d as [v|]; [|discriminate].
      destruct (bind sig kw) as [r|]; [|discriminate]. cbn in H. inversion H.
      rewrite (IH r eq_refl). reflexivity.
Qed.

(** An instance is the dictionary of the base attributes followed by the
    assignments of [__init__], run on the bound arguments. *)
Lemma construct_attrs C fmt nm kw self :
  construct C fmt nm kw = Ok self ->
  exists vn vt vd : pyval,
    self = dict_of
      ([("name"%string, vn); ("trainable"%string, vt); ("dtype"%string, vd)]
       ++ __init__ C fmt
            (rd (dict_of (map (fun p => (fst p, default (default PNone (snd p))
                                                  (dict_get kw (fst p))))
                              (signature C))))).
Proof.
  unfold construct. intros H.
  destruct (bind (signature C) kw) as [args|] eqn:Eb; [|discriminate].
  cbv beta iota zeta delta [mbind result_bind] in H.
  apply bind_bound in Eb. subst args.
  destruct (fold_right _ _ base_options); [|discriminate]. inversion H.
  eexists _, _, _. reflexivity.
Qed.

Lemma construct_inv C fmt nm kw self :
  construct C fmt nm kw = Ok self ->
  exists (o : string -> option pyval) (vn vt vd : pyval),
    self = dict_of
      ([("name"%string, vn); ("trainable"%string, vt); ("dtype"%string, vd)]
       ++ __init__ C fmt
            (rd (dict_of (map (fun p => (fst p, default (default PNone (snd p)) (o (fst p))))
                              (signature C))))).
Proof.
  intros H. apply construct_attrs in H. destruct H as (vn & vt & vd & H).
  exists (dict_get kw), vn, vt, vd. exact H.
Qed.

Lemma activations_get_idem v : activations_get (activations_get v) = activations_get v.
Proof. destruct v; reflexivity. Qed.

Lemma initializers_get_idem v : initializers_get (initializers_get v) = initializers_get v.
Proof. destruct v; reflexivity. Qed.

(** C9. [DepthwiseSeparableConvBlock.get_config] exports neither
    [kernel_size] nor [dilation_rate]: a block built with [kernel_size=5] and
    [dilation_rate=2] is reconstructed from its configuration with the
    defaults 3 and 1. *)
Theorem C9_depthwise_separable_config_loses_options fmt nm :
  exists self self',
    construct DepthwiseSeparableConvBlock fmt nm c9_kwargs = Ok self /\
    from_config DepthwiseSeparableConvBlock fmt nm
      (get_config DepthwiseSeparableConvBlock self) = Ok self' /\
    dict_get (get_config DepthwiseSeparableConvBlock self) "kernel_size" = None /\
    dict_get (get_config DepthwiseSeparableConvBlock self) "dilation_rate" = None /\
    rd self "_kernel_size" = PInt 5 /\ rd self' "_kernel_size" = PInt 3 /\
    rd self "_dilation_rate" = PInt 2 /\ rd self' "_dilation_rate" = PInt 1.
Proof.
  eexists. eexists. split; [vm_compute; reflexivity|].
  split; [vm_compute; reflexivity|].
  repeat split; vm_compute; reflexivity.
Qed.

(** *** Round trips *)

Lemma construct_ok (r : result pydict) : is_ok r = true -> r = Ok (instance_of r).
Proof. destruct r; [reflexivity|discriminate]. Qed.

Ltac truthy_cases :=
  repeat (lazy -[truthy];
          repeat match goal with
                 | H : truthy ?x = _ |- context [truthy ?x] => rewrite H
                 end;
          match goal with
          | |- context [truthy ?d] =>
              lazymatch d with
              | context [truthy _] => fail
              | _ => destruct (truthy d) eqn:?
              end
          end).

(** [ResidualBlock]: a block rebuilt from its configuration has the
    attributes of the original, whatever the constructor was given. *)
Theorem ResidualBlock_config_round_trip fmt nm nm' kwargs self :
  construct ResidualBlock fmt nm kwargs = Ok self ->
  from_config ResidualBlock fmt nm' (get_config ResidualBlock self) = Ok self.
Proof.
  intros H. apply construct_inv in H. destruct H as (o & vn & vt & vd & ->).
  vm_compute. reflexivity.
Qed.

Lemma ResidualBlock_config_round_trip_witness :
  from_config ResidualBlock "channels_last" "residual_block_1"
    (get_config ResidualBlock
       (instance_of (construct ResidualBlock "channels_last" "residual_block"
                       residual_block_kwargs)))
  = Ok (instance_of (construct ResidualBlock "channels_last" "residual_block"
                       residual_block_kwargs)).
Proof.
  apply (ResidualBlock_config_round_trip "channels_last" "residual_block"
           "residual_block_1" residual_block_kwargs).
  apply construct_ok. vm_compute. reflexivity.
Defined.

(** [BottleneckBlock]: the same round trip. *)
Theorem BottleneckBlock_config_round_trip fmt nm nm' kwargs self :
  construct BottleneckBlock fmt nm kwargs = Ok self ->
  from_config BottleneckBlock fmt nm' (get_config BottleneckBlock self) = Ok self.
Proof.
  intros H. apply construct_inv in H. destruct H as (o & vn & vt & vd & ->).
  vm_compute. reflexivity.
Qed.

Lemma BottleneckBlock_config_round_trip_witness :
  from_config BottleneckBlock "channels_first" "bottleneck_block_1"
    (get_config BottleneckBlock
       (instance_of (construct BottleneckBlock "channels_first" "bottleneck_block"
                       residual_block_kwargs)))
  = Ok (instance_of (construct BottleneckBlock "channels_first" "bottleneck_block"
                       residual_block_kwargs)).
Proof.
  apply (BottleneckBlock_config_round_trip "channels_first" "bottleneck_block"
           "bottleneck_block_1" residual_block_kwargs).
  apply construct_ok. vm_compute. reflexivity.
Defined.

(** [InvertedBottleneckBlock]: the round trip holds although [__init__]
    replaces a missing [depthwise_activation] by [activation] and the
    configuration exports the replaced value. *)
Theorem InvertedBottleneckBlock_config_round_trip fmt nm nm' kwargs self :
  construct InvertedBottleneckBlock fmt nm kwargs = Ok self ->
  from_config InvertedBottleneckBlock fmt nm'
    (get_config InvertedBottleneckBlock self) = Ok self.
Proof.
  intros H. apply construct_inv in H. destruct H as (o & vn & vt & vd & ->).
  truthy_cases; lazy -[truthy]; reflexivity.
Qed.

Lemma InvertedBottleneckBlock_config_round_trip_witness :
  from_config InvertedBottleneckBlock "channels_last" "inverted_bottleneck_block_1"
    (get_config InvertedBottleneckBlock
       (instance_of (construct InvertedBottleneckBlock "channels_last"
                       "inverted_bottleneck_block" inverted_bottleneck_kwargs)))
  = Ok (instance_of (construct InvertedBottleneckBlock "channels_last"
                       "inverted_bottleneck_block" inverted_bottleneck_kwargs)).
Proof.
  apply (InvertedBottleneckBlock_config_round_trip "channels_last"
           "inverted_bottleneck_block" "inverted_bottleneck_block_1"
           inverted_bottleneck_kwargs).
  apply construct_ok. vm_compute. reflexivity.
Defined.

(** [ResidualInner] and [BottleneckResidualInner]: the configuration holds
    the resolved activation and initializer, and resolving them again at
    reconstruction changes nothing, so the round trip gives back every
    attribute but [_activation_fn].  That attribute is
    [get_activation(activation)] in the first instance and
    [get_activation] of the resolved activation in the reconstructed one;
    the round trip gives the same instance exactly when the two are the
    same function. *)
Theorem ResidualInner_config_round_trip get_activation C fmt nm nm' kwargs self :
  C = ResidualInner get_activation \/ C = BottleneckResidualInner get_activation ->
  construct C fmt nm kwargs = Ok self ->
  let activation := default (PStr "relu") (dict_get kwargs "activation") in
  dict_get self "_activation_fn" = Some (get_activation activation) /\
  from_config C fmt nm' (get_config C self)
    = Ok (dict_set self "_activation_fn" (get_activation (activations_get activation))) /\
  (from_config C fmt nm' (get_config C self) = Ok self
   <-> get_activation (activations_get activation) = get_activation activation).
Proof.
  intros HC H activation.
  assert (Hs : dict_get self "_activation_fn" = Some (get_activation activation)
               /\ from_config C fmt nm' (get_config C self)
                  = Ok (dict_set self "_activation_fn"
                          (get_activation (activations_get activation)))).
  { subst activation.
    destruct HC as [-> | ->]; apply construct_attrs in H;
      destruct H as (vn & vt & vd & ->); generalize (dict_get kwargs); intros o;
      (split; [lazy -[activations_get initializers_get]; reflexivity|]);
      lazy -[activations_get initializers_get];
      rewrite activations_get_idem, initializers_get_idem; reflexivity. }
  destruct Hs as [Hfn Hrt]. split; [exact Hfn|]. split; [exact Hrt|].
  rewrite Hrt. split.
  - intros E. inversion E as [E'].
    assert (Hg : dict_get (dict_set self "_activation_fn"
                             (get_activation (activations_get activation)))
                   "_activation_fn" = dict_get self "_activation_fn")
      by (rewrite E'; reflexivity).
    rewrite Hfn in Hg. clear - Hg Hfn.
    revert Hg. generalize (get_activation (activations_get activation)). intros b.
    induction self as [|[k v] m IH]; [discriminate Hfn|].
    simpl in *. destruct (String.eqb k "_activation_fn") eqn:Ek.
    + simpl. rewrite Ek. congruence.
    + simpl. rewrite Ek. exact (IH Hfn).
  - intros ->. f_equal. clear - Hfn.
    induction self as [|[k v] m IH]; [discriminate Hfn|].
    simpl in *. destruct (String.eqb k "_activation_fn") eqn:Ek.
    + congruence.
    + f_equal. exact (IH Hfn).
Qed.

(** The round trip on [BottleneckResidualInner] with a resolver that
    resolves as [tf.keras.activations.get] does. *)
Lemma ResidualInner_config_round_trip_witness :
  dict_get (instance_of (construct (BottleneckResidualInner keras_resolver) "channels_last"
                           "bottleneck_residual_inner" inner_kwargs)) "_activation_fn"
    = Some (PFun "swish") /\
  from_config (BottleneckResidualInner keras_resolver) "channels_last"
    "bottleneck_residual_inner_1"
    (get_config (BottleneckResidualInner keras_resolver)
       (instance_of (construct (BottleneckResidualInner keras_resolver) "channels_last"
                       "bottleneck_residual_inner" inner_kwargs)))
  = Ok (instance_of (construct (BottleneckResidualInner keras_resolver) "channels_last"
                       "bottleneck_residual_inner" inner_kwargs)).
Proof.
  destruct (ResidualInner_config_round_trip keras_resolver
              (BottleneckResidualInner keras_resolver) "channels_last"
              "bottleneck_residual_inner" "bottleneck_residual_inner_1" inner_kwargs
              (instance_of (construct (BottleneckResidualInner keras_resolver)
                              "channels_last" "bottleneck_residual_inner" inner_kwargs)))
    as (Hfn & _ & Hiff).
  - right. reflexivity.
  - apply construct_ok. vm_compute. reflexivity.
  - split; [exact Hfn|]. apply Hiff. reflexivity.
Defined.

(** [ResidualInner] and [BottleneckResidualInner] export the resolved
    objects, not the constructor arguments: an activation given by name is
    exported as the function of that name, an initializer given by name as
    an instance of the class of that name. *)
Theorem ResidualInner_config_holds_resolved_objects get_activation C fmt nm kwargs self :
  C = ResidualInner get_activation \/ C = BottleneckResidualInner get_activation ->
  construct C fmt nm kwargs = Ok self ->
  dict_get (get_config C self) "activation"
    = Some (activations_get (default (PStr "relu") (dict_get kwargs "activation"))) /\
  dict_get (get_config C self) "kernel_initializer"
    = Some (initializers_get (default (PStr "VarianceScaling")
                                (dict_get kwargs "kernel_initializer"))) /\
  (forall s, dict_get kwargs "activation" = Some (PStr s) ->
             dict_get (get_config C self) "activation" = Some (PFun s)) /\
  (forall s, dict_get kwargs "kernel_initializer" = Some (PStr s) ->
             dict_get (get_config C self) "kernel_initializer" = Some (PInitializer s)).
Proof.
  intros HC H.
  assert (Ha : dict_get (get_config C self) "activation"
               = Some (activations_get (default (PStr "relu") (dict_get kwargs "activation")))
             /\ dict_get (get_config C self) "kernel_initializer"
               = Some (initializers_get (default (PStr "VarianceScaling")
                                           (dict_get kwargs "kernel_initializer")))).
  { destruct HC as [-> | ->]; apply construct_attrs in H;
      destruct H as (vn & vt & vd & ->); generalize (dict_get kwargs); intros o;
      split; lazy -[activations_get initializers_get]; reflexivity. }
  destruct Ha as [Ha Hi]. split; [exact Ha|]. split; [exact Hi|]. split.
  - intros s Hs. rewrite Ha, Hs. reflexivity.
  - intros s Hs. rewrite Hi, Hs. reflexivity.
Qed.

Lemma ResidualInner_config_holds_resolved_objects_witness :
  dict_get (get_config (ResidualInner keras_resolver)
              (instance_of (construct (ResidualInner keras_resolver) "channels_last"
                              "residual_inner" inner_kwargs))) "activation"
  = Some (PFun "swish").
Proof.
  apply (ResidualInner_config_holds_resolved_objects keras_resolver
           (ResidualInner keras_resolver) "channels_last" "residual_inner" inner_kwargs).
  - left. reflexivity.
  - apply construct_ok. vm_compute. reflexivity.
  - vm_compute. reflexivity.
Defined.

(** [InvertedBottleneckBlock]: when no (or a false) [depthwise_activation]
    is given, the configuration exports [activation] in its place. *)
Theorem InvertedBottleneckBlock_depthwise_activation_default fmt nm kwargs self :
  construct InvertedBottleneckBlock fmt nm kwargs = Ok self ->
  truthy (default PNone (dict_get kwargs "depthwise_activation")) = false ->
  dict_get (get_config InvertedBottleneckBlock self) "depthwise_activation"
  = Some (default (PStr "relu") (dict_get kwargs "activation")).
Proof.
  intros H. apply construct_attrs in H. destruct H as (vn & vt & vd & ->).
  generalize (dict_get kwargs). intros o Ht.
  lazy -[truthy]. lazy -[truthy] in Ht. rewrite Ht. lazy -[truthy]. reflexivity.
Qed.

Lemma InvertedBottleneckBlock_depthwise_activation_default_witness :
  dict_get (get_config InvertedBottleneckBlock
              (instance_of (construct InvertedBottleneckBlock "channels_last"
                              "inverted_bottleneck_block" inverted_bottleneck_kwargs)))
    "depthwise_activation"
  = Some (default (PStr "relu") (dict_get inverted_bottleneck_kwargs "activation")).
Proof.
  apply (InvertedBottleneckBlock_depthwise_activation_default "channels_last"
           "inverted_bottleneck_block" inverted_bottleneck_kwargs).
  - apply construct_ok. vm_compute. reflexivity.
  - vm_compute. reflexivity.
Defined.

(** [ReversibleLayer]: the round trip of [f], [g] and [manual_grads]. *)
Theorem ReversibleLayer_config_round_trip fmt nm nm' kwargs self :
  construct ReversibleLayer fmt nm kwargs = Ok self ->
  from_config ReversibleLayer fmt nm' (get_config ReversibleLayer self) = Ok self.
Proof.
  intros H. apply construct_inv in H. destruct H as (o & vn & vt & vd & ->).
  vm_compute. reflexivity.
Qed.

Lemma ReversibleLayer_config_round_trip_witness :
  from_config ReversibleLayer "channels_last" "reversible_layer_1"
    (get_config ReversibleLayer
       (instance_of (construct ReversibleLayer "channels_last" "reversible_layer"
                       reversible_kwargs)))
  = Ok (instance_of (construct ReversibleLayer "channels_last" "reversible_layer"
                       reversible_kwargs)).
Proof.
  apply (ReversibleLayer_config_round_trip "channels_last" "reversible_layer"
           "reversible_layer_1" reversible_kwargs).
  apply construct_ok. vm_compute. reflexivity.
Defined.

(** [TuckerConvBlock]: the round trip. *)
Theorem TuckerConvBlock_config_round_trip fmt nm nm' kwargs self :
  construct TuckerConvBlock fmt nm kwargs = Ok self ->
  from_config TuckerConvBlock fmt nm' (get_config TuckerConvBlock self) = Ok self.
Proof.
  intros H. apply construct_inv in H. destruct H as (o & vn & vt & vd & ->).
  vm_compute. reflexivity.
Qed.

Lemma TuckerConvBlock_config_round_trip_witness :
  from_config TuckerConvBlock "channels_last" "tucker_conv_block_1"
    (get_config TuckerConvBlock
       (instance_of (construct TuckerConvBlock "channels_last" "tucker_conv_block"
                       tucker_kwargs)))
  = Ok (instance_of (construct TuckerConvBlock "channels_last" "tucker_conv_block"
                       tucker_kwargs)).
Proof.
  apply (TuckerConvBlock_config_round_trip "channels_last" "tucker_conv_block"
           "tucker_conv_block_1" tucker_kwargs).
  apply construct_ok. vm_compute. reflexivity.
Defined.

(** [DepthwiseSeparableConvBlock]: whatever the constructor was given, the
    block rebuilt from the configuration is the original with [kernel_size]
    and [dilation_rate] set back to their defaults 3 and 1; every other
    attribute survives. *)
Theorem DepthwiseSeparableConvBlock_config_round_trip fmt nm nm' kwargs self :
  construct DepthwiseSeparableConvBlock fmt nm kwargs = Ok self ->
  from_config DepthwiseSeparableConvBlock fmt nm'
    (get_config DepthwiseSeparableConvBlock self)
  = Ok (dict_set (dict_set self "_kernel_size" (PInt 3)) "_dilation_rate" (PInt 1)).
Proof.
  intros H. apply construct_inv in H. destruct H as (o & vn & vt & vd & ->).
  vm_compute. reflexivity.
Qed.

Lemma DepthwiseSeparableConvBlock_config_round_trip_witness :
  from_config DepthwiseSeparableConvBlock "channels_last" "depthwise_separable_conv_block_1"
    (get_config DepthwiseSeparableConvBlock
       (instance_of (construct DepthwiseSeparableConvBlock "channels_last"
                       "depthwise_separable_conv_block" c9_kwargs)))
  = Ok (dict_set (dict_set
          (instance_of (construct DepthwiseSeparableConvBlock "channels_last"
                          "depthwise_separable_conv_block" c9_kwargs))
          "_kernel_size" (PInt 3)) "_dilation_rate" (PInt 1)).
Proof.
  apply (DepthwiseSeparableConvBlock_config_round_trip "channels_last"
           "depthwise_separable_conv_block" "depthwise_separable_conv_block_1" c9_kwargs).
  apply construct_ok. vm_compute. reflexivity.
Defined.

(** ** More on the reversible layer *)

Lemma assign_all_id st vs : forall cs,
  mapR (read_value st) vs = Ok cs -> assign_all vs cs st = st.
Proof.
  induction vs as [|v vs IH]; intros cs H.
  - inversion H. reflexivity.
  - apply mapR_cons_inv in H. destruct H as (c & cs' & Hc & Hcs & ->).
    unfold assign_all. cbn [combine fold_left fst snd].
    unfold read_value in Hc. destruct (st !! v) as [t|] eqn:E; [|discriminate].
    inversion Hc; subst c. rewrite insert_id by exact E. apply IH. exact Hcs.
Qed.

(** Restoring the snapshot right after it was taken changes no variable. *)
Theorem ckpt_then_load_is_identity self w w1 :
  _ckpt_non_trainable_vars self w = (Ok tt, w1) ->
  exists w2, _load_ckpt_non_trainable_vars self w1 = (Ok tt, w2) /\
             vars w2 = vars w /\ vars w1 = vars w.
Proof.
  unfold _ckpt_non_trainable_vars. intros H.
  destruct (mapR (read_value (vars w)) (non_trainable_variables (_f self))) as [fs|] eqn:Ef;
    [|discriminate].
  cbn [vars] in H.
  destruct (mapR (read_value (vars w)) (non_trainable_variables (_g self))) as [gs|] eqn:Eg;
    [|discriminate].
  inversion H; subst w1; clear H.
  unfold _load_ckpt_non_trainable_vars.
  cbn [vars _f_non_trainable_vars _g_non_trainable_vars trace].
  eexists. split; [reflexivity|]. cbn [vars]. split; [|reflexivity].
  rewrite (assign_all_id _ _ _ Ef). apply assign_all_id. exact Eg.
Qed.

Lemma tf_split_two x axis dys :
  tf_split x 2 axis = Ok dys -> exists a b, dys = [a; b].
Proof.
  unfold tf_split. destruct (norm_axis axis); [|discriminate].
  change (2 <=? 0)%Z with false. change (Z.to_nat 2) with 2%nat. cbv beta iota zeta.
  destruct (negb _); [discriminate|]. intros H. inversion H. eauto.
Qed.

(** Called without [variables] (the default [None]), [grad_fn] never returns
    gradients: the fallback raises [TypeError] on [[x] + variables]; the
    manual branch raises at the split of [dy] or, when [dy] splits,
    [TypeError] on the iteration over [variables].  Nothing has run by then:
    the world is unchanged. *)
Theorem grad_fn_without_variables self training cl dy w :
  (exists e, grad_fn self training cl dy None w = (Raise e, w)) /\
  (cl_irreversible cl || negb (_manual_grads self) = true ->
   grad_fn self training cl dy None w = (Raise TypeError, w)) /\
  (is_ok (tf_split dy 2 (_axis self)) = true ->
   grad_fn self training cl dy None w = (Raise TypeError, w)).
Proof.
  assert (Ha : grad_fn_autodiff self training cl dy None w = (Raise TypeError, w))
    by reflexivity.
  assert (Hm : forall dys, tf_split dy 2 (_axis self) = Ok dys ->
                 grad_fn_manual self training cl dy None w = (Raise TypeError, w)).
  { intros dys Hs. destruct (tf_split_two _ _ _ Hs) as (a & b & ->).
    unfold grad_fn_manual, mbind, M_bind, lift. rewrite Hs. reflexivity. }
  assert (Hm' : forall e, tf_split dy 2 (_axis self) = Raise e ->
                 grad_fn_manual self training cl dy None w = (Raise e, w)).
  { intros e Hs. unfold grad_fn_manual, mbind, M_bind, lift. rewrite Hs. reflexivity. }
  unfold grad_fn. split; [|split].
  - destruct (cl_irreversible cl || negb (_manual_grads self)); [eauto|].
    destruct (tf_split dy 2 (_axis self)) as [dys|e] eqn:Es.
    + exists TypeError. apply (Hm dys). reflexivity.
    + exists e. apply Hm'. reflexivity.
  - intros ->. exact Ha.
  - intros Hok. destruct (cl_irreversible cl || negb (_manual_grads self)); [exact Ha|].
    destruct (tf_split dy 2 (_axis self)) as [dys|e] eqn:Es; [|discriminate].
    apply (Hm dys). reflexivity.
Qed.

Lemma mapR_list_index_notin l vs v :
  In v vs -> ~ In v l -> mapR (list_index l) vs = Raise ValueError.
Proof.
  intros Hin Hn. induction vs as [|a vs IH]; [destruct Hin|].
  cbn [mapR]. destruct (list_index l a) as [j|e] eqn:Ea.
  - destruct Hin as [->|Hin].
    + rewrite (list_index_notin _ _ Hn) in Ea. discriminate.
    + rewrite (IH Hin). reflexivity.
  - destruct (in_dec Nat.eq_dec a l) as [Hal|Hal].
    + destruct (list_index_in _ _ Hal) as [j Hj]. congruence.
    + rewrite (list_index_notin _ _ Hal) in Ea. inversion Ea. reflexivity.
Qed.

(** In the manual branch a requested variable that is no trainable variable
    of F or G makes [grad_fn] raise [ValueError] (from [list.index]) before
    either block is re-run: the world is unchanged. *)
Theorem grad_fn_unknown_variable self training cl dy vs v w :
  cl_irreversible cl = false ->
  _manual_grads self = true ->
  is_ok (tf_split dy 2 (_axis self)) = true ->
  In v vs ->
  ~ In v (trainable_variables (_f self) ++ trainable_variables (_g self)) ->
  grad_fn self training cl dy (Some vs) w = (Raise ValueError, w).
Proof.
  intros Hirr Hman Hok Hin Hn. unfold grad_fn. rewrite Hirr, Hman. cbn [negb orb].
  destruct (tf_split dy 2 (_axis self)) as [dys|e] eqn:Es; [|discriminate].
  destruct (tf_split_two _ _ _ Es) as (a & b & ->).
  unfold grad_fn_manual, mbind, M_bind, lift. rewrite Es. cbn [unpack2 require_list].
  rewrite (mapR_list_index_notin _ _ _ Hin Hn). reflexivity.
Qed.

(** ** More on [_maybe_downsample] *)

Lemma windowed_output_size_same n s o :
  windowed_output_size n s s = Ok o -> (0 < s)%Z /\ o = (n / Z.to_nat s)%nat.
Proof.
  unfold windowed_output_size.
  destruct (Z.leb_spec s 0) as [Hs|Hs]; cbn [orb]; [discriminate|].
  replace (Z.of_nat n - s + s)%Z with (Z.of_nat n) by lia.
  destruct (Z.ltb_spec (Z.quot (Z.of_nat n) s) 0) as [Hq|Hq]; [discriminate|].
  intros Ho. inversion Ho. split; [exact Hs|].
  rewrite Z.quot_div_nonneg by lia.
  rewrite <- (Z2Nat.id s) at 1 by lia.
  rewrite <- Nat2Z.inj_div. apply Nat2Z.id.
Qed.

(** The shape of the shortcut [_maybe_downsample] returns: the stride is
    positive, the batch size is kept, each spatial size is divided by the
    stride (rounding down), and the channel axis gets the padding. *)
Theorem maybe_downsample_shape x out_filter s axis r :
  axis = (-1)%Z \/ axis = 1%Z ->
  _maybe_downsample x out_filter s axis = Ok r ->
  let fmt := axis_format axis in
  (0 < s)%Z /\
  i0 (dims r) = i0 (dims x) /\
  ix_get (fst (spatial_axes fmt)) (dims r)
    = (ix_get (fst (spatial_axes fmt)) (dims x) / Z.to_nat s)%nat /\
  ix_get (snd (spatial_axes fmt)) (dims r)
    = (ix_get (snd (spatial_axes fmt)) (dims x) / Z.to_nat s)%nat /\
  Z.of_nat (filters_of axis r)
    = padded_filters (Z.of_nat (filters_of axis x)) out_filter.
Proof.
  intros Hax H fmt.
  assert (Hc := maybe_downsample_filters _ _ _ _ _ Hax H).
  unfold _maybe_downsample, mbind, result_bind in H.
  fold (axis_format axis) in H. fold fmt in H.
  destruct (avg_pool x _ _ VALID fmt) as [p|] eqn:Hp; [|discriminate].
  apply avg_pool_dims in Hp. destruct Hp as (oh & ow & Hoh & How & Hd).
  destruct (shape_at p axis) as [c|]; [|discriminate]. cbn beta iota in H.
  assert (Hr : exists q, dims r = dims q /\
            (q = p \/ exists pad, tf_pad p (if (axis =? 1)%Z
                                           then [(0, 0); pad; (0, 0); (0, 0)]%Z
                                           else [(0, 0); (0, 0); (0, 0); pad]%Z) = Ok q)).
  { destruct (c <? out_filter)%Z.
    - destruct (axis =? 1)%Z eqn:Ea;
        destruct (tf_pad p _) as [q|] eqn:Hq; try discriminate;
        inversion H; exists q; (split; [reflexivity|]); right; eexists; exact Hq.
    - inversion H. exists p. split; [reflexivity|]. left. reflexivity. }
  destruct Hr as (q & Hrq & Hq).
  assert (Hsz : (0 < s)%Z /\ oh = (ix_get (fst (spatial_axes fmt)) (dims x) / Z.to_nat s)%nat
                /\ ow = (ix_get (snd (spatial_axes fmt)) (dims x) / Z.to_nat s)%nat).
  { subst fmt. unfold axis_format, _pad_strides in *.
    destruct Hax as [-> | ->]; cbn [Z.eqb spatial_axes fst snd z4_get] in *;
      apply windowed_output_size_same in Hoh, How; intuition. }
  destruct Hsz as (Hs & -> & ->).
  split; [exact Hs|].
  assert (Hq' : i0 (dims q) = i0 (dims p) /\
                ix_get (fst (spatial_axes fmt)) (dims q) = ix_get (fst (spatial_axes fmt)) (dims p) /\
                ix_get (snd (spatial_axes fmt)) (dims q) = ix_get (snd (spatial_axes fmt)) (dims p)).
  { destruct Hq as [-> | [pad Hq]]; [auto|].
    apply tf_pad_dims in Hq. rewrite Hq. subst fmt. unfold axis_format.
    destruct Hax as [-> | ->];
      [change ((-1 =? 1)%Z) with false | change ((1 =? 1)%Z) with true];
      cbn [spatial_axes fst snd ix_get pad_row nth i0 i1 i2 i3 Z.to_nat];
      repeat split; lia. }
  destruct Hq' as (Hq0 & Hq1 & Hq2).
  rewrite Hrq, Hq0, Hq1, Hq2, Hd.
  split; [|split; [|split]].
  - subst fmt. unfold axis_format. destruct Hax as [-> | ->]; destruct (dims x); reflexivity.
  - subst fmt. unfold axis_format. destruct Hax as [-> | ->]; destruct (dims x); reflexivity.
  - subst fmt. unfold axis_format. destruct Hax as [-> | ->]; destruct (dims x); reflexivity.
  - exact Hc.
Qed.

(** With stride 1 and no fewer channels than asked for, the shortcut is the
    input itself (the pooling window is one element, nothing is padded,
    [x + 0.] adds zero). *)
Theorem maybe_downsample_identity x out_filter axis :
  axis = (-1)%Z \/ axis = 1%Z ->
  (out_filter <= Z.of_nat (filters_of axis x))%Z ->
  _maybe_downsample x out_filter 1 axis = Ok (tgen (dims x) (tget x)).
Proof.
  intros Hax Hc. unfold filters_of in Hc.
  destruct Hax as [-> | ->].
  - apply (maybe_downsample_id x out_filter (-1) Ax3); [reflexivity|exact Hc].
  - apply (maybe_downsample_id x out_filter 1 Ax1); [reflexivity|exact Hc].
Qed.

Lemma tf_add_scalar_zero d f : tf_add_scalar (tgen d f) (Q2Qc 0) = tgen d f.
Proof.
  unfold tf_add_scalar. change (dims (tgen d f)) with d.
  apply tgen_ext. intros i Hi. rewrite tget_tgen by exact Hi. ring.
Qed.

(** With stride 1 and fewer channels than asked for, the shortcut is the
    input between two blocks of [p] zero channels,
    [p = (out_filter - channels) // 2]. *)
Theorem maybe_downsample_zero_padding x out_filter axis k :
  (axis = (-1)%Z /\ k = Ax3) \/ (axis = 1%Z /\ k = Ax1) ->
  (Z.of_nat (ix_get k (dims x)) < out_filter)%Z ->
  let c := ix_get k (dims x) in
  let p := Z.to_nat ((out_filter - Z.of_nat c) / 2) in
  exists r,
    _maybe_downsample x out_filter 1 axis = Ok r /\
    dims r = ix_set k (p + c + p)%nat (dims x) /\
    forall i, in_range i (dims r) ->
      tget r i = if ((p <=? ix_get k i) && (ix_get k i <? p + c))%nat
                 then tget x (ix_set k (ix_get k i - p)%nat i)
                 else Q2Qc 0.
Proof.
  intros Hax Hlt c p.
  assert (Hp0 : (0 <= (out_filter - Z.of_nat c) / 2)%Z) by (apply Z.div_pos; lia).
  unfold _maybe_downsample, mbind, result_bind.
  fold (axis_format axis). rewrite avg_pool_stride1.
  destruct Hax as [[-> ->] | [-> ->]].
  - rewrite (shape_at_ok _ (-1) Ax3 eq_refl).
    change (dims (tgen (dims x) (tget x))) with (dims x). fold c.
    destruct (Z.ltb_spec (Z.of_nat c) out_filter) as [_|?]; [|lia].
    change ((-1 =? 1)%Z) with false. cbv iota. unfold tf_pad.
    cbn [length Nat.eqb negb existsb fst snd Z.ltb Z.compare orb].
    destruct (Z.ltb_spec ((out_filter - Z.of_nat c) / 2) 0) as [?|_]; [lia|].
    cbn [orb]. cbv zeta. rewrite tf_add_scalar_zero.
    eexists. split; [reflexivity|].
    change (dims (tgen ?d ?f)) with d.
    cbn [pad_row nth fst snd Z.to_nat Nat.add ix_set ix_get].
    change (dims (tgen (dims x) (tget x))) with (dims x). fold p.
    change (i3 (dims x)) with c.
    change (Z.to_nat 0) with 0%nat. cbn [Nat.add].
    split; [f_equal; lia|].
    intros i Hi. rewrite tget_tgen by exact Hi.
    cbn [Nat.leb andb]. rewrite !Nat.sub_0_r, !Nat.add_0_r in *.
    destruct Hi as (H0 & H1 & H2 & H3). cbn [i0 i1 i2 i3] in *.
    replace (i0 i <? i0 (dims x))%nat with true by (symmetry; apply Nat.ltb_lt; lia).
    replace (i1 i <? i1 (dims x))%nat with true by (symmetry; apply Nat.ltb_lt; lia).
    replace (i2 i <? i2 (dims x))%nat with true by (symmetry; apply Nat.ltb_lt; lia).
    cbn [andb].
    destruct ((p <=? i3 i)%nat && (i3 i <? p + c)%nat) eqn:E; [|reflexivity].
    apply andb_true_iff in E. destruct E as [E1 E2].
    apply Nat.leb_le in E1. apply Nat.ltb_lt in E2.
    rewrite tget_tgen by (repeat split; cbn; unfold c in *; cbn in *; lia).
    destruct i; reflexivity.
  - rewrite (shape_at_ok _ 1 Ax1 eq_refl).
    change (dims (tgen (dims x) (tget x))) with (dims x). fold c.
    destruct (Z.ltb_spec (Z.of_nat c) out_filter) as [_|?]; [|lia].
    change ((1 =? 1)%Z) with true. cbv iota. unfold tf_pad.
    cbn [length Nat.eqb negb existsb fst snd Z.ltb Z.compare orb].
    destruct (Z.ltb_spec ((out_filter - Z.of_nat c) / 2) 0) as [?|_]; [lia|].
    cbn [orb]. cbv zeta. rewrite tf_add_scalar_zero.
    eexists. split; [reflexivity|].
    change (dims (tgen ?d ?f)) with d.
    cbn [pad_row nth fst snd Z.to_nat Nat.add ix_set ix_get].
    change (dims (tgen (dims x) (tget x))) with (dims x). fold p.
    change (i1 (dims x)) with c.
    change (Z.to_nat 0) with 0%nat. cbn [Nat.add].
    split; [f_equal; lia|].
    intros i Hi. rewrite tget_tgen by exact Hi.
    cbn [Nat.leb andb]. rewrite !Nat.sub_0_r, !Nat.add_0_r in *.
    destruct Hi as (H0 & H1 & H2 & H3). cbn [i0 i1 i2 i3] in *.
    replace (i0 i <? i0 (dims x))%nat with true by (symmetry; apply Nat.ltb_lt; lia).
    replace (i2 i <? i2 (dims x))%nat with true by (symmetry; apply Nat.ltb_lt; lia).
    replace (i3 i <? i3 (dims x))%nat with true by (symmetry; apply Nat.ltb_lt; lia).
    rewrite !andb_true_r. cbn [andb].
    destruct ((p <=? i1 i)%nat && (i1 i <? p + c)%nat) eqn:E; [|reflexivity].
    apply andb_true_iff in E. destruct E as [E1 E2].
    apply Nat.leb_le in E1. apply Nat.ltb_lt in E2.
    rewrite tget_tgen by (repeat split; cbn; unfold c in *; cbn in *; lia).
    destruct i; reflexivity.
Qed.

(** ** LayerScale *)

Lemma bdim_refl a : bdim a a = Some a.
Proof. unfold bdim. rewrite Nat.eqb_refl. reflexivity. Qed.

Lemma bidx_in_range d i : in_range i d -> bidx d i = i.
Proof.
  intros (H0 & H1 & H2 & H3). destruct i as [a b c e], d as [da db dc de].
  unfold bidx. simpl in *.
  f_equal; match goal with |- (if (?n =? 1)%nat then _ else _) = _ =>
    destruct (Nat.eqb_spec n 1); [lia | reflexivity] end.
Qed.

(** On an input of rank 3 the first call of a [LayerScale] keeps the shape,
    and every element of the result is the float32 product of the element
    cast to float32 and the float32 value of [init_values], cast back to
    the dtype of the input. *)
Theorem LayerScale_scales_rank3 (fl : LayerScale.float_ops) init_values inputs :
  i0 (dims inputs) = 1%nat ->
  LayerScale.first_call fl (LayerScale.__init__ init_values) 3 inputs
  = Ok (tgen (dims inputs)
          (fun i => LayerScale.to_input_dtype fl
                      (LayerScale.mul fl (LayerScale.to_float32 fl (tget inputs i))
                                         (LayerScale.to_float32 fl init_values)))).
Proof.
  intros H0. unfold LayerScale.first_call, LayerScale.build, LayerScale.shape_list,
    LayerScale.__init__, LayerScale.call, mbind, result_bind.
  cbn [Nat.sub skipn nth_error LayerScale.gamma LayerScale.gamma_init_value].
  unfold binop, bshape. change (dims (tgen ?d ?f)) with d. cbn [i0 i1 i2 i3].
  rewrite H0. cbn [bdim Nat.eqb].
  assert (Hb : forall n, bdim n 1 = Some n).
  { intros n. unfold bdim. destruct (Nat.eqb_spec n 1) as [->|]; [reflexivity|].
    cbn [Nat.eqb]. reflexivity. }
  rewrite !Hb, bdim_refl. f_equal.
  replace (Ix 1 (i1 (dims inputs)) (i2 (dims inputs)) (i3 (dims inputs))) with (dims inputs)
    by (destruct (dims inputs); cbn in *; subst; reflexivity).
  apply tgen_ext. intros i Hi. rewrite (bidx_in_range _ _ Hi).
  rewrite tget_tgen; [reflexivity|].
  destruct Hi as (A & B & C & D). unfold bidx. cbn [i0 i1 i2 i3 Nat.eqb].
  repeat split; cbn [i0 i1 i2 i3]; try lia.
  destruct (Nat.eqb_spec (i3 (dims inputs)) 1); lia.
Qed.

(** [build] sizes [gamma] by axis 2 of the input shape.  On an input of
    rank 4 that is the width, which broadcasting aligns with the channel
    axis: whenever width and channel count differ and neither is 1, the
    first call raises. *)
Theorem LayerScale_rank4_mismatch (fl : LayerScale.float_ops) init_values inputs :
  i2 (dims inputs) <> i3 (dims inputs) ->
  i2 (dims inputs) <> 1%nat -> i3 (dims inputs) <> 1%nat ->
  LayerScale.first_call fl (LayerScale.__init__ init_values) 4 inputs
  = Raise InvalidArgumentError.
Proof.
  intros Hne H2 H3. unfold LayerScale.first_call, LayerScale.build, LayerScale.shape_list,
    LayerScale.__init__, LayerScale.call, mbind, result_bind.
  cbn [Nat.sub skipn nth_error LayerScale.gamma LayerScale.gamma_init_value].
  unfold binop, bshape. change (dims (tgen ?d ?f)) with d. cbn [i0 i1 i2 i3].
  assert (Hb : bdim (i3 (dims inputs)) (i2 (dims inputs)) = None).
  { unfold bdim.
    destruct (Nat.eqb_spec (i3 (dims inputs)) (i2 (dims inputs))); [congruence|].
    destruct (Nat.eqb_spec (i3 (dims inputs)) 1); [congruence|].
    destruct (Nat.eqb_spec (i2 (dims inputs)) 1); [congruence|]. reflexivity. }
  rewrite Hb.
  destruct (bdim (i0 (dims inputs)) 1), (bdim (i1 (dims inputs)) 1),
    (bdim (i2 (dims inputs)) 1); reflexivity.
Qed.

(** ** The transformer blocks *)

Lemma unpack_inputs_length l :
  length l <> 2%nat -> length l <> 3%nat ->
  TransformerEncoderBlock.unpack_inputs (Many l) = Raise ValueError.
Proof.
  intros H2 H3. unfold TransformerEncoderBlock.unpack_inputs.
  destruct (Nat.eqb_spec (length l) 2); [contradiction|].
  destruct (Nat.eqb_spec (length l) 3); [contradiction|]. reflexivity.
Qed.

(** A list or tuple of inputs whose length is neither 2 nor 3 makes both
    transformer blocks raise [ValueError], whatever their sub-layers are:
    none of them is reached. *)
Theorem Transformer_inputs_length (enc : TransformerEncoderBlock.t)
    (sca : TransformerScaffold.t) l output_range training :
  length l <> 2%nat -> length l <> 3%nat ->
  TransformerEncoderBlock.call enc (Many l) output_range training = Raise ValueError /\
  TransformerScaffold.call sca (Many l) training = Raise ValueError.
Proof.
  intros H2 H3. unfold TransformerEncoderBlock.call, TransformerScaffold.call.
  rewrite (unpack_inputs_length l H2 H3). split; reflexivity.
Qed.

(** With [norm_first] and [ffn_has_residual_connection] both set,
    [TransformerScaffold.call] returns for no input: it raises, and the
    check comes only after the attention and the feed-forward layers have
    run. *)
Theorem TransformerScaffold_norm_first_ffn_residual (self : TransformerScaffold.t)
    inputs training :
  TransformerScaffold._norm_first self = true ->
  TransformerScaffold._ffn_has_residual_connection self = true ->
  is_ok (TransformerScaffold.call self inputs training) = false /\
  (forall input_tensor normed attention_output attention_scores dropped sd
          source_attention_output attention_normed layer_output,
     inputs = One input_tensor ->
     TransformerScaffold._attention_layer_norm self input_tensor = Ok normed ->
     TransformerScaffold._attention_layer self normed normed None training
       = Ok (attention_output, attention_scores) ->
     TransformerScaffold._attention_dropout self training attention_output = Ok dropped ->
     TransformerScaffold._stochastic_depth self training dropped = Ok sd ->
     tf_add input_tensor sd = Ok source_attention_output ->
     TransformerScaffold._output_layer_norm self source_attention_output
       = Ok attention_normed ->
     TransformerScaffold._feedforward_block self = Some layer_output ->
     is_ok (layer_output training attention_normed) = true ->
     TransformerScaffold.call self inputs training = Raise ValueError).
Proof.
  intros Hn Hf. split.
  - unfold TransformerScaffold.call, mbind, result_bind. rewrite Hn, Hf.
    destruct (TransformerEncoderBlock.unpack_inputs inputs) as [[[x kv] mask]|];
      [|reflexivity].
    destruct (TransformerScaffold._attention_layer_norm self x); [|reflexivity].
    cbn [read_local].
    destruct (TransformerScaffold._attention_layer self _ _ _ _) as [[ao sc]|];
      [|reflexivity].
    destruct (TransformerScaffold._attention_dropout self _ _); [|reflexivity].
    destruct (TransformerScaffold._stochastic_depth self _ _); [|reflexivity].
    destruct (tf_add _ _); [|reflexivity].
    destruct (TransformerScaffold._output_layer_norm self _); [|reflexivity].
    destruct (TransformerScaffold._feedforward_block self) as [ffn|].
    + destruct (ffn _ _); reflexivity.
    + destruct (TransformerScaffold._intermediate_dense self _); [|reflexivity].
      destruct (TransformerScaffold._intermediate_activation_layer self _); [|reflexivity].
      destruct (TransformerScaffold._output_dense self _); [|reflexivity].
      destruct (TransformerScaffold._output_dropout self _ _); reflexivity.
  - intros x normed ao sc dropped sd sao an ffn -> Hnorm Hatt Hdrop Hsd Hadd Hout Hffn Hok.
    unfold TransformerScaffold.call, mbind, result_bind.
    cbn [TransformerEncoderBlock.unpack_inputs].
    rewrite Hn, Hf, Hnorm. cbn [read_local]. rewrite Hatt, Hdrop, Hsd, Hadd, Hout, Hffn.
    destruct (ffn training an); [reflexivity|discriminate].
Qed.

(** ** The endpoints of the inverted-bottleneck block *)

(** [InvertedBottleneckBlock.call] returns the endpoints dictionary exactly
    when [output_intermediate_endpoints] is set; the dictionary then holds
    the output of the depthwise activation under the key [depthwise] when
    the block has a depthwise convolution, and nothing otherwise. *)
Theorem InvertedBottleneckBlock_endpoints (self : InvertedBottleneckBlock.t)
    inputs training x eps :
  InvertedBottleneckBlock.call self inputs training = Ok (x, eps) ->
  (InvertedBottleneckBlock._output_intermediate_endpoints self = false -> eps = None) /\
  (InvertedBottleneckBlock._output_intermediate_endpoints self = true ->
   (InvertedBottleneckBlock._use_depthwise self = false -> eps = Some []) /\
   (InvertedBottleneckBlock._use_depthwise self = true ->
    exists u t, InvertedBottleneckBlock._depthwise_activation_layer self u = Ok t /\
                eps = Some [("depthwise"%string, t)])).
Proof.
  unfold InvertedBottleneckBlock.call, InvertedBottleneckBlock.main_branch,
    mbind, result_bind. intros H.
  destruct (if (1 <? InvertedBottleneckBlock._expand_ratio self)%Z then _ else _)
    as [x0|]; [|discriminate].
  destruct (InvertedBottleneckBlock._use_depthwise self) eqn:Ed.
  - destruct (InvertedBottleneckBlock._conv1 self x0) as [x1|]; [|discriminate].
    destruct (InvertedBottleneckBlock._norm1 self x1) as [x2|]; [|discriminate].
    destruct (InvertedBottleneckBlock._depthwise_activation_layer self x2) as [x3|] eqn:Eda;
      [|discriminate].
    cbn [fst snd] in H.
    destruct (match InvertedBottleneckBlock._squeeze_excitation self with
              | Some se => se x3 | None => Ok x3 end) as [x4|]; [|discriminate].
    destruct (InvertedBottleneckBlock._conv2 self x4) as [x5|]; [|discriminate].
    destruct (InvertedBottleneckBlock._norm2 self x5) as [x6|]; [|discriminate].
    cbn [fst snd] in H.
    destruct (if InvertedBottleneckBlock.residual_condition self then _ else _) as [x7|];
      [|discriminate].
    destruct (InvertedBottleneckBlock._output_intermediate_endpoints self);
      inversion H; subst; split; try discriminate; try reflexivity.
    intros _. split; [discriminate|]. intros _. exists x2, x3. split; [exact Eda|reflexivity].
  - cbn [fst snd] in H.
    destruct (match InvertedBottleneckBlock._squeeze_excitation self with
              | Some se => se x0 | None => Ok x0 end) as [x4|]; [|discriminate].
    destruct (InvertedBottleneckBlock._conv2 self x4) as [x5|]; [|discriminate].
    destruct (InvertedBottleneckBlock._norm2 self x5) as [x6|]; [|discriminate].
    cbn [fst snd] in H.
    destruct (if InvertedBottleneckBlock.residual_condition self then _ else _) as [x7|];
      [|discriminate].
    destruct (InvertedBottleneckBlock._output_intermediate_endpoints self);
      inversion H; subst; split; try discriminate; try reflexivity.
    intros _. split; [reflexivity|discriminate].
Qed.

(** ** The statements on concrete runs *)

Lemma unit_run (r : result unit * world) :
  is_ok (fst r) = true -> r = (Ok tt, snd r).
Proof. destruct r as [[[]|e] w]; [reflexivity|discriminate]. Qed.

Lemma tensor_ok (r : result tensor) : is_ok r = true -> r = Ok (result_tensor r).
Proof. destruct r; [reflexivity|discriminate]. Qed.

Lemma ckpt_then_load_is_identity_witness :
  exists w2,
    _load_ckpt_non_trainable_vars rev_layer
      (snd (_ckpt_non_trainable_vars rev_layer (world0 store4))) = (Ok tt, w2) /\
    vars w2 = vars (world0 store4) /\
    vars (snd (_ckpt_non_trainable_vars rev_layer (world0 store4))) = vars (world0 store4).
Proof.
  apply (ckpt_then_load_is_identity rev_layer (world0 store4)).
  apply (unit_run (_ckpt_non_trainable_vars rev_layer (world0 store4))).
  vm_compute. reflexivity.
Defined.

Lemma grad_fn_unknown_variable_witness :
  grad_fn rev_layer (Some true) (run_closure rev_forward) c1_dy (Some [2; 7; 0]%nat)
    (snd rev_forward)
  = (Raise ValueError, snd rev_forward).
Proof.
  apply (grad_fn_unknown_variable rev_layer (Some true) (run_closure rev_forward) c1_dy
           [2; 7; 0]%nat 7%nat).
  - vm_compute. reflexivity.
  - reflexivity.
  - vm_compute. reflexivity.
  - simpl. auto.
  - simpl. intros [H|[H|[]]]; discriminate.
Defined.

Lemma maybe_downsample_shape_witness :
  (0 < 2)%Z /\
  i0 (dims (result_tensor (_maybe_downsample c3_x 4 2 (-1)))) = i0 (dims c3_x) /\
  i1 (dims (result_tensor (_maybe_downsample c3_x 4 2 (-1)))) = (i1 (dims c3_x) / 2)%nat /\
  i2 (dims (result_tensor (_maybe_downsample c3_x 4 2 (-1)))) = (i2 (dims c3_x) / 2)%nat /\
  Z.of_nat (filters_of (-1) (result_tensor (_maybe_downsample c3_x 4 2 (-1))))
    = padded_filters (Z.of_nat (filters_of (-1) c3_x)) 4.
Proof.
  apply (maybe_downsample_shape c3_x 4 2 (-1)).
  - left. reflexivity.
  - apply tensor_ok. vm_compute. reflexivity.
Defined.

Lemma maybe_downsample_identity_witness :
  _maybe_downsample c3_x 2 1 (-1) = Ok (tgen (dims c3_x) (tget c3_x)).
Proof.
  apply (maybe_downsample_identity c3_x 2 (-1)).
  - left. reflexivity.
  - vm_compute. discriminate.
Defined.

Lemma maybe_downsample_zero_padding_witness :
  exists r,
    _maybe_downsample c3_x 7 1 (-1) = Ok r /\
    dims r = ix_set Ax3 (2 + 2 + 2)%nat (dims c3_x) /\
    forall i, in_range i (dims r) ->
      tget r i = if ((2 <=? ix_get Ax3 i) && (ix_get Ax3 i <? 2 + 2))%nat
                 then tget c3_x (ix_set Ax3 (ix_get Ax3 i - 2)%nat i)
                 else Q2Qc 0.
Proof.
  apply (maybe_downsample_zero_padding c3_x 7 (-1) Ax3).
  - left. split; reflexivity.
  - vm_compute. reflexivity.
Defined.

(** [LayerScale(0.5)] on the integers 1 to 8: halving them rounds nothing
    in float32. *)
Lemma LayerScale_scales_rank3_witness :
  LayerScale.first_call LayerScale.exact_ops (LayerScale.__init__ (Q2Qc (1 # 2))) 3 c3_x
  = Ok (tgen (dims c3_x) (fun i => (tget c3_x i * Q2Qc (1 # 2))%Qc)).
Proof.
  apply (LayerScale_scales_rank3 LayerScale.exact_ops (Q2Qc (1 # 2)) c3_x). reflexivity.
Defined.

Lemma LayerScale_rank4_mismatch_witness :
  LayerScale.first_call LayerScale.exact_ops (LayerScale.__init__ (Q2Qc (1 # 2))) 4
    (tensor_of (Ix 1 1 2 3) [[[[1; 2; 3]; [4; 5; 6]]]]%Z)
  = Raise InvalidArgumentError.
Proof.
  apply (LayerScale_rank4_mismatch LayerScale.exact_ops (Q2Qc (1 # 2))
           (tensor_of (Ix 1 1 2 3) [[[[1; 2; 3]; [4; 5; 6]]]]%Z));
    vm_compute; discriminate.
Defined.

Lemma Transformer_inputs_length_witness :
  TransformerEncoderBlock.call encoder_identity (Many [c1_x; c1_x; c1_x; c1_x]) None None
    = Raise ValueError /\
  TransformerScaffold.call scaffold_identity (Many [c1_x; c1_x; c1_x; c1_x]) None
    = Raise ValueError.
Proof.
  apply (Transformer_inputs_length encoder_identity scaffold_identity
           [c1_x; c1_x; c1_x; c1_x] None None); simpl; lia.
Defined.

Lemma TransformerScaffold_norm_first_ffn_residual_witness :
  TransformerScaffold.call scaffold_identity (One c1_x) None = Raise ValueError.
Proof.
  destruct (TransformerScaffold_norm_first_ffn_residual scaffold_identity (One c1_x) None
              eq_refl eq_refl) as [_ H].
  apply (H c1_x c1_x c1_x c1_x c1_x c1_x (result_tensor (tf_add c1_x c1_x))
           (result_tensor (tf_add c1_x c1_x)) (fun _ => id_sublayer));
    reflexivity.
Defined.

Lemma InvertedBottleneckBlock_endpoints_witness :
  exists u t, InvertedBottleneckBlock._depthwise_activation_layer ibb_identity u = Ok t /\
              Some [("depthwise"%string, c1_x)] = Some [("depthwise"%string, t)].
Proof.
  destruct (InvertedBottleneckBlock_endpoints ibb_identity c1_x None
              (result_tensor (tf_add c1_x c1_x)) (Some [("depthwise"%string, c1_x)]))
    as [_ H].
  - vm_compute. reflexivity.
  - apply (proj2 (H eq_refl)). reflexivity.
Defined.

(** ** The store after a completed manual backward pass *)

(** For blocks whose calls write nothing but their own non-trainable
    variables, a forward call followed by a completed manual backward call
    leaves the whole store as the forward call left it: the statistics are
    restored and nothing else was written. *)
Theorem manual_backward_preserves_store self training inputs w y cl w1 dy variables
    dx gv w2 :
  writes_only_statistics (_f self) -> writes_only_statistics (_g self) ->
  ReversibleLayer_call self inputs training w = (Ok (y, cl), w1) ->
  cl_irreversible cl = false ->
  _manual_grads self = true ->
  grad_fn self training cl dy variables w1 = (Ok (dx, gv), w2) ->
  vars w2 = vars w1.
Proof.
  intros Hwf Hwg Hfwd Hirr Hman Hbwd.
  apply reversible_inv in Hfwd.
  destruct Hfwd as (x1 & x2 & f_x2 & st1 & cf & x1_down & z1 & g_z1 & st2 & cg & x2_down
                    & y2 & cy & ci & fs & gs & Hfwd).
  destruct Hfwd as (_&_&_&_&_&_&_&_&_&_&_&_& Hfs & Hgs & _ & Hw1).
  unfold grad_fn in Hbwd. rewrite Hirr, Hman in Hbwd. simpl in Hbwd.
  apply grad_fn_manual_inv in Hbwd.
  destruct Hbwd as (dy1 & dy2 & vs & idx & g_z1' & st1' & x2' & f_x2' & st2' & x1' & gdx
                    & dwg & dz1 & fdx & dwf & dx2 & fs' & gs' & Hbwd).
  destruct Hbwd as (_&_&_& Hcg &_& Hcf &_&_&_&_&_&_&_& Hfs' & Hgs' & Hw2).
  subst w1. cbn [vars _f_non_trainable_vars _g_non_trainable_vars] in *.
  inversion Hfs'; inversion Hgs'; subst fs' gs'.
  subst w2. cbn [vars]. apply map_eq. intros v.
  destruct (in_dec Nat.eq_dec v (non_trainable_variables (_g self))) as [Hg|Hg].
  - apply assign_all_restores; assumption.
  - rewrite assign_all_notin by assumption.
    destruct (in_dec Nat.eq_dec v (non_trainable_variables (_f self))) as [Hf|Hf].
    + apply assign_all_restores; assumption.
    + rewrite assign_all_notin by assumption.
      pose proof (Hwf training st1' x2' v Hf) as H1. rewrite Hcf in H1.
      pose proof (Hwg training st2 (cl_y1 cl) v Hg) as H2. rewrite Hcg in H2.
      cbn [snd] in H1, H2. rewrite H1. exact H2.
Qed.

Lemma manual_backward_preserves_store_witness :
  vars (snd rev_backward) = vars (snd rev_forward).
Proof.
  apply (manual_backward_preserves_store rev_layer (Some true) c1_x (world0 store4)
           (run_output rev_forward) (run_closure rev_forward) (snd rev_forward)
           c1_dy (Some [2; 0]%nat) (run_dx rev_backward) (run_grads rev_backward)
           (snd rev_backward)).
  - apply pool_scale_writes_only_statistics.
  - apply pool_scale_writes_only_statistics.
  - apply (forward_run rev_forward). vm_compute. reflexivity.
  - vm_compute. reflexivity.
  - reflexivity.
  - apply (backward_run rev_backward). vm_compute. reflexivity.
Defined.

(** ** [output_range] of the transformer encoder block *)

(** [output_range=0] is false in Python's sense: on a block without an
    [output_range] of its own the call slices nothing and is the call with
    [output_range=None], not a call that keeps no position. *)
Theorem TransformerEncoderBlock_output_range_zero (self : TransformerEncoderBlock.t)
    inputs training :
  TransformerEncoderBlock._output_range self = None ->
  TransformerEncoderBlock.call self inputs (Some 0%Z) training
  = TransformerEncoderBlock.call self inputs None training.
Proof.
  intros H. unfold TransformerEncoderBlock.call. rewrite H.
  change (truthy_int (Some 0%Z)) with false. reflexivity.
Qed.

Lemma TransformerEncoderBlock_output_range_zero_witness :
  TransformerEncoderBlock.call encoder_identity (One c1_x) (Some 0%Z) None
  = TransformerEncoderBlock.call encoder_identity (One c1_x) None None.
Proof.
  apply (TransformerEncoderBlock_output_range_zero encoder_identity (One c1_x) None).
  reflexivity.
Defined.
